(** * System sensors of the Unraid integration

    A shallow embedding of [custom_components/unraid/sensors/system.py].

    The sensors are small value extractors over the coordinator's snapshot,
    a nested Python dictionary.  The snapshot is dynamically typed and the
    sensors rely on exceptions, so the embedding carries

    - a universe [pyval] of Python values (with insertion-ordered
      dictionaries as association lists),
    - an error monad [result] whose failures are the exception classes the
      source names in its [except] clauses,
    - Python floats as IEEE-754 binary64 numbers, through the Standard
      Library's [spec_float] with [prec = 53] and [emax = 1024].

    Text is kept as UTF-8 byte strings. The builtins [str.strip],
    [str.lower] and [float] are modelled on ASCII: a byte above 127 is no
    whitespace, has no lower case and is no part of a number, which is
    how the three builtins treat the degree sign. *)

From Stdlib Require Import ZArith List String Ascii Bool Lia.
From Stdlib Require Import Floats.SpecFloat DecimalString.
Import ListNotations.

Local Open Scope string_scope.
Local Open Scope Z_scope.

(** ** Exceptions and results *)

Inductive exn : Type :=
| KeyError
| TypeError
| ValueError
| AttributeError
| OverflowError.

Inductive result (A : Type) : Type :=
| Ok (a : A)
| Raise (e : exn).

Arguments Ok {A} a.
Arguments Raise {A} e.

Definition bind {A B : Type} (c : result A) (k : A -> result B) : result B :=
  match c with
  | Ok a => k a
  | Raise e => Raise e
  end.

Notation "x <- c ;; k" := (bind c (fun x => k))
  (at level 61, c at next level, right associativity).

Definition exn_eqb (e e' : exn) : bool :=
  match e, e' with
  | KeyError, KeyError
  | TypeError, TypeError
  | ValueError, ValueError
  | AttributeError, AttributeError
  | OverflowError, OverflowError => true
  | _, _ => false
  end.

(** [try: c  except (classes): h] *)
Definition try_except {A : Type} (c : result A) (classes : list exn)
    (h : result A) : result A :=
  match c with
  | Ok a => Ok a
  | Raise e => if existsb (exn_eqb e) classes then h else Raise e
  end.

(** ** Python floats: IEEE-754 binary64 *)

Definition float : Type := spec_float.

Module Float.

Definition prec : Z := 53.
Definition emax : Z := 1024.

Definition add : float -> float -> float := SFadd prec emax.
Definition div : float -> float -> float := SFdiv prec emax.
Definition leb : float -> float -> bool := SFleb.
Definition eqb : float -> float -> bool := SFeqb.

(** The binary64 number nearest to [p / q] (ties to even), with sign
    [s]. The quotient is computed with enough bits for the rounding to
    be exact, as in the division of two floats. *)
Definition of_ratio (s : bool) (p q : positive) : float :=
  let '(mz, ez, lz) := SFdiv_core_binary prec emax (Zpos p) 0 (Zpos q) 0 in
  binary_round_aux prec emax s mz ez lz.

(** The binary64 number nearest to [(-1)^s * m * 10^e]. *)
Definition of_decimal (s : bool) (m : Z) (e : Z) : float :=
  match m with
  | Zpos p =>
      if 0 <=? e then of_ratio s (p * Z.to_pos (10 ^ e)) 1
      else of_ratio s p (Z.to_pos (10 ^ (- e)))
  | _ => S754_zero s
  end.

(** Conversion of an integer, rounding to nearest (an infinity when the
    integer is beyond the binary64 range). *)
Definition of_Z (z : Z) : float := binary_normalize prec emax z 0 false.

Definition is_finite (f : float) : bool :=
  match f with
  | S754_zero _ | S754_finite _ _ _ => true
  | _ => false
  end.

Definition is_zero (f : float) : bool :=
  match f with
  | S754_zero _ => true
  | _ => false
  end.

(** Truncation towards zero of a finite float. *)
Definition trunc (f : float) : Z :=
  match f with
  | S754_finite s m e =>
      cond_Zopp s (match e with
                   | Zneg k => Zpos m / 2 ^ Zpos k
                   | _ => Zpos m * 2 ^ e
                   end)
  | _ => 0
  end.

(** [half_even_div n d] is the integer nearest to [n / d], ties to the
    even one ([0 <= n], [0 < d]). *)
Definition half_even_div (n d : Z) : Z :=
  let q := n / d in
  let r := n mod d in
  match 2 * r ?= d with
  | Lt => q
  | Gt => q + 1
  | Eq => if Z.even q then q else q + 1
  end.

(** The integer nearest to [|f| * 10 ^ k] (ties to even) for a finite
    [f] and [0 <= k]. *)
Definition scaled_half_even (f : float) (k : Z) : Z :=
  match f with
  | S754_finite _ m e =>
      match e with
      | Zneg j => half_even_div (Zpos m * 10 ^ k) (2 ^ Zpos j)
      | _ => Zpos m * 2 ^ e * 10 ^ k
      end
  | _ => 0
  end.

Definition sign (f : float) : bool :=
  match f with
  | S754_zero s | S754_infinity s | S754_finite s _ _ => s
  | S754_nan => false
  end.

(** [round(f, ndigits)] for [0 <= ndigits]: the decimal with [ndigits]
    fractional digits nearest to the exact value of [f] (ties to even),
    read back as a binary64 number; infinities and nan round to
    themselves. *)
Definition round (f : float) (ndigits : Z) : float :=
  match f with
  | S754_finite s _ _ => of_decimal s (scaled_half_even f ndigits) (- ndigits)
  | _ => f
  end.

Definition minus50 : float := of_Z (-50).
Definition plus150 : float := of_Z 150.

End Float.

(** ** Python strings *)

Module Str.

Definition code (c : ascii) : Z := Z.of_N (N_of_ascii c).

(** [str.isspace] on ASCII: tab, line feed, vertical tab, form feed,
    carriage return, the four separators 28-31 and the space. *)
Definition is_space (c : ascii) : bool :=
  ((9 <=? code c) && (code c <=? 13)) || ((28 <=? code c) && (code c <=? 32)).

(** The whitespace [float] skips around a number ([Py_ISSPACE]). *)
Definition is_c_space (c : ascii) : bool :=
  ((9 <=? code c) && (code c <=? 13)) || (code c =? 32).

Definition is_digit (c : ascii) : bool :=
  (48 <=? code c) && (code c <=? 57).

Definition lower_char (c : ascii) : ascii :=
  if (65 <=? code c) && (code c <=? 90)
  then ascii_of_N (N_of_ascii c + 32) else c.

(** [s.lower()] *)
Fixpoint lower (s : string) : string :=
  match s with
  | EmptyString => EmptyString
  | String c r => String (lower_char c) (lower r)
  end.

Fixpoint lstrip_with (sp : ascii -> bool) (s : string) : string :=
  match s with
  | EmptyString => EmptyString
  | String c r => if sp c then lstrip_with sp r else s
  end.

Fixpoint rstrip_with (sp : ascii -> bool) (s : string) : string :=
  match s with
  | EmptyString => EmptyString
  | String c r =>
      match rstrip_with sp r with
      | EmptyString => if sp c then EmptyString else String c EmptyString
      | r' => String c r'
      end
  end.

Definition strip_with (sp : ascii -> bool) (s : string) : string :=
  lstrip_with sp (rstrip_with sp s).

(** [s.strip()] *)
Definition strip (s : string) : string := strip_with is_space s.

(** [sub in s] *)
Fixpoint contains (sub s : string) : bool :=
  prefix sub s ||
  match s with
  | EmptyString => false
  | String _ r => contains sub r
  end.

(** [replace_from old new skip s]: the replacement of the occurrences of
    a non-empty [old] in [s], scanning left to right, after the first
    [skip] characters (those of a match just replaced) are dropped. *)
Fixpoint replace_from (old new : string) (skip : nat) (s : string) : string :=
  match s with
  | EmptyString => EmptyString
  | String c r =>
      match skip with
      | S k => replace_from old new k r
      | O =>
          if prefix old s
          then new ++ replace_from old new (Nat.pred (String.length old)) r
          else String c (replace_from old new O r)
      end
  end.

Fixpoint intersperse (new s : string) : string :=
  match s with
  | EmptyString => new
  | String c r => new ++ String c (intersperse new r)
  end.

(** [s.replace(old, new)] *)
Definition replace (old new s : string) : string :=
  match old with
  | EmptyString => intersperse new s
  | _ => replace_from old new O s
  end.

(** [str(n)] for an integer. *)
Definition of_Z (n : Z) : string := NilEmpty.string_of_int (Z.to_int n).

Fixpoint span_digits (s : string) : string * string :=
  match s with
  | EmptyString => (EmptyString, EmptyString)
  | String c r =>
      if is_digit c
      then let '(d, t) := span_digits r in (String c d, t)
      else (EmptyString, s)
  end.

Fixpoint digits_value (acc : Z) (s : string) : Z :=
  match s with
  | EmptyString => acc
  | String c r => digits_value (10 * acc + (code c - 48)) r
  end.

(** Underscores are accepted between two digits only, and dropped. *)
Fixpoint drop_underscores (prev : ascii) (s : string) : option string :=
  match s with
  | EmptyString => if Ascii.eqb prev "_" then None else Some EmptyString
  | String c r =>
      if Ascii.eqb c "_"
      then if is_digit prev then drop_underscores c r else None
      else if Ascii.eqb prev "_" && negb (is_digit c) then None
      else option_map (String c) (drop_underscores c r)
  end.

Definition parse_sign (s : string) : bool * string :=
  match s with
  | String "-" r => (true, r)
  | String "+" r => (false, r)
  | _ => (false, s)
  end.

(** The exponent part, which must reach the end of the text. *)
Definition parse_exponent (s : string) : option Z :=
  match s with
  | EmptyString => Some 0
  | String c r =>
      if Ascii.eqb c "e" || Ascii.eqb c "E"
      then
        let '(sg, r1) := parse_sign r in
        match span_digits r1 with
        | (String d ds, EmptyString) =>
            Some (cond_Zopp sg (digits_value 0 (String d ds)))
        | _ => None
        end
      else None
  end.

(** An unsigned decimal number [digits [. digits] [exponent]] with at
    least one digit in its mantissa, as [(m, e)] for [m * 10 ^ e]. *)
Definition parse_decimal (s : string) : option (Z * Z) :=
  let '(ip, r) := span_digits s in
  let '(fp, r') :=
    match r with
    | String "." r1 => span_digits r1
    | _ => (EmptyString, r)
    end in
  match ip ++ fp with
  | EmptyString => None
  | ds =>
      match parse_exponent r' with
      | Some e => Some (digits_value 0 ds, e - Z.of_nat (String.length fp))
      | None => None
      end
  end.

(** [float(s)] for a string: surrounding whitespace is skipped, then the
    text is a signed [inf], [infinity] or [nan] in any case, or a signed
    decimal number; anything else is a [ValueError]. *)
Definition to_float (s : string) : result float :=
  match drop_underscores "000" (strip_with is_c_space s) with
  | None => Raise ValueError
  | Some t =>
      let '(sg, r) := parse_sign t in
      let w := lower r in
      if String.eqb w "inf" || String.eqb w "infinity" then Ok (S754_infinity sg)
      else if String.eqb w "nan" then Ok S754_nan
      else match parse_decimal r with
           | Some (m, e) => Ok (Float.of_decimal sg m e)
           | None => Raise ValueError
           end
  end.

End Str.

(** ** [repr] of a float

    The shortest decimal that reads back as the same binary64 number (the
    nearest one when several of that length do), written in fixed
    notation, or in exponent notation when the decimal point would sit
    more than 16 digits to the right or 4 or more to the left. *)

Module FloatRepr.

Definition float_eqb (f g : float) : bool :=
  match f, g with
  | S754_zero s, S754_zero t | S754_infinity s, S754_infinity t => Bool.eqb s t
  | S754_nan, S754_nan => true
  | S754_finite s m e, S754_finite t n k =>
      Bool.eqb s t && Pos.eqb m n && Z.eqb e k
  | _, _ => false
  end.

Definition ndigits10 (n : Z) : Z := Z.of_nat (String.length (Str.of_Z n)).

(** The least [j] from [j0] on with [q <= p * 10 ^ j]. *)
Fixpoint first_scale (fuel : nat) (p q j : Z) : Z :=
  match fuel with
  | O => j
  | S fuel' => if q <=? p * 10 ^ j then j else first_scale fuel' p q (j + 1)
  end.

(** [floor (log10 (p / q))] for a binary64 magnitude [p / q]. *)
Definition exponent10 (p q : Z) : Z :=
  if q <=? p then ndigits10 (p / q) - 1 else - first_scale 400 p q 1.

(** The decimal [c * 10 ^ k] with [nd] digits that reads back as [f],
    when there is one. *)
Definition candidate (f : float) (p q : Z) (nd : Z) : option (Z * Z) :=
  let k := exponent10 p q - nd + 1 in
  let num := if 0 <=? k then p else p * 10 ^ (- k) in
  let den := if 0 <=? k then q * 10 ^ k else q in
  let lo := num / den in
  let hi := lo + 1 in
  let ok c := float_eqb (Float.of_decimal false c k) f in
  match ok lo, ok hi with
  | true, true =>
      match 2 * (num mod den) ?= den with
      | Lt => Some (lo, k)
      | Gt => Some (hi, k)
      | Eq => Some (if Z.even lo then lo else hi, k)
      end
  | true, false => Some (lo, k)
  | false, true => Some (hi, k)
  | false, false => None
  end.

Fixpoint shortest (fuel : nat) (f : float) (p q : Z) (nd : Z) : Z * Z :=
  match fuel with
  | O => (0, 0)
  | S fuel' =>
      match candidate f p q nd with
      | Some ck => ck
      | None => shortest fuel' f p q (nd + 1)
      end
  end.

Fixpoint zeros (n : nat) : string :=
  match n with
  | O => EmptyString
  | S k => String "0" (zeros k)
  end.

Definition rstrip_zeros (s : string) : string :=
  Str.rstrip_with (fun c => Ascii.eqb c "0") s.

(** The digits [ds] with the decimal point after the first [decpt] of
    them. *)
Definition layout (ds : string) (decpt : Z) : string :=
  let n := Z.of_nat (String.length ds) in
  if (decpt <=? -4) || (16 <? decpt) then
    let x := decpt - 1 in
    let xs := Str.of_Z (Z.abs x) in
    let mant :=
      match ds with
      | String d EmptyString => ds
      | String d r => String d (String "." r)
      | EmptyString => ds
      end in
    mant ++ "e" ++ (if x <? 0 then "-" else "+")
         ++ (if Z.abs x <? 10 then "0" else "") ++ xs
  else if decpt <=? 0 then
    "0." ++ zeros (Z.to_nat (- decpt)) ++ ds
  else if n <=? decpt then
    ds ++ zeros (Z.to_nat (decpt - n)) ++ ".0"
  else
    substring 0 (Z.to_nat decpt) ds ++ "."
      ++ substring (Z.to_nat decpt) (Z.to_nat (n - decpt)) ds.

Definition repr (f : float) : string :=
  match f with
  | S754_nan => "nan"
  | S754_infinity s => if s then "-inf" else "inf"
  | S754_zero s => if s then "-0.0" else "0.0"
  | S754_finite s m e =>
      let p := match e with Zneg _ => Zpos m | _ => Zpos m * 2 ^ e end in
      let q := match e with Zneg j => 2 ^ Zpos j | _ => 1 end in
      let '(c, k) := shortest 17 (S754_finite false m e) p q 1 in
      let ds := Str.of_Z c in
      (if s then "-" else "")
        ++ layout (rstrip_zeros ds) (Z.of_nat (String.length ds) + k)
  end.

End FloatRepr.

(** ** Python values *)

#[local] Set Warnings "-register-all".

Inductive pyval : Type :=
| PNone
| PBool (b : bool)
| PInt (n : Z)
| PFloat (f : float)
| PStr (s : string)
| PList (l : list pyval)
| PDict (items : list (pyval * pyval)).

Module Py.

Definition chr (n : N) : ascii := ascii_of_N n.

Definition quote1 : ascii := chr 39.
Definition quote2 : ascii := chr 34.
Definition backslash : ascii := chr 92.

Definition hex_digit (n : Z) : ascii :=
  match get (Z.to_nat n) "0123456789abcdef" with
  | Some c => c
  | None => "0"%char
  end.

Definition repr_char (q c : ascii) : string :=
  if Ascii.eqb c q || Ascii.eqb c backslash then String backslash (String c "")
  else if Str.code c =? 9 then String backslash "t"
  else if Str.code c =? 10 then String backslash "n"
  else if Str.code c =? 13 then String backslash "r"
  else if (Str.code c <? 32) || (Str.code c =? 127) then
    String backslash
      (String "x" (String (hex_digit (Str.code c / 16))
                     (String (hex_digit (Str.code c mod 16)) "")))
  else String c "".

(** [repr] of a string: single quotes, unless the text has a single
    quote and no double one. *)
Definition repr_str (s : string) : string :=
  let q :=
    if Str.contains (String quote1 "") s && negb (Str.contains (String quote2 "") s)
    then quote2 else quote1 in
  String q (String.concat "" (map (repr_char q) (list_ascii_of_string s)))
    ++ String q "".

Fixpoint repr (v : pyval) : string :=
  match v with
  | PNone => "None"
  | PBool b => if b then "True" else "False"
  | PInt n => Str.of_Z n
  | PFloat f => FloatRepr.repr f
  | PStr s => repr_str s
  | PList l => "[" ++ String.concat ", " (map repr l) ++ "]"
  | PDict items =>
      "{" ++ String.concat ", "
               (map (fun kv => repr (fst kv) ++ ": " ++ repr (snd kv)) items)
          ++ "}"
  end.

(** [str(v)] *)
Definition str (v : pyval) : string :=
  match v with
  | PStr s => s
  | _ => repr v
  end.

Definition is_none (v : pyval) : bool :=
  match v with
  | PNone => true
  | _ => false
  end.

Definition is_str (k : string) (v : pyval) : bool :=
  match v with
  | PStr s => String.eqb s k
  | _ => false
  end.

(** The value stored under the string key [k]. *)
Fixpoint lookup (k : string) (items : list (pyval * pyval)) : option pyval :=
  match items with
  | [] => None
  | (k', v) :: rest => if is_str k k' then Some v else lookup k rest
  end.

(** [v.get(k, default)] *)
Definition get (v : pyval) (k : string) (default : pyval) : result pyval :=
  match v with
  | PDict items =>
      Ok (match lookup k items with Some x => x | None => default end)
  | _ => Raise AttributeError
  end.

(** [v[k]] for a string [k] *)
Definition getitem (v : pyval) (k : string) : result pyval :=
  match v with
  | PDict items =>
      match lookup k items with
      | Some x => Ok x
      | None => Raise KeyError
      end
  | _ => Raise TypeError
  end.

(** [k in v] for a string [k] *)
Definition contains (k : string) (v : pyval) : result bool :=
  match v with
  | PDict items => Ok (existsb (fun kv => is_str k (fst kv)) items)
  | PList l => Ok (existsb (is_str k) l)
  | PStr s => Ok (Str.contains k s)
  | _ => Raise TypeError
  end.

(** [v.values()] and [v.items()] *)
Definition values (v : pyval) : result (list pyval) :=
  match v with
  | PDict items => Ok (map snd items)
  | _ => Raise AttributeError
  end.

Definition items (v : pyval) : result (list (pyval * pyval)) :=
  match v with
  | PDict its => Ok its
  | _ => Raise AttributeError
  end.

(** [v.lower()] *)
Definition lower (v : pyval) : result string :=
  match v with
  | PStr s => Ok (Str.lower s)
  | _ => Raise AttributeError
  end.

(** [isinstance(v, (str, float))] *)
Definition is_str_or_float (v : pyval) : bool :=
  match v with
  | PStr _ | PFloat _ => true
  | _ => false
  end.

(** [float(v)] *)
Definition to_float (v : pyval) : result float :=
  match v with
  | PFloat f => Ok f
  | PInt n =>
      match Float.of_Z n with
      | S754_infinity _ => Raise OverflowError
      | f => Ok f
      end
  | PBool b => Ok (Float.of_Z (if b then 1 else 0))
  | PStr s => Str.to_float s
  | _ => Raise TypeError
  end.

(** [int(f)] for a float *)
Definition int_of_float (f : float) : result Z :=
  match f with
  | S754_nan => Raise ValueError
  | S754_infinity _ => Raise OverflowError
  | _ => Ok (Float.trunc f)
  end.

(** [round(v, ndigits)] with [0 <= ndigits] *)
Definition round (v : pyval) (ndigits : Z) : result pyval :=
  match v with
  | PInt n => Ok (PInt n)
  | PBool b => Ok (PInt (if b then 1 else 0))
  | PFloat f => Ok (PFloat (Float.round f ndigits))
  | _ => Raise TypeError
  end.

(** Truth value of an [Optional[float]]. *)
Definition truthy (o : option float) : bool :=
  match o with
  | Some f => negb (Float.is_zero f)
  | None => false
  end.

(** [sum(l)] of floats, from the integer 0 and from left to right, as
    the language reference defines it. (CPython 3.12 and later carry a
    compensation term along the same sum; it is not modelled.) *)
Definition sum (l : list float) : float :=
  fold_left Float.add l (Float.of_Z 0).

(** A [for] loop whose body can raise. *)
Fixpoint for_each {A S : Type} (l : list A) (body : A -> S -> result S)
    (s : S) : result S :=
  match l with
  | [] => Ok s
  | x :: rest => s' <- body x s ;; for_each rest body s'
  end.

Definition is_number (v : pyval) : bool :=
  match v with
  | PInt _ | PFloat _ => true
  | _ => false
  end.

End Py.

(** ** The sensors

    Each class of the source is a module; [value_fn] and [available_fn]
    are the functions its entity description is built with. *)

Definition empty_dict : pyval := PDict [].

Module UnraidCPUUsageSensor.

Definition value_fn (data : pyval) : result pyval :=
  stats <- Py.get data "system_stats" empty_dict ;;
  Py.get stats "cpu_usage" PNone.

(** ["system_stats" in data and ... is not None] *)
Definition available_fn (data : pyval) : result bool :=
  present <- Py.contains "system_stats" data ;;
  if present then
    stats <- Py.get data "system_stats" empty_dict ;;
    usage <- Py.get stats "cpu_usage" PNone ;;
    Ok (negb (Py.is_none usage))
  else Ok false.

(** The attributes are built at a reading [now] of the platform's clock;
    [isoformat] is the platform's rendering of a date. *)
Section Attributes.

Variable datetime : Type.
Variable now : datetime.
Variable isoformat : datetime -> string.

Definition extra_state_attributes (coordinator_data : pyval) : result pyval :=
  data <- Py.get coordinator_data "system_stats" empty_dict ;;
  let last_update := PStr (isoformat now) in
  core_count <- Py.get data "cpu_cores" (PStr "unknown") ;;
  architecture <- Py.get data "cpu_arch" (PStr "unknown") ;;
  Ok (PDict [(PStr "last_update", last_update);
             (PStr "core_count", core_count);
             (PStr "architecture", architecture)]).

End Attributes.

End UnraidCPUUsageSensor.

Module UnraidRAMUsageSensor.

Definition value_fn (data : pyval) : result pyval :=
  stats <- Py.get data "system_stats" empty_dict ;;
  memory <- Py.get stats "memory_usage" empty_dict ;;
  percentage <- Py.get memory "percentage" (PInt 0) ;;
  Py.round percentage 1.

Section Attributes.

Variable datetime : Type.
Variable now : datetime.
Variable isoformat : datetime -> string.

Definition extra_state_attributes (coordinator_data : pyval) : result pyval :=
  stats <- Py.get coordinator_data "system_stats" empty_dict ;;
  memory <- Py.get stats "memory_usage" empty_dict ;;
  total <- Py.get memory "total" (PStr "unknown") ;;
  used <- Py.get memory "used" (PStr "unknown") ;;
  free <- Py.get memory "free" (PStr "unknown") ;;
  cached <- Py.get memory "cached" (PStr "unknown") ;;
  buffers <- Py.get memory "buffers" (PStr "unknown") ;;
  Ok (PDict [(PStr "total", total);
             (PStr "used", used);
             (PStr "free", free);
             (PStr "cached", cached);
             (PStr "buffers", buffers);
             (PStr "last_update", PStr (isoformat now))]).

End Attributes.

End UnraidRAMUsageSensor.

(** The uptime sensor is the one sensor with an attribute of its own,
    [_boot_time], which its value function assigns. Its code runs in a
    state-and-error monad over that attribute. The clock and the calendar
    arithmetic belong to the platform: [now] is what [dt_util.now()]
    returns during the call, and [minus_seconds t s] is
    [t - timedelta(seconds=s)], or [None] where Python raises
    [OverflowError] (a span or a date out of range). *)
Module UnraidUptimeSensor.

Section Clock.

Variable datetime : Type.
Variable now : datetime.
Variable minus_seconds : datetime -> float -> option datetime.

Record self : Type := { _boot_time : option datetime }.

(** [__init__] leaves [_boot_time] at [None]. *)
Definition initial : self := {| _boot_time := None |}.

Definition M (A : Type) : Type := self -> result A * self.

Definition ret {A : Type} (a : A) : M A := fun s => (Ok a, s).

Definition bindM {A B : Type} (c : M A) (k : A -> M B) : M B :=
  fun s =>
    match c s with
    | (Ok a, s') => k a s'
    | (Raise e, s') => (Raise e, s')
    end.

Definition lift {A : Type} (r : result A) : M A := fun s => (r, s).

Definition set_boot_time (t : datetime) : M unit :=
  fun _ => (Ok tt, {| _boot_time := Some t |}).

(** [try: c  except (classes): h]; what [c] assigned before it raised
    stays assigned. *)
Definition try_exceptM {A : Type} (c : M A) (classes : list exn)
    (h : M A) : M A :=
  fun s =>
    match c s with
    | (Ok a, s') => (Ok a, s')
    | (Raise e, s') =>
        if existsb (exn_eqb e) classes then h s' else (Raise e, s')
    end.

Definition now_minus (seconds : float) : M datetime :=
  lift (match minus_seconds now seconds with
        | Some t => Ok t
        | None => Raise OverflowError
        end).

Definition format_parts (days hours minutes : Z) : string :=
  Str.of_Z days ++ "d " ++ Str.of_Z hours ++ "h "
    ++ Str.of_Z minutes ++ "m".

(** [float(data.get("system_stats", {}).get("uptime", 0))] *)
Definition uptime_seconds (data : pyval) : result float :=
  stats <- Py.get data "system_stats" empty_dict ;;
  raw <- Py.get stats "uptime" (PInt 0) ;;
  Py.to_float raw.

Definition _format_uptime (data : pyval) : M string :=
  try_exceptM
    (bindM (lift (uptime_seconds data)) (fun uptime_seconds =>
     bindM (lift (Py.int_of_float uptime_seconds)) (fun whole =>
     let days := whole / 86400 in
     let remainder := whole mod 86400 in
     let hours := remainder / 3600 in
     let remainder := remainder mod 3600 in
     let minutes := remainder / 60 in
     bindM (now_minus uptime_seconds) (fun boot =>
     bindM (set_boot_time boot) (fun _ =>
     ret (format_parts days hours minutes))))))
    [TypeError; ValueError]
    (ret "unknown").

Definition value_fn : pyval -> M string := _format_uptime.

Definition available_fn (data : pyval) : result bool :=
  present <- Py.contains "system_stats" data ;;
  if present then
    stats <- Py.get data "system_stats" empty_dict ;;
    uptime <- Py.get stats "uptime" PNone ;;
    Ok (negb (Py.is_none uptime))
  else Ok false.

(** [isoformat] is the platform's rendering of a date. A date is always
    true, so [if self._boot_time] asks whether one was stored. *)
Variable isoformat : datetime -> string.

Definition extra_state_attributes (s : self) : pyval :=
  PDict [(PStr "boot_time",
          match _boot_time s with
          | Some t => PStr (isoformat t)
          | None => PNone
          end);
         (PStr "last_update", PStr (isoformat now))].

End Clock.

Arguments _boot_time {datetime} _.
Arguments Build_self {datetime} _.
Arguments initial {datetime}.

End UnraidUptimeSensor.

Module UnraidCPUTempSensor.

Definition _parse_temperature (value : string) : result (option float) :=
  try_except
    (let cleaned :=
       Str.strip (Str.replace "+" "" (Str.replace " C" ""
                   (Str.replace "°C" "" value))) in
     temp <- Str.to_float cleaned ;;
     if Float.leb Float.minus50 temp && Float.leb temp Float.plus150
     then Ok (Some temp) else Ok None)
    [ValueError; TypeError]
    (Ok None).

(** The body of the inner loop: one metric of one sensor group. *)
Definition visit_metric (kv : pyval * pyval) (core_temps : list float)
    : result (list float) :=
  let '(key, value) := kv in
  has_cpu <- Py.contains "CPU" key ;;
  has_temp <- (if has_cpu then Py.contains "Temp" key else Ok false) ;;
  if has_temp then
    temp <- _parse_temperature (Py.str value) ;;
    if Py.truthy temp
    then match temp with
         | Some t => Ok (core_temps ++ [t])%list
         | None => Ok core_temps
         end
    else Ok core_temps
  else Ok core_temps.

Definition visit_group (sensor_data : pyval) (core_temps : list float)
    : result (list float) :=
  metrics <- Py.items sensor_data ;;
  Py.for_each metrics visit_metric core_temps.

Definition average (core_temps : list float) : float :=
  Float.round
    (Float.div (Py.sum core_temps)
               (Float.of_Z (Z.of_nat (List.length core_temps)))) 1.

Definition _get_temperature (data : pyval) : result (option float) :=
  try_except
    (stats <- Py.getitem data "system_stats" ;;
     temp_data <- Py.get stats "temperature_data" empty_dict ;;
     sensors_data <- Py.get temp_data "sensors" empty_dict ;;
     groups <- Py.values sensors_data ;;
     core_temps <- Py.for_each groups visit_group [] ;;
     match core_temps with
     | [] => Ok None
     | _ => Ok (Some (average core_temps))
     end)
    [KeyError; ValueError; TypeError]
    (Ok None).

Definition value_fn : pyval -> result (option float) := _get_temperature.

End UnraidCPUTempSensor.

Module UnraidMotherboardTempSensor.

Definition _parse_temperature (value : string) : result (option float) :=
  try_except
    (let cleaned :=
       Str.strip (Str.replace "+" "" (Str.replace " C" ""
                   (Str.replace "°C" "" value))) in
     temp <- Str.to_float cleaned ;;
     if Float.leb Float.minus50 temp && Float.leb temp Float.plus150
     then Ok (Some temp) else Ok None)
    [ValueError; TypeError]
    (Ok None).

(** Common motherboard temperature patterns in priority order. *)
Definition mb_patterns : list string :=
  ["mb temp"; "board temp"; "system temp"; "motherboard"; "systin"; "temp1"].

(** A [for] loop whose body can [return]: [Some] is the returned value,
    [None] lets the loop go on. *)
Fixpoint first_return {A B : Type} (l : list A)
    (body : A -> result (option B)) : result (option B) :=
  match l with
  | [] => Ok None
  | x :: rest =>
      r <- body x ;;
      match r with
      | Some b => Ok (Some b)
      | None => first_return rest body
      end
  end.

Definition visit_metric (pattern_lower : string) (kv : pyval * pyval)
    : result (option float) :=
  let '(key, value) := kv in
  if Py.is_str_or_float value then
    key_lower <- Py.lower key ;;
    if Str.contains pattern_lower key_lower
    then _parse_temperature (Py.str value)
    else Ok None
  else Ok None.

Definition visit_group (pattern_lower : string) (sensor_data : pyval)
    : result (option float) :=
  metrics <- Py.items sensor_data ;;
  first_return metrics (visit_metric pattern_lower).

Definition visit_pattern (sensors_data : pyval) (pattern : string)
    : result (option float) :=
  let pattern_lower := Str.lower pattern in
  groups <- Py.values sensors_data ;;
  first_return groups (visit_group pattern_lower).

Definition _get_temperature (data : pyval) : result (option float) :=
  try_except
    (stats <- Py.getitem data "system_stats" ;;
     temp_data <- Py.get stats "temperature_data" empty_dict ;;
     sensors_data <- Py.get temp_data "sensors" empty_dict ;;
     first_return mb_patterns (visit_pattern sensors_data))
    [KeyError; TypeError; ValueError; AttributeError]
    (Ok None).

Definition value_fn : pyval -> result (option float) := _get_temperature.

End UnraidMotherboardTempSensor.

(** The three storage sensors read [percentage] from their own entry. *)
Definition percentage_of (entry : string) (data : pyval) : result pyval :=
  stats <- Py.get data "system_stats" empty_dict ;;
  usage <- Py.get stats entry empty_dict ;;
  Py.get usage "percentage" PNone.

(** Their attributes are the three sizes of the entry, rendered by the
    integration's [format_bytes] helper, which is taken as a parameter;
    whatever fails with a KeyError, TypeError or AttributeError gives the
    empty mapping. *)
Section StorageAttributes.

Variable datetime : Type.
Variable now : datetime.
Variable isoformat : datetime -> string.
Variable format_bytes : pyval -> result string.

Definition storage_attributes (entry : string) (coordinator_data : pyval)
    : result pyval :=
  try_except
    (stats <- Py.get coordinator_data "system_stats" empty_dict ;;
     usage <- Py.get stats entry empty_dict ;;
     total <- Py.get usage "total" (PInt 0) ;;
     total_size <- format_bytes total ;;
     used <- Py.get usage "used" (PInt 0) ;;
     used_space <- format_bytes used ;;
     free <- Py.get usage "free" (PInt 0) ;;
     free_space <- format_bytes free ;;
     Ok (PDict [(PStr "total_size", PStr total_size);
                (PStr "used_space", PStr used_space);
                (PStr "free_space", PStr free_space);
                (PStr "last_update", PStr (isoformat now))]))
    [KeyError; TypeError; AttributeError]
    (Ok empty_dict).

End StorageAttributes.

Module UnraidDockerVDiskSensor.
Definition value_fn : pyval -> result pyval := percentage_of "docker_vdisk".
Definition extra_state_attributes (datetime : Type) (now : datetime)
    (isoformat : datetime -> string) (format_bytes : pyval -> result string)
    : pyval -> result pyval :=
  storage_attributes datetime now isoformat format_bytes "docker_vdisk".
End UnraidDockerVDiskSensor.

Module UnraidLogFileSystemSensor.
Definition value_fn : pyval -> result pyval := percentage_of "log_filesystem".
Definition extra_state_attributes (datetime : Type) (now : datetime)
    (isoformat : datetime -> string) (format_bytes : pyval -> result string)
    : pyval -> result pyval :=
  storage_attributes datetime now isoformat format_bytes "log_filesystem".
End UnraidLogFileSystemSensor.

Module UnraidBootUsageSensor.
Definition value_fn : pyval -> result pyval := percentage_of "boot_usage".
Definition extra_state_attributes (datetime : Type) (now : datetime)
    (isoformat : datetime -> string) (format_bytes : pyval -> result string)
    : pyval -> result pyval :=
  storage_attributes datetime now isoformat format_bytes "boot_usage".
End UnraidBootUsageSensor.

(** The entities the integration creates, each run on its own attribute
    record. *)
Module UnraidSystemSensors.

Inductive sensor : Type :=
| CPUUsage
| RAMUsage
| Uptime
| CPUTemp
| MotherboardTemp
| DockerVDisk
| LogFileSystem
| BootUsage.

Definition entities : list sensor :=
  [CPUUsage; RAMUsage; Uptime; CPUTemp; MotherboardTemp;
   DockerVDisk; LogFileSystem; BootUsage].

Definition of_temperature (t : option float) : pyval :=
  match t with
  | Some f => PFloat f
  | None => PNone
  end.

Section Clock.

Variable datetime : Type.
Variable now : datetime.
Variable minus_seconds : datetime -> float -> option datetime.

Definition M : Type -> Type := UnraidUptimeSensor.M datetime.

Definition pure_fn {A : Type} (f : pyval -> result A) (conv : A -> pyval)
    (data : pyval) : M pyval :=
  UnraidUptimeSensor.lift datetime (x <- f data ;; Ok (conv x)).

(** [entity_description.value_fn(data)] of the entity of each kind. *)
Definition value_fn (k : sensor) (data : pyval) : M pyval :=
  match k with
  | CPUUsage => pure_fn UnraidCPUUsageSensor.value_fn id data
  | RAMUsage => pure_fn UnraidRAMUsageSensor.value_fn id data
  | Uptime =>
      UnraidUptimeSensor.bindM datetime
        (UnraidUptimeSensor.value_fn datetime now minus_seconds data)
        (fun s => UnraidUptimeSensor.ret datetime (PStr s))
  | CPUTemp => pure_fn UnraidCPUTempSensor.value_fn of_temperature data
  | MotherboardTemp =>
      pure_fn UnraidMotherboardTempSensor.value_fn of_temperature data
  | DockerVDisk => pure_fn UnraidDockerVDiskSensor.value_fn id data
  | LogFileSystem => pure_fn UnraidLogFileSystemSensor.value_fn id data
  | BootUsage => pure_fn UnraidBootUsageSensor.value_fn id data
  end.

End Clock.

End UnraidSystemSensors.

(** ** Views of a snapshot

    The properties below speak of fields of the snapshot, of sensor
    groups and of readings; these definitions give the words a meaning
    over [pyval]. *)

Module Snapshot.

(** The value a path of keys leads to, through mappings. *)
Fixpoint field (path : list string) (data : pyval) : option pyval :=
  match path with
  | [] => Some data
  | k :: rest =>
      match data with
      | PDict items =>
          match Py.lookup k items with
          | Some v => field rest v
          | None => None
          end
      | _ => None
      end
  end.

(** A field is missing when a mapping on its path lacks the next key. *)
Fixpoint missing (path : list string) (data : pyval) : bool :=
  match path, data with
  | k :: rest, PDict items =>
      match Py.lookup k items with
      | Some v => missing rest v
      | None => true
      end
  | _, _ => false
  end.

Fixpoint all_some {A : Type} (l : list (option A)) : option (list A) :=
  match l with
  | [] => Some []
  | None :: _ => None
  | Some a :: rest =>
      match all_some rest with
      | Some r => Some (a :: r)
      | None => None
      end
  end.

(** A sensor group: a mapping from metric names to readings. *)
Definition metric_of (kv : pyval * pyval) : option (string * pyval) :=
  match fst kv with
  | PStr name => Some (name, snd kv)
  | _ => None
  end.

Definition group_of (sensor_data : pyval) : option (list (string * pyval)) :=
  match sensor_data with
  | PDict items => all_some (map metric_of items)
  | _ => None
  end.

Definition groups_of (sensors_data : pyval)
    : option (list (list (string * pyval))) :=
  match sensors_data with
  | PDict gs => all_some (map (fun g => group_of (snd g)) gs)
  | _ => None
  end.

(** The sensor groups of a snapshot whose [system_stats],
    [temperature_data] and [sensors] entries are mappings of the shape
    label -> (metric -> reading), none when an entry is absent. *)
Definition temperature_groups (data : pyval)
    : option (list (list (string * pyval))) :=
  match data with
  | PDict items =>
      match Py.lookup "system_stats" items with
      | None => Some []
      | Some (PDict stats) =>
          match Py.lookup "temperature_data" stats with
          | None => Some []
          | Some (PDict td) =>
              match Py.lookup "sensors" td with
              | None => Some []
              | Some sensors_data => groups_of sensors_data
              end
          | Some _ => None
          end
      | Some _ => None
      end
  | _ => None
  end.

(** The number of metric entries under [sensors]. *)
Definition group_size (sensor_data : pyval) : nat :=
  match sensor_data with
  | PDict items => List.length items
  | _ => O
  end.

Definition reading_count (data : pyval) : nat :=
  match field ["system_stats"; "temperature_data"; "sensors"] data with
  | Some (PDict gs) => list_sum (map (fun g => group_size (snd g)) gs)
  | _ => O
  end.

End Snapshot.

(** The plausible range of a temperature, [-50 <= t <= 150]. *)
Definition in_range (t : float) : bool :=
  Float.leb Float.minus50 t && Float.leb t Float.plus150.

(** What [str(value)] parses to, none when it does not parse. *)
Definition parsed (value : pyval) : option float :=
  match UnraidCPUTempSensor._parse_temperature (Py.str value) with
  | Ok r => r
  | Raise _ => None
  end.

(** The text the parser hands to [float]. *)
Definition cleaned (value : string) : string :=
  Str.strip (Str.replace "+" "" (Str.replace " C" ""
              (Str.replace "°C" "" value))).

(** 45.0 as a binary64 number. *)
Definition float_45 : float := S754_finite false 6333186975989760 (-47).

(** ** Vocabulary of the properties *)

Module Spec.

Import UnraidSystemSensors.

(** The field of the snapshot each sensor reads. *)
Definition backing_field (k : sensor) : list string :=
  match k with
  | CPUUsage => ["system_stats"; "cpu_usage"]
  | RAMUsage => ["system_stats"; "memory_usage"; "percentage"]
  | Uptime => ["system_stats"; "uptime"]
  | CPUTemp | MotherboardTemp => ["system_stats"; "temperature_data"; "sensors"]
  | DockerVDisk => ["system_stats"; "docker_vdisk"; "percentage"]
  | LogFileSystem => ["system_stats"; "log_filesystem"; "percentage"]
  | BootUsage => ["system_stats"; "boot_usage"; "percentage"]
  end.

(** A sensor reports unavailable: its availability function says no
    where it has one, and its value function yields no value
    otherwise. *)
Definition reports_unavailable (k : sensor) (data : pyval) : Prop :=
  match k with
  | CPUUsage => UnraidCPUUsageSensor.available_fn data = Ok false
  | Uptime => UnraidUptimeSensor.available_fn data = Ok false
  | RAMUsage => UnraidRAMUsageSensor.value_fn data = Ok PNone
  | CPUTemp => UnraidCPUTempSensor.value_fn data = Ok None
  | MotherboardTemp => UnraidMotherboardTempSensor.value_fn data = Ok None
  | DockerVDisk => UnraidDockerVDiskSensor.value_fn data = Ok PNone
  | LogFileSystem => UnraidLogFileSystemSensor.value_fn data = Ok PNone
  | BootUsage => UnraidBootUsageSensor.value_fn data = Ok PNone
  end.

(** [r] raises none of the exception classes listed. *)
Definition never_raises {A : Type} (classes : list exn) (r : result A) : Prop :=
  match r with
  | Ok _ => True
  | Raise e => existsb (exn_eqb e) classes = false
  end.

(** [r] raises nothing but the exception classes listed. *)
Definition raises_only {A : Type} (classes : list exn) (r : result A) : Prop :=
  match r with
  | Ok _ => True
  | Raise e => existsb (exn_eqb e) classes = true
  end.







Fixpoint find_first {A B : Type} (f : A -> option B) (l : list A) : option B :=
  match l with
  | [] => None
  | x :: rest =>
      match f x with
      | Some b => Some b
      | None => find_first f rest
      end
  end.

Definition parsed_mb (value : pyval) : option float :=
  match UnraidMotherboardTempSensor._parse_temperature (Py.str value) with
  | Ok r => r
  | Raise _ => None
  end.

(** The first valid reading, by pattern, then by group, then by metric,
    among the metrics whose reading passes [accept] and whose name has
    the pattern in it, case-insensitively. *)
Definition first_reading (accept : pyval -> bool)
    (groups : list (list (string * pyval))) : option float :=
  find_first
    (fun pattern =>
       find_first
         (find_first (fun kv : string * pyval =>
                        if accept (snd kv)
                           && Str.contains (Str.lower pattern) (Str.lower (fst kv))
                        then parsed_mb (snd kv)
                        else None))
         groups)
    UnraidMotherboardTempSensor.mb_patterns.

End Spec.

(** ** Sample snapshots *)

Module Samples.

Definition with_stats (stats : list (pyval * pyval)) : pyval :=
  PDict [(PStr "system_stats", PDict stats)].

Definition with_sensors (groups : list (pyval * pyval)) : pyval :=
  with_stats [(PStr "temperature_data", PDict [(PStr "sensors", PDict groups)])].

(** No memory figures at all. *)
Definition no_memory : pyval := with_stats [(PStr "cpu_usage", PInt 3)].

(** A percentage that is text. *)
Definition text_percentage : pyval :=
  with_stats [(PStr "memory_usage", PDict [(PStr "percentage", PStr "n/a")])].

Definition uptime_90000 : pyval := with_stats [(PStr "uptime", PInt 90000)].



Definition two_cores : pyval :=
  with_sensors [(PStr "coretemp",
                 PDict [(PStr "CPU Temp", PStr "+45.0°C");
                        (PStr "MB Temp", PStr "+38.0 C");
                        (PStr "CPU Temp 2", PStr "50.1")])].


(** A motherboard reading that is an integer. *)
Definition integer_board : pyval :=
  with_sensors [(PStr "nct6779", PDict [(PStr "MB Temp", PInt 45)])].

Definition integer_board_groups : list (list (string * pyval)) :=
  [[("MB Temp", PInt 45)]].

(** No CPU usage figure. *)
Definition no_cpu_usage : pyval := with_stats [(PStr "uptime", PInt 90000)].

(** Two groups, the board temperature under its chip name. *)
Definition board_sample : pyval :=
  with_sensors
    [(PStr "nct6779",
      PDict [(PStr "temp1", PStr "+30.0°C"); (PStr "SYSTIN", PStr "+33.5°C")]);
     (PStr "acpitz", PDict [(PStr "MB Temp", PStr "n/a")])].

Definition board_sample_groups : list (list (string * pyval)) :=
  [[("temp1", PStr "+30.0°C"); ("SYSTIN", PStr "+33.5°C")];
   [("MB Temp", PStr "n/a")]].

(** A board temperature that is a float, 33.5. *)
Definition float_board : pyval :=
  with_sensors
    [(PStr "nct6779",
      PDict [(PStr "SYSTIN", PFloat (Float.of_decimal false 335 (-1)))])].

(** A clock counting seconds. *)
Definition minus_seconds (t : Z) (s : float) : option Z :=
  Some (t - Float.trunc s).

(** A first sensor group that is text, not a mapping. *)
Definition first_group_text : pyval :=
  with_sensors [(PStr "coretemp", PStr "n/a");
                (PStr "nct6779", PDict [(PStr "CPU Temp", PStr "40")])].

(** An uptime that is no number, and a negative one. *)
Definition text_uptime : pyval := with_stats [(PStr "uptime", PStr "soon")].

Definition negative_uptime : pyval := with_stats [(PStr "uptime", PInt (-90000))].

(** A memory percentage of 45.67. *)
Definition float_percentage : pyval :=
  with_stats
    [(PStr "memory_usage",
      PDict [(PStr "percentage", PFloat (Float.of_decimal false 4567 (-2)))])].





(** A storage entry that is text, not a mapping. *)
Definition text_entry : pyval := with_stats [(PStr "docker_vdisk", PStr "n/a")].

(** A byte formatter: the number of bytes followed by [" B"]; and a
    clock that prints its seconds. *)
Definition bytes_text (v : pyval) : result string :=
  match v with
  | PInt n => Ok (Str.of_Z n ++ " B")
  | _ => Raise TypeError
  end.

Definition seconds_text (t : Z) : string := Str.of_Z t.

End Samples.

(** ** Binary64 numbers as values

    The vocabulary of the proofs about rounding: the exponent function of
    the format, the steps of [binary_round_aux], and the value of a
    finite number as an integer multiple of [2 ^ -1074], the smallest
    positive binary64 number. *)

Module Binary64.

Definition fexp (e : Z) : Z := SpecFloat.fexp Float.prec Float.emax e.

(** A shift record that has lost no bit. *)
Definition exact_record (r : shr_record) : Prop :=
  shr_r r = false /\ shr_s r = false.

(** [r'] is [r] shifted right by [n] bits. *)
Definition shifted (n : Z) (r r' : shr_record) : Prop :=
  shr_m r' = shr_m r / 2 ^ n
  /\ (exact_record r -> shr_m r mod 2 ^ n = 0 -> exact_record r').

Definition bra : bool -> Z -> Z -> location -> spec_float :=
  binary_round_aux Float.prec Float.emax.

(** The second half of [binary_round_aux]: the rounded mantissa is
    brought back to the format and the overflow is detected. *)
Definition finish (sx : bool) (m2 e1 : Z) : spec_float :=
  let '(mrs, e) := shr_fexp Float.prec Float.emax m2 e1 loc_Exact in
  match shr_m mrs with
  | Z0 => S754_zero sx
  | Zpos m => if e <=? 971 then S754_finite sx m e else S754_infinity sx
  | Zneg _ => S754_nan
  end.

(** A well-formed binary64 number: the mantissa of a finite one is
    canonical and its exponent in range. *)
Definition valid (f : float) : Prop :=
  valid_binary Float.prec Float.emax f = true.

Definition bround : bool -> positive -> Z -> spec_float :=
  binary_round Float.prec Float.emax.

(** The value of a finite float in units of [2 ^ -1074]. *)
Definition IV (f : float) : Z :=
  match f with
  | S754_finite s m e => cond_Zopp s (Zpos m * 2 ^ (e + 1074))
  | _ => 0
  end.

Definition fin (f : float) : Prop := Float.is_finite f = true.

(** One, in units of [2 ^ -1074]. *)
Definition U : Z := 2 ^ 1074.

(** A reading the parser returns. *)
Definition good (t : float) : Prop := valid t /\ in_range t = true.

(** A finite number between [-50 k] and [150 k]. *)
Definition within (k : Z) (f : float) : Prop :=
  valid f /\ fin f /\ -50 * k * U <= IV f <= 150 * k * U.

(** What the loops keep true of the list they build. *)
Definition collects (bound : nat) (acc acc' : list float) : Prop :=
  (Forall good acc -> Forall good acc')
  /\ (List.length acc' <= List.length acc + bound)%nat.

End Binary64.

(** * Properties *)

Import UnraidSystemSensors.

(** ** The temperature parser *)

Lemma cpu_parse_unfold (s : string) :
  UnraidCPUTempSensor._parse_temperature s =
  match Str.to_float (cleaned s) with
  | Ok t => if in_range t then Ok (Some t) else Ok None
  | Raise _ => Ok None
  end.
Proof.
  unfold UnraidCPUTempSensor._parse_temperature, cleaned, in_range.
  destruct (Str.to_float _) as [t | e] eqn:E; simpl.
  - destruct (Float.leb Float.minus50 t && Float.leb t Float.plus150); reflexivity.
  - unfold Str.to_float in E.
    destruct (Str.drop_underscores _ _) as [u | ].
    + destruct (Str.parse_sign u) as [sg r].
      destruct (_ || _); [discriminate | ].
      destruct (String.eqb _ _); [discriminate | ].
      destruct (Str.parse_decimal r) as [[m x] | ]; [discriminate | ].
      injection E as <-. reflexivity.
    + injection E as <-. reflexivity.
Qed.

Lemma mb_parse_unfold (s : string) :
  UnraidMotherboardTempSensor._parse_temperature s =
  match Str.to_float (cleaned s) with
  | Ok t => if in_range t then Ok (Some t) else Ok None
  | Raise _ => Ok None
  end.
Proof. exact (cpu_parse_unfold s). Qed.

Lemma cpu_parse_total (s : string) :
  UnraidCPUTempSensor._parse_temperature s = Ok (parsed (PStr s)).
Proof.
  unfold parsed. simpl Py.str. rewrite cpu_parse_unfold.
  destruct (Str.to_float (cleaned s)) as [t | e]; [ | reflexivity].
  destruct (in_range t); reflexivity.
Qed.

Lemma parsed_in_range (v : pyval) (t : float) :
  parsed v = Some t -> in_range t = true.
Proof.
  unfold parsed. rewrite cpu_parse_unfold.
  destruct (Str.to_float _) as [u | e]; [ | discriminate].
  destruct (in_range u) eqn:R; [ | discriminate].
  intros H. injection H as <-. exact R.
Qed.

(** C5. A temperature the parser returns lies within [-50, 150], for the
    parser of either sensor; a number read from the cleaned text that
    lies outside the range is rejected: the parser returns no value. *)
Theorem parse_temperature_range (s : string) :
  (forall t, UnraidCPUTempSensor._parse_temperature s = Ok (Some t) ->
             in_range t = true)
  /\ (forall t, UnraidMotherboardTempSensor._parse_temperature s = Ok (Some t) ->
                in_range t = true)
  /\ (forall t, Str.to_float (cleaned s) = Ok t -> in_range t = false ->
                UnraidCPUTempSensor._parse_temperature s = Ok None
                /\ UnraidMotherboardTempSensor._parse_temperature s = Ok None).
Proof.
  repeat split.
  - intros t H. rewrite cpu_parse_unfold in H.
    destruct (Str.to_float _) as [u | e]; [ | discriminate].
    destruct (in_range u) eqn:R; [ | discriminate].
    injection H as <-. exact R.
  - intros t H. rewrite mb_parse_unfold in H.
    destruct (Str.to_float _) as [u | e]; [ | discriminate].
    destruct (in_range u) eqn:R; [ | discriminate].
    injection H as <-. exact R.
  - rewrite cpu_parse_unfold, H, H0. reflexivity.
  - rewrite mb_parse_unfold, H, H0. reflexivity.
Qed.

Example parse_rejects_151 :
  UnraidCPUTempSensor._parse_temperature "+151.0°C" = Ok None
  /\ UnraidCPUTempSensor._parse_temperature "-50.5 C" = Ok None
  /\ UnraidCPUTempSensor._parse_temperature "150" = Ok (Some Float.plus150)
  /\ UnraidCPUTempSensor._parse_temperature "-50.0" = Ok (Some Float.minus50)
  /\ UnraidCPUTempSensor._parse_temperature "N/A" = Ok None
  /\ UnraidCPUTempSensor._parse_temperature "nan" = Ok None.
Proof. vm_compute. repeat split. Qed.

(** C6. The parser turns ["+45.0°C"] into 45.0: the degree marker and the
    plus sign are removed, and ["45.0"] is what [float] reads. *)
Theorem parse_temperature_45 :
  cleaned "+45.0°C" = "45.0"
  /\ UnraidCPUTempSensor._parse_temperature "+45.0°C" = Ok (Some float_45)
  /\ float_45 = Float.of_Z 45.
Proof. vm_compute. repeat split. Qed.

(** C9. The parsers of the CPU-temperature sensor and of the
    motherboard-temperature sensor agree on every text. *)
Theorem parse_temperature_same (s : string) :
  UnraidCPUTempSensor._parse_temperature s =
  UnraidMotherboardTempSensor._parse_temperature s.
Proof. rewrite cpu_parse_unfold, mb_parse_unfold. reflexivity. Qed.

(** ** The uptime sensor *)

Lemma field2_get (a b : string) (data v default1 default2 : pyval) :
  Snapshot.field [a; b] data = Some v ->
  (stats <- Py.get data a default1 ;; Py.get stats b default2) = Ok v.
Proof.
  simpl. destruct data; try discriminate.
  destruct (Py.lookup a items) as [stats | ] eqn:Ea; [ | discriminate].
  destruct stats; try discriminate.
  destruct (Py.lookup b items0) as [x | ] eqn:Eb; [ | discriminate].
  intros H. injection H as <-. simpl. rewrite Ea. simpl. rewrite Eb. reflexivity.
Qed.

Lemma uptime_seconds_field (data u : pyval) :
  Snapshot.field ["system_stats"; "uptime"] data = Some u ->
  UnraidUptimeSensor.uptime_seconds data = Py.to_float u.
Proof.
  intros H. apply (field2_get _ _ _ _ empty_dict (PInt 0)) in H.
  unfold UnraidUptimeSensor.uptime_seconds.
  destruct (Py.get data "system_stats" empty_dict) as [stats | e]; simpl in *.
  - rewrite H. reflexivity.
  - discriminate.
Qed.

Section Uptime.

Variable datetime : Type.
Variable now : datetime.
Variable minus_seconds : datetime -> float -> option datetime.

Let format_uptime := UnraidUptimeSensor._format_uptime datetime now minus_seconds.

Lemma format_uptime_success (data : pyval) (f : float) (n : Z)
    (boot : datetime) (self : UnraidUptimeSensor.self datetime) :
  UnraidUptimeSensor.uptime_seconds data = Ok f ->
  Py.int_of_float f = Ok n ->
  minus_seconds now f = Some boot ->
  format_uptime data self =
  (Ok (UnraidUptimeSensor.format_parts
         (n / 86400) ((n mod 86400) / 3600) (((n mod 86400) mod 3600) / 60)),
   UnraidUptimeSensor.Build_self (Some boot)).
Proof.
  intros Hf Hn Hb.
  unfold format_uptime, UnraidUptimeSensor._format_uptime,
    UnraidUptimeSensor.try_exceptM, UnraidUptimeSensor.bindM,
    UnraidUptimeSensor.lift, UnraidUptimeSensor.now_minus,
    UnraidUptimeSensor.set_boot_time, UnraidUptimeSensor.ret.
  rewrite Hf, Hn, Hb. reflexivity.
Qed.

Lemma format_uptime_failure (data : pyval)
    (self : UnraidUptimeSensor.self datetime) :
  (forall f n boot,
      UnraidUptimeSensor.uptime_seconds data = Ok f ->
      Py.int_of_float f = Ok n ->
      minus_seconds now f = Some boot -> False) ->
  snd (format_uptime data self) = self.
Proof.
  intros H.
  unfold format_uptime, UnraidUptimeSensor._format_uptime,
    UnraidUptimeSensor.try_exceptM, UnraidUptimeSensor.bindM,
    UnraidUptimeSensor.lift, UnraidUptimeSensor.now_minus,
    UnraidUptimeSensor.set_boot_time, UnraidUptimeSensor.ret.
  destruct (UnraidUptimeSensor.uptime_seconds data) as [f | e].
  - destruct (Py.int_of_float f) as [n | e] eqn:Hn.
    + destruct (minus_seconds now f) as [boot | ] eqn:Hb.
      * exfalso. exact (H f n boot eq_refl Hn Hb).
      * reflexivity.
    + destruct (existsb _ _); reflexivity.
  - destruct (existsb _ _); reflexivity.
Qed.

End Uptime.

(** C7. An uptime of 90000 seconds is formatted as ["1d 1h 0m"]. In
    general, for a nonnegative uptime, the text shows the days, hours and
    minutes obtained from the truncated seconds by dividing by 86400,
    then the rest by 3600, then the rest by 60: the three counts, with
    less than a minute left over, add up to the truncated seconds. *)
Theorem format_uptime_decomposes
    (datetime : Type) (now : datetime)
    (minus_seconds : datetime -> float -> option datetime)
    (data u : pyval) (f : float) (n : Z) (boot : datetime)
    (self : UnraidUptimeSensor.self datetime) :
  Snapshot.field ["system_stats"; "uptime"] data = Some u ->
  Py.to_float u = Ok f ->
  Py.int_of_float f = Ok n ->
  0 <= n ->
  minus_seconds now f = Some boot ->
  let days := n / 86400 in
  let hours := (n mod 86400) / 3600 in
  let minutes := ((n mod 86400) mod 3600) / 60 in
  fst (UnraidUptimeSensor._format_uptime datetime now minus_seconds data self)
  = Ok (Str.of_Z days ++ "d " ++ Str.of_Z hours ++ "h "
          ++ Str.of_Z minutes ++ "m")
  /\ 0 <= days /\ 0 <= hours < 24 /\ 0 <= minutes < 60
  /\ 0 <= n - (86400 * days + 3600 * hours + 60 * minutes) < 60
  /\ (n = 90000 ->
      fst (UnraidUptimeSensor._format_uptime datetime now minus_seconds data self)
      = Ok "1d 1h 0m").
Proof.
  intros Hu Hf Hn Hpos Hb days hours minutes.
  pose proof (uptime_seconds_field data u Hu) as Hs. rewrite Hf in Hs.
  pose proof (format_uptime_success datetime now minus_seconds data f n boot
                self Hs Hn Hb) as E.
  assert (Hd : n = 86400 * days + n mod 86400)
    by (unfold days; apply Z.div_mod; lia).
  assert (Hh : n mod 86400 = 3600 * hours + (n mod 86400) mod 3600)
    by (unfold hours; apply Z.div_mod; lia).
  assert (Hm : (n mod 86400) mod 3600
               = 60 * minutes + ((n mod 86400) mod 3600) mod 60)
    by (unfold minutes; apply Z.div_mod; lia).
  pose proof (Z.mod_pos_bound n 86400 ltac:(lia)).
  pose proof (Z.mod_pos_bound (n mod 86400) 3600 ltac:(lia)).
  pose proof (Z.mod_pos_bound ((n mod 86400) mod 3600) 60 ltac:(lia)).
  split; [rewrite E; reflexivity | ].
  split; [unfold days; apply Z.div_pos; lia | ].
  split; [unfold hours; split;
          [apply Z.div_pos; lia | apply Z.div_lt_upper_bound; lia] | ].
  split; [unfold minutes; split;
          [apply Z.div_pos; lia | apply Z.div_lt_upper_bound; lia] | ].
  split; [lia | ].
  intros ->. rewrite E. reflexivity.
Qed.

Lemma format_uptime_90000 :
  Snapshot.field ["system_stats"; "uptime"] Samples.uptime_90000
  = Some (PInt 90000)
  /\ Py.to_float (PInt 90000) = Ok (Float.of_Z 90000)
  /\ Py.int_of_float (Float.of_Z 90000) = Ok 90000
  /\ fst (UnraidUptimeSensor._format_uptime Z 1000000 Samples.minus_seconds
            Samples.uptime_90000 (UnraidUptimeSensor.Build_self None))
     = Ok "1d 1h 0m".
Proof.
  split; [reflexivity | ].
  split; [reflexivity | ].
  split; [reflexivity | ].
  exact (proj1 (format_uptime_decomposes Z 1000000 Samples.minus_seconds
                  Samples.uptime_90000 (PInt 90000) (Float.of_Z 90000) 90000
                  910000 (UnraidUptimeSensor.Build_self None)
                  eq_refl eq_refl eq_refl ltac:(lia) eq_refl)).
Defined.

Example format_uptime_samples :
  fst (UnraidUptimeSensor._format_uptime Z 1000000 Samples.minus_seconds
         (Samples.with_stats [(PStr "uptime", PStr "90000.9")])
         (UnraidUptimeSensor.Build_self None)) = Ok "1d 1h 0m"
  /\ fst (UnraidUptimeSensor._format_uptime Z 1000000 Samples.minus_seconds
            (Samples.with_stats [(PStr "uptime", PInt 59)])
            (UnraidUptimeSensor.Build_self None)) = Ok "0d 0h 0m"
  /\ fst (UnraidUptimeSensor._format_uptime Z 1000000 Samples.minus_seconds
            (Samples.with_stats [(PStr "uptime", PNone)])
            (UnraidUptimeSensor.Build_self None)) = Ok "unknown".
Proof. vm_compute. repeat split. Qed.

Lemma value_fn_uptime_state
    (datetime : Type) (now : datetime)
    (minus_seconds : datetime -> float -> option datetime)
    (data : pyval) (self : UnraidUptimeSensor.self datetime) :
  snd (value_fn datetime now minus_seconds Uptime data self)
  = snd (UnraidUptimeSensor._format_uptime datetime now minus_seconds data self).
Proof.
  unfold value_fn, UnraidUptimeSensor.value_fn, UnraidUptimeSensor.bindM.
  destruct (UnraidUptimeSensor._format_uptime _ _ _ _ _) as [[s | e] self'];
    reflexivity.
Qed.

(** C8. Evaluating the value function of a sensor other than the uptime
    sensor leaves the attributes of the sensor as they were. The uptime
    sensor stores the current time minus the uptime seconds in
    [_boot_time] when the read succeeds, and leaves [_boot_time] as it
    was when the uptime does not parse (as a number, or as a whole number
    of seconds) or the boot time cannot be computed. *)
Theorem value_extraction_state
    (datetime : Type) (now : datetime)
    (minus_seconds : datetime -> float -> option datetime)
    (k : sensor) (data : pyval) (self : UnraidUptimeSensor.self datetime) :
  (k <> Uptime ->
   snd (value_fn datetime now minus_seconds k data self) = self)
  /\ (forall f n boot,
         UnraidUptimeSensor.uptime_seconds data = Ok f ->
         Py.int_of_float f = Ok n ->
         minus_seconds now f = Some boot ->
         snd (value_fn datetime now minus_seconds Uptime data self)
         = UnraidUptimeSensor.Build_self (Some boot))
  /\ (forall e,
         UnraidUptimeSensor.uptime_seconds data = Raise e ->
         snd (value_fn datetime now minus_seconds Uptime data self) = self)
  /\ (forall f e,
         UnraidUptimeSensor.uptime_seconds data = Ok f ->
         Py.int_of_float f = Raise e ->
         snd (value_fn datetime now minus_seconds Uptime data self) = self)
  /\ (forall f,
         UnraidUptimeSensor.uptime_seconds data = Ok f ->
         minus_seconds now f = None ->
         snd (value_fn datetime now minus_seconds Uptime data self) = self).
Proof.
  repeat split.
  - intros Hk. destruct k; try reflexivity. contradiction.
  - intros f n boot Hf Hn Hb. rewrite value_fn_uptime_state.
    rewrite (format_uptime_success datetime now minus_seconds data f n boot
               self Hf Hn Hb).
    reflexivity.
  - intros e He. rewrite value_fn_uptime_state.
    apply format_uptime_failure. intros f n boot Hf. congruence.
  - intros f e Hf He. rewrite value_fn_uptime_state.
    apply format_uptime_failure. intros f' n boot Hf' Hn. congruence.
  - intros f Hf Hb. rewrite value_fn_uptime_state.
    apply format_uptime_failure. intros f' n boot Hf' Hn Hb'. congruence.
Qed.

Example boot_time_samples :
  snd (value_fn Z 1000000 Samples.minus_seconds Uptime Samples.uptime_90000
         (UnraidUptimeSensor.Build_self (Some 5)))
  = UnraidUptimeSensor.Build_self (Some 910000)
  /\ snd (value_fn Z 1000000 Samples.minus_seconds Uptime
            (Samples.with_stats [(PStr "uptime", PStr "soon")])
            (UnraidUptimeSensor.Build_self (Some 5)))
     = UnraidUptimeSensor.Build_self (Some 5)
  /\ snd (value_fn Z 1000000 Samples.minus_seconds CPUTemp Samples.two_cores
            (UnraidUptimeSensor.Build_self (Some 5)))
     = UnraidUptimeSensor.Build_self (Some 5).
Proof. vm_compute. repeat split. Qed.

(** ** Missing fields *)

Lemma lookup_none_contains (k : string) (items : list (pyval * pyval)) :
  Py.lookup k items = None ->
  existsb (fun kv => Py.is_str k (fst kv)) items = false.
Proof.
  induction items as [ | [k' v] rest IH]; simpl; [reflexivity | ].
  destruct (Py.is_str k k'); [discriminate | exact IH].
Qed.

Lemma lookup_some_contains (k : string) (items : list (pyval * pyval)) (v : pyval) :
  Py.lookup k items = Some v ->
  existsb (fun kv => Py.is_str k (fst kv)) items = true.
Proof.
  induction items as [ | [k' x] rest IH]; simpl; [discriminate | ].
  destruct (Py.is_str k k'); [reflexivity | exact IH].
Qed.

Ltac missing_cases :=
  repeat match goal with
    | |- context [Py.lookup ?k ?items] =>
        let E := fresh "E" in
        destruct (Py.lookup k items) eqn:E;
        [ try rewrite (lookup_some_contains _ _ _ E)
        | try rewrite (lookup_none_contains _ _ E) ];
        simpl; try discriminate; try reflexivity
    | |- context [match ?v with PNone => _ | _ => _ end] =>
        is_var v; destruct v; simpl; try discriminate; try reflexivity
    end.

(** C1, as the code has it. When the field a sensor reads is missing from
    the snapshot, the sensor reports unavailable: the availability
    function of the CPU usage and uptime sensors says no, and the value
    function of the two temperature sensors and of the three storage
    sensors yields no value. The RAM usage sensor is the exception: with
    no [percentage] its value function yields the number 0. *)
Theorem missing_field_unavailable (k : sensor) (data : pyval) :
  Snapshot.missing (Spec.backing_field k) data = true ->
  match k with
  | RAMUsage => UnraidRAMUsageSensor.value_fn data = Ok (PInt 0)
  | _ => Spec.reports_unavailable k data
  end.
Proof.
  destruct k; unfold Spec.reports_unavailable; simpl Spec.backing_field;
    unfold UnraidCPUUsageSensor.available_fn, UnraidRAMUsageSensor.value_fn,
      UnraidUptimeSensor.available_fn, UnraidCPUTempSensor.value_fn,
      UnraidCPUTempSensor._get_temperature,
      UnraidMotherboardTempSensor.value_fn,
      UnraidMotherboardTempSensor._get_temperature,
      UnraidDockerVDiskSensor.value_fn, UnraidLogFileSystemSensor.value_fn,
      UnraidBootUsageSensor.value_fn, percentage_of;
    destruct data; simpl; try discriminate; missing_cases.
Qed.

Lemma missing_field_unavailable_cpu_usage :
  Snapshot.missing (Spec.backing_field CPUUsage) Samples.no_cpu_usage = true
  /\ UnraidCPUUsageSensor.available_fn Samples.no_cpu_usage = Ok false.
Proof.
  split; [reflexivity | ].
  exact (missing_field_unavailable CPUUsage Samples.no_cpu_usage eq_refl).
Defined.

(** C1, as stated, fails for the RAM usage sensor: with no memory figures
    in the snapshot its value function yields a number, 0. *)
Lemma ram_usage_without_percentage :
  Snapshot.missing (Spec.backing_field RAMUsage) Samples.no_memory = true
  /\ UnraidRAMUsageSensor.value_fn Samples.no_memory = Ok (PInt 0)
  /\ Py.is_number (PInt 0) = true.
Proof. repeat split. Qed.

(** ** Exceptions *)

Lemma raises_only_bind {A B : Type} (classes : list exn)
    (c : result A) (k : A -> result B) :
  Spec.raises_only classes c ->
  (forall a, c = Ok a -> Spec.raises_only classes (k a)) ->
  Spec.raises_only classes (x <- c ;; k x).
Proof.
  intros Hc Hk. destruct c as [a | e]; simpl.
  - apply Hk. reflexivity.
  - exact Hc.
Qed.

Lemma raises_only_for_each {A S : Type} (classes : list exn)
    (body : A -> S -> result S) (l : list A) :
  (forall x s, Spec.raises_only classes (body x s)) ->
  forall s, Spec.raises_only classes (Py.for_each l body s).
Proof.
  intros Hb. induction l as [ | x rest IH]; intros s; simpl; [exact I | ].
  apply raises_only_bind; [apply Hb | intros; apply IH].
Qed.

Lemma raises_only_first_return {A B : Type} (classes : list exn)
    (body : A -> result (option B)) (l : list A) :
  (forall x, Spec.raises_only classes (body x)) ->
  Spec.raises_only classes (UnraidMotherboardTempSensor.first_return l body).
Proof.
  intros Hb. induction l as [ | x rest IH]; simpl; [exact I | ].
  apply raises_only_bind; [apply Hb | ].
  intros [b | ] _; [exact I | exact IH].
Qed.

Lemma raises_only_get (classes : list exn) (v : pyval) (k : string) (d : pyval) :
  existsb (exn_eqb AttributeError) classes = true ->
  Spec.raises_only classes (Py.get v k d).
Proof. intros H. destruct v; simpl; auto. Qed.

Lemma raises_only_getitem (classes : list exn) (v : pyval) (k : string) :
  existsb (exn_eqb KeyError) classes = true ->
  existsb (exn_eqb TypeError) classes = true ->
  Spec.raises_only classes (Py.getitem v k).
Proof.
  intros H1 H2. destruct v; simpl; auto.
  destruct (Py.lookup k items); simpl; auto.
Qed.

Lemma raises_only_values (classes : list exn) (v : pyval) :
  existsb (exn_eqb AttributeError) classes = true ->
  Spec.raises_only classes (Py.values v).
Proof. intros H. destruct v; simpl; auto. Qed.

Lemma raises_only_items (classes : list exn) (v : pyval) :
  existsb (exn_eqb AttributeError) classes = true ->
  Spec.raises_only classes (Py.items v).
Proof. intros H. destruct v; simpl; auto. Qed.

Lemma raises_only_lower (classes : list exn) (v : pyval) :
  existsb (exn_eqb AttributeError) classes = true ->
  Spec.raises_only classes (Py.lower v).
Proof. intros H. destruct v; simpl; auto. Qed.

Lemma raises_only_contains (classes : list exn) (k : string) (v : pyval) :
  existsb (exn_eqb TypeError) classes = true ->
  Spec.raises_only classes (Py.contains k v).
Proof. intros H. destruct v; simpl; auto. Qed.

Lemma mb_parse_total (s : string) :
  UnraidMotherboardTempSensor._parse_temperature s = Ok (Spec.parsed_mb (PStr s)).
Proof.
  unfold Spec.parsed_mb. simpl Py.str. rewrite mb_parse_unfold.
  destruct (Str.to_float (cleaned s)) as [t | e]; [ | reflexivity].
  destruct (in_range t); reflexivity.
Qed.

Lemma try_except_never_raises {A : Type} (c : result A) (classes : list exn) (a : A) :
  Spec.never_raises classes (try_except c classes (Ok a)).
Proof.
  unfold try_except. destruct c as [x | e]; simpl; [exact I | ].
  destruct (existsb (exn_eqb e) classes) eqn:E; simpl; [exact I | exact E].
Qed.

Lemma try_except_total {A : Type} (c : result A) (classes : list exn) (a : A) :
  Spec.raises_only classes c ->
  exists r, try_except c classes (Ok a) = Ok r.
Proof.
  unfold try_except. destruct c as [x | e]; simpl.
  - intros _. exists x. reflexivity.
  - intros ->. exists a. reflexivity.
Qed.

Lemma mb_body_raises_only (data : pyval) :
  Spec.raises_only [KeyError; TypeError; ValueError; AttributeError]
    (stats <- Py.getitem data "system_stats" ;;
     temp_data <- Py.get stats "temperature_data" empty_dict ;;
     sensors_data <- Py.get temp_data "sensors" empty_dict ;;
     UnraidMotherboardTempSensor.first_return
       UnraidMotherboardTempSensor.mb_patterns
       (UnraidMotherboardTempSensor.visit_pattern sensors_data)).
Proof.
  apply raises_only_bind; [apply raises_only_getitem; reflexivity | intros stats _].
  apply raises_only_bind; [apply raises_only_get; reflexivity | intros td _].
  apply raises_only_bind; [apply raises_only_get; reflexivity | intros sd _].
  apply raises_only_first_return. intros pattern.
  unfold UnraidMotherboardTempSensor.visit_pattern.
  apply raises_only_bind; [apply raises_only_values; reflexivity | intros gs _].
  apply raises_only_first_return. intros g.
  unfold UnraidMotherboardTempSensor.visit_group.
  apply raises_only_bind; [apply raises_only_items; reflexivity | intros ms _].
  apply raises_only_first_return. intros [key value].
  unfold UnraidMotherboardTempSensor.visit_metric.
  destruct (Py.is_str_or_float value); [ | exact I].
  apply raises_only_bind; [apply raises_only_lower; reflexivity | intros kl _].
  destruct (Str.contains _ kl); [ | exact I].
  rewrite mb_parse_total. exact I.
Qed.

Lemma ram_value_fn_cases (data : pyval) :
  match UnraidRAMUsageSensor.value_fn data with
  | Ok v => Py.is_number v = true
  | Raise e => e = AttributeError \/ e = TypeError
  end.
Proof.
  unfold UnraidRAMUsageSensor.value_fn.
  destruct (Py.get data "system_stats" empty_dict) as [stats | e] eqn:E1; simpl.
  - destruct (Py.get stats "memory_usage" empty_dict) as [mem | e] eqn:E2; simpl.
    + destruct (Py.get mem "percentage" (PInt 0)) as [p | e] eqn:E3; simpl.
      * destruct p; simpl; auto.
      * destruct mem; simpl in E3; try discriminate; injection E3 as <-; auto.
    + destruct stats; simpl in E2; try discriminate; injection E2 as <-; auto.
  - destruct data; simpl in E1; try discriminate; injection E1 as <-; auto.
Qed.

(** C2, as the code has it. The motherboard-temperature value function
    never raises. The CPU-temperature value function turns every
    KeyError, ValueError and TypeError into no value, and the uptime
    formatter turns every TypeError and ValueError into ["unknown"]. The
    RAM usage value function has no handler: it yields a number, or
    raises AttributeError (a container on its path is not a mapping) or
    TypeError (the percentage is not a number). *)
Theorem value_functions_and_exceptions
    (datetime : Type) (now : datetime)
    (minus_seconds : datetime -> float -> option datetime)
    (data : pyval) (self : UnraidUptimeSensor.self datetime) :
  (exists r, UnraidMotherboardTempSensor.value_fn data = Ok r)
  /\ Spec.never_raises [KeyError; ValueError; TypeError]
       (UnraidCPUTempSensor.value_fn data)
  /\ Spec.never_raises [TypeError; ValueError]
       (fst (UnraidUptimeSensor.value_fn datetime now minus_seconds data self))
  /\ match UnraidRAMUsageSensor.value_fn data with
     | Ok v => Py.is_number v = true
     | Raise e => e = AttributeError \/ e = TypeError
     end.
Proof.
  repeat split.
  - apply try_except_total, mb_body_raises_only.
  - apply try_except_never_raises.
  - unfold UnraidUptimeSensor.value_fn, UnraidUptimeSensor._format_uptime,
      UnraidUptimeSensor.try_exceptM.
    match goal with |- context [match ?c with _ => _ end] => destruct c as [[s | e] self'] end;
      simpl; [exact I | ].
    destruct (exn_eqb e TypeError || (exn_eqb e ValueError || false)) eqn:E;
      simpl; [exact I | exact E].
  - apply ram_value_fn_cases.
Qed.

(** C2, as stated, fails for the RAM usage sensor: a percentage that is
    text makes its value function raise TypeError. *)
Lemma ram_usage_raises :
  Snapshot.field ["system_stats"; "memory_usage"; "percentage"]
    Samples.text_percentage = Some (PStr "n/a")
  /\ UnraidRAMUsageSensor.value_fn Samples.text_percentage = Raise TypeError.
Proof. split; reflexivity. Qed.

(** ** The CPU-temperature sensor *)


Lemma all_some_cons {A B : Type} (g : A -> option B) (x : A) (l : list A)
    (r : list B) :
  Snapshot.all_some (map g (x :: l)) = Some r ->
  exists y r', g x = Some y /\ Snapshot.all_some (map g l) = Some r'
               /\ r = y :: r'.
Proof.
  simpl. destruct (g x) as [y | ]; [ | discriminate].
  destruct (Snapshot.all_some (map g l)) as [r' | ]; [ | discriminate].
  intros H. injection H as <-. exists y, r'. auto.
Qed.










(** ** The motherboard-temperature sensor *)

Lemma mb_parse_str (v : pyval) :
  UnraidMotherboardTempSensor._parse_temperature (Py.str v)
  = Ok (Spec.parsed_mb v).
Proof.
  unfold Spec.parsed_mb. rewrite mb_parse_unfold.
  destruct (Str.to_float _) as [t | e]; [ | reflexivity].
  destruct (in_range t); reflexivity.
Qed.

Lemma first_return_find {A A' B : Type} (g : A -> option A')
    (body : A -> result (option B)) (f : A' -> option B) (l : list A) :
  (forall x x', g x = Some x' -> body x = Ok (f x')) ->
  forall l', Snapshot.all_some (map g l) = Some l' ->
             UnraidMotherboardTempSensor.first_return l body
             = Ok (Spec.find_first f l').
Proof.
  intros Hb. induction l as [ | x rest IH]; intros l' H.
  - injection H as <-. reflexivity.
  - apply all_some_cons in H. destruct H as (x' & r' & Hx & Hrest & ->).
    simpl. rewrite (Hb x x' Hx). simpl.
    destruct (f x'); [reflexivity | exact (IH r' Hrest)].
Qed.

Lemma mb_visit_metric (pattern_lower : string) (kv : pyval * pyval)
    (m : string * pyval) :
  Snapshot.metric_of kv = Some m ->
  UnraidMotherboardTempSensor.visit_metric pattern_lower kv
  = Ok (if Py.is_str_or_float (snd m)
           && Str.contains pattern_lower (Str.lower (fst m))
        then Spec.parsed_mb (snd m) else None).
Proof.
  destruct kv as [key value]. unfold Snapshot.metric_of. simpl.
  destruct key; try discriminate. intros H. injection H as <-. simpl.
  destruct (Py.is_str_or_float value); simpl; [ | reflexivity].
  destruct (Str.contains pattern_lower (Str.lower s)); [ | reflexivity].
  apply mb_parse_str.
Qed.

Lemma mb_visit_pattern (gs : list (pyval * pyval))
    (groups : list (list (string * pyval))) (pattern : string) :
  Snapshot.all_some (map (fun g => Snapshot.group_of (snd g)) gs) = Some groups ->
  UnraidMotherboardTempSensor.visit_pattern (PDict gs) pattern
  = Ok (Spec.find_first
          (Spec.find_first
             (fun kv : string * pyval =>
                if Py.is_str_or_float (snd kv)
                   && Str.contains (Str.lower pattern) (Str.lower (fst kv))
                then Spec.parsed_mb (snd kv) else None))
          groups).
Proof.
  intros H. unfold UnraidMotherboardTempSensor.visit_pattern. simpl.
  apply (first_return_find Snapshot.group_of); [ | rewrite map_map; exact H].
  intros sensor_data ms Hg.
  unfold UnraidMotherboardTempSensor.visit_group.
  destruct sensor_data; try discriminate. simpl in *.
  apply (first_return_find Snapshot.metric_of); [ | exact Hg].
  intros kv m Hm. apply mb_visit_metric. exact Hm.
Qed.

Lemma first_return_patterns (body : string -> result (option float))
    (f : string -> option float) (l : list string) :
  (forall p, body p = Ok (f p)) ->
  UnraidMotherboardTempSensor.first_return l body = Ok (Spec.find_first f l).
Proof.
  intros Hb. induction l as [ | p rest IH]; simpl; [reflexivity | ].
  rewrite Hb. simpl. destruct (f p); [reflexivity | exact IH].
Qed.

(** C4, as the code has it. On a snapshot whose sensor groups map metric
    names to readings, the motherboard-temperature sensor tries the
    patterns 'mb temp', 'board temp', 'system temp', 'motherboard',
    'systin', 'temp1' in that order, scans all the groups for each
    pattern, and returns the first reading that is a string or a float,
    whose metric name has the pattern in it (case ignored) and that
    parses to a valid number; it returns no value when no pattern has
    one. *)
Theorem motherboard_temperature_first (data : pyval)
    (groups : list (list (string * pyval))) :
  Snapshot.temperature_groups data = Some groups ->
  UnraidMotherboardTempSensor.mb_patterns
  = ["mb temp"; "board temp"; "system temp"; "motherboard"; "systin"; "temp1"]
  /\ UnraidMotherboardTempSensor._get_temperature data
     = Ok (Spec.first_reading Py.is_str_or_float groups).
Proof.
  intros Hg. split; [reflexivity | ]. revert Hg.
  unfold Snapshot.temperature_groups,
    UnraidMotherboardTempSensor._get_temperature.
  destruct data; try discriminate.
  cbn -[UnraidMotherboardTempSensor.first_return].
  destruct (Py.lookup "system_stats" items) as [stats | ];
    [ | intros H; injection H as <-; reflexivity].
  destruct stats; try discriminate.
  cbn -[UnraidMotherboardTempSensor.first_return].
  destruct (Py.lookup "temperature_data" items0) as [td | ];
    [ | intros H; injection H as <-; reflexivity].
  destruct td; try discriminate.
  cbn -[UnraidMotherboardTempSensor.first_return].
  destruct (Py.lookup "sensors" items1) as [sd | ];
    [ | intros H; injection H as <-; reflexivity].
  unfold Snapshot.groups_of. destruct sd; try discriminate.
  intros H. unfold Spec.first_reading.
  rewrite (first_return_patterns _ _ _
             (fun p => mb_visit_pattern items2 groups p H)).
  reflexivity.
Qed.

Lemma motherboard_temperature_sample :
  Snapshot.temperature_groups Samples.board_sample = Some Samples.board_sample_groups
  /\ UnraidMotherboardTempSensor._get_temperature Samples.board_sample
     = Ok (Some (Float.of_decimal false 335 (-1))).
Proof.
  split; [reflexivity | ].
  exact (proj2 (motherboard_temperature_first Samples.board_sample Samples.board_sample_groups
                  eq_refl)).
Defined.

Example motherboard_temperature_float :
  Py.str (PFloat (Float.of_decimal false 335 (-1))) = "33.5"
  /\ UnraidMotherboardTempSensor._get_temperature Samples.float_board
     = Ok (Some (Float.of_decimal false 335 (-1))).
Proof. vm_compute. repeat split. Qed.

(** C4, as stated, fails: a reading that is an integer is passed over.
    The metric ["MB Temp"] with the integer 45 matches the first pattern
    and 45 parses to a valid number, yet the sensor returns no value. *)
Lemma motherboard_temperature_integer :
  Snapshot.temperature_groups Samples.integer_board
  = Some Samples.integer_board_groups
  /\ Spec.first_reading (fun _ => true) Samples.integer_board_groups
     = Some float_45
  /\ UnraidMotherboardTempSensor._get_temperature Samples.integer_board
     = Ok None.
Proof. vm_compute. repeat split. Qed.

(** ** Rounding in binary64

    The Standard Library specifies the operations of the format; the
    lemmas below relate their results to values, as far as the bound on
    the CPU temperature needs. *)

Import Binary64.

Lemma fexp_eq (e : Z) : fexp e = Z.max (e - 53) (-1074).
Proof. reflexivity. Qed.

Lemma fexp_mono (a b : Z) : a <= b -> fexp a <= fexp b.
Proof. rewrite !fexp_eq. lia. Qed.

Lemma digits2_size (p : positive) : digits2_pos p = Pos.size p.
Proof. induction p; simpl; congruence. Qed.

Lemma Zdigits2_log2 (m : Z) : 0 < m -> Zdigits2 m = Z.log2 m + 1.
Proof.
  destruct m as [ | p | p]; try lia. intros _.
  destruct p; simpl; rewrite ?digits2_size; lia.
Qed.

Lemma Zdigits2_bounds (m : Z) :
  0 < m -> 2 ^ (Zdigits2 m - 1) <= m < 2 ^ Zdigits2 m.
Proof.
  intros H. rewrite (Zdigits2_log2 m H).
  replace (Z.log2 m + 1 - 1) with (Z.log2 m) by lia.
  pose proof (Z.log2_spec m H). unfold Z.succ in *. lia.
Qed.

Lemma Zdigits2_pos (m : Z) : 0 < m -> 0 < Zdigits2 m.
Proof.
  intros H. rewrite (Zdigits2_log2 m H). pose proof (Z.log2_nonneg m). lia.
Qed.

Lemma Zdigits2_unique (m d : Z) :
  2 ^ (d - 1) <= m < 2 ^ d -> 0 < d -> Zdigits2 m = d.
Proof.
  intros H Hd.
  assert (0 < m) by (pose proof (Z.pow_pos_nonneg 2 (d - 1)); lia).
  rewrite (Zdigits2_log2 m H0).
  assert (Z.log2 m = d - 1); [ | lia].
  apply Z.log2_unique; [lia | ].
  unfold Z.succ. replace (d - 1 + 1) with d by lia. exact H.
Qed.

(** magnitudes are ordered like the values *)
Lemma pow2_lt_exp (a b : Z) : 0 <= b -> 2 ^ a < 2 ^ b -> a < b.
Proof.
  intros Hb H. destruct (Z_lt_le_dec a b) as [ | Hle]; [assumption | ].
  exfalso. pose proof (Z.pow_le_mono_r 2 b a ltac:(lia) Hle). lia.
Qed.

Lemma Zdigits2_mono (a b : Z) : 0 < a -> a <= b -> Zdigits2 a <= Zdigits2 b.
Proof.
  intros Ha Hab. rewrite !Zdigits2_log2 by lia.
  pose proof (Z.log2_le_mono a b Hab). lia.
Qed.

Lemma Zdigits2_nonneg (m : Z) : 0 <= m -> 0 <= Zdigits2 m.
Proof.
  intros H. destruct (Z.eq_dec m 0) as [-> | ]; [simpl; lia | ].
  pose proof (Zdigits2_pos m ltac:(lia)). lia.
Qed.

Lemma Zdigits2_div_pow2 (m n : Z) :
  0 <= n -> 2 ^ n <= m -> Zdigits2 (m / 2 ^ n) = Zdigits2 m - n.
Proof.
  intros Hn Hm.
  assert (Hp : 0 < 2 ^ n) by (apply Z.pow_pos_nonneg; lia).
  assert (H0 : 0 < m) by lia.
  pose proof (Zdigits2_bounds m H0) as [Hlo Hhi].
  assert (Hd : n < Zdigits2 m).
  { apply (pow2_lt_exp n (Zdigits2 m)); [pose proof (Zdigits2_pos m H0); lia | lia]. }
  apply Zdigits2_unique; [ | lia].
  split.
  - apply Z.div_le_lower_bound; [lia | ].
    rewrite <- Z.pow_add_r by lia.
    replace (n + (Zdigits2 m - n - 1)) with (Zdigits2 m - 1) by lia. exact Hlo.
  - apply Z.div_lt_upper_bound; [lia | ].
    rewrite <- Z.pow_add_r by lia.
    replace (n + (Zdigits2 m - n)) with (Zdigits2 m) by lia. exact Hhi.
Qed.

(** ** Shifting right *)

Lemma shr_1_shifted (r : shr_record) : 0 <= shr_m r -> shifted 1 r (shr_1 r).
Proof.
  destruct r as [m rb sb]. simpl. intros Hm. unfold shifted, exact_record. simpl.
  change (2 ^ 1) with 2.
  destruct m as [ | p | p]; try lia.
  - simpl. split; [reflexivity | ]. intros [-> ->] _. auto.
  - destruct p as [p | p | ].
    + simpl. split.
      * rewrite <- Z.div2_div. reflexivity.
      * intros _ H. exfalso. rewrite Pos2Z.inj_xI in H.
        rewrite Z.add_comm, Z.mul_comm, Z.mod_add in H by lia. discriminate.
    + simpl. split.
      * rewrite <- Z.div2_div. reflexivity.
      * intros [-> ->] _. auto.
    + simpl. split; [reflexivity | ]. intros _ H. discriminate.
Qed.

Lemma shifted_nonneg (n : Z) (r r' : shr_record) :
  0 <= n -> 0 <= shr_m r -> shifted n r r' -> 0 <= shr_m r'.
Proof.
  intros Hn Hm [E _]. rewrite E. apply Z.div_pos; [lia | ].
  apply Z.pow_pos_nonneg; lia.
Qed.

Lemma shifted_trans (a b : Z) (r r' r'' : shr_record) :
  0 <= a -> 0 <= b -> 0 <= shr_m r ->
  shifted a r r' -> shifted b r' r'' -> shifted (a + b) r r''.
Proof.
  intros Ha Hb Hm [E1 X1] [E2 X2].
  assert (Hpa : 0 < 2 ^ a) by (apply Z.pow_pos_nonneg; lia).
  assert (Hpb : 0 < 2 ^ b) by (apply Z.pow_pos_nonneg; lia).
  split.
  - rewrite E2, E1, Z.div_div, Z.pow_add_r by lia. reflexivity.
  - intros Hx Hmod. rewrite Z.pow_add_r in Hmod by lia.
    assert (Hma : shr_m r mod 2 ^ a = 0).
    { apply Z.mod_divide; [lia | ]. apply Z.mod_divide in Hmod; [ | lia].
      destruct Hmod as [k Hk]. exists (k * 2 ^ b). rewrite Hk. ring. }
    apply X2; [apply X1; assumption | ].
    rewrite E1. apply Z.mod_divide; [lia | ].
    apply Z.mod_divide in Hmod; [ | lia]. destruct Hmod as [k Hk].
    exists k. rewrite Hk.
    replace (k * (2 ^ a * 2 ^ b)) with (k * 2 ^ b * 2 ^ a) by ring.
    rewrite Z.div_mul by lia. reflexivity.
Qed.

Lemma iter_shr_1_shifted (p : positive) :
  forall r, 0 <= shr_m r -> shifted (Zpos p) r (iter_pos shr_1 p r).
Proof.
  induction p as [p IH | p IH | ]; intros r Hm; simpl.
  - pose proof (shr_1_shifted r Hm) as H1.
    pose proof (shifted_nonneg 1 _ _ ltac:(lia) Hm H1) as Hm1.
    pose proof (IH _ Hm1) as H2.
    pose proof (shifted_nonneg (Zpos p) _ _ ltac:(lia) Hm1 H2) as Hm2.
    pose proof (IH _ Hm2) as H3.
    pose proof (shifted_trans 1 (Zpos p) _ _ _ ltac:(lia) ltac:(lia) Hm H1 H2) as H12.
    pose proof (shifted_trans (1 + Zpos p) (Zpos p) _ _ _ ltac:(lia) ltac:(lia)
                  Hm H12 H3) as H.
    replace (Zpos p~1) with (1 + Zpos p + Zpos p) by lia. exact H.
  - pose proof (IH _ Hm) as H1.
    pose proof (shifted_nonneg (Zpos p) _ _ ltac:(lia) Hm H1) as Hm1.
    pose proof (IH _ Hm1) as H2.
    pose proof (shifted_trans (Zpos p) (Zpos p) _ _ _ ltac:(lia) ltac:(lia)
                  Hm H1 H2) as H.
    replace (Zpos p~0) with (Zpos p + Zpos p) by lia. exact H.
  - apply shr_1_shifted. exact Hm.
Qed.

Lemma shr_shifted (r : shr_record) (e n : Z) :
  0 <= shr_m r -> 0 <= n ->
  snd (shr r e n) = e + n /\ shifted n r (fst (shr r e n)).
Proof.
  intros Hm Hn. destruct n as [ | p | p]; try lia; simpl.
  - split; [lia | ]. split; [rewrite Z.div_1_r; reflexivity | auto].
  - split; [reflexivity | apply iter_shr_1_shifted; exact Hm].
Qed.

(** ** Rounding *)

Lemma bra_finish (sx : bool) (mx ex : Z) (l : location) :
  bra sx mx ex l
  = finish sx
      (round_nearest_even
         (shr_m (fst (shr_fexp Float.prec Float.emax mx ex l)))
         (loc_of_shr_record (fst (shr_fexp Float.prec Float.emax mx ex l))))
      (snd (shr_fexp Float.prec Float.emax mx ex l)).
Proof.
  unfold bra, binary_round_aux, finish.
  destruct (shr_fexp Float.prec Float.emax mx ex l) as [r1 e1]. reflexivity.
Qed.

Lemma loc_of_record_exact (m : Z) (l : location) :
  exact_record (shr_record_of_loc m l) <-> l = loc_Exact.
Proof.
  unfold exact_record. destruct l as [ | [ | | ]]; simpl; split; intros H;
    try reflexivity; try discriminate; try (destruct H; discriminate); auto.
Qed.

Lemma loc_of_exact_record (r : shr_record) :
  exact_record r -> loc_of_shr_record r = loc_Exact.
Proof. destruct r as [m rb sb]. intros [H1 H2]. simpl in *. subst. reflexivity. Qed.

Lemma shr_m_of_loc (m : Z) (l : location) : shr_m (shr_record_of_loc m l) = m.
Proof. destruct l as [ | [ | | ]]; reflexivity. Qed.

Lemma shr_fexp_first (mx ex : Z) (l : location) :
  0 <= mx -> ex <= fexp (Zdigits2 mx + ex) ->
  let e1 := fexp (Zdigits2 mx + ex) in
  let r1 := fst (shr_fexp Float.prec Float.emax mx ex l) in
  snd (shr_fexp Float.prec Float.emax mx ex l) = e1
  /\ shr_m r1 = mx / 2 ^ (e1 - ex)
  /\ (l = loc_Exact -> mx mod 2 ^ (e1 - ex) = 0 ->
      loc_of_shr_record r1 = loc_Exact)
  /\ (0 < shr_m r1 -> fexp (Zdigits2 (shr_m r1) + e1) = e1)
  /\ (shr_m r1 = 0 -> e1 = -1074).
Proof.
  intros Hm Hpre e1 r1.
  unfold shr_fexp in *. fold (fexp (Zdigits2 mx + ex)) in *. fold e1 in r1 |- *.
  assert (Hn : 0 <= e1 - ex) by (unfold e1; lia).
  pose proof (shr_shifted (shr_record_of_loc mx l) ex (e1 - ex)) as S.
  rewrite shr_m_of_loc in S. specialize (S Hm Hn). destruct S as [Se [Sm Sx]].
  rewrite shr_m_of_loc in Sm, Sx. fold r1 in Sm, Sx.
  assert (Hp : 0 < 2 ^ (e1 - ex)) by (apply Z.pow_pos_nonneg; lia).
  split; [rewrite Se; lia | ].
  split; [exact Sm | ].
  split.
  { intros Hl Hmod. apply loc_of_exact_record, Sx; [ | exact Hmod].
    apply loc_of_record_exact. exact Hl. }
  split.
  - intros Hpos. rewrite Sm in Hpos |- *.
    assert (Hge : 2 ^ (e1 - ex) <= mx).
    { destruct (Z_lt_le_dec mx (2 ^ (e1 - ex))) as [Hlt | ]; [ | assumption].
      rewrite Z.div_small in Hpos by lia. lia. }
    rewrite Zdigits2_div_pow2 by lia.
    replace (Zdigits2 mx - (e1 - ex) + e1) with (Zdigits2 mx + ex) by lia.
    reflexivity.
  - intros Hz. rewrite Sm in Hz.
    destruct (Z.eq_dec mx 0) as [-> | Hne].
    + simpl in e1, Hpre. unfold e1 in *. rewrite fexp_eq in *. lia.
    + assert (Hlt : mx < 2 ^ (e1 - ex)).
      { destruct (Z_lt_le_dec mx (2 ^ (e1 - ex))) as [ | Hge]; [assumption | ].
        pose proof (Z.div_le_lower_bound mx (2 ^ (e1 - ex)) 1 Hp ltac:(lia)). lia. }
      pose proof (Zdigits2_bounds mx ltac:(lia)) as [Hlo _].
      assert (Zdigits2 mx - 1 < e1 - ex).
      { apply pow2_lt_exp; [lia | lia]. }
      unfold e1 in *. rewrite fexp_eq in *. lia.
Qed.

Lemma round_nearest_even_cases (m : Z) (l : location) :
  round_nearest_even m l = m
  \/ (round_nearest_even m l = m + 1 /\ l <> loc_Exact).
Proof.
  destruct l as [ | [ | | ]]; simpl; auto.
  - destruct (Z.even m); [auto | right; split; [reflexivity | discriminate]].
  - right. split; [reflexivity | discriminate].
Qed.

Lemma finish_spec (sx : bool) (m1 m2 e1 : Z) :
  0 <= m1 -> (m2 = m1 \/ m2 = m1 + 1) ->
  (0 < m1 -> fexp (Zdigits2 m1 + e1) = e1) ->
  (m1 = 0 -> e1 = -1074) ->
  (m2 = 0 /\ finish sx m2 e1 = S754_zero sx)
  \/ (exists m3 e3,
         0 < m2 /\ e1 <= e3 /\ Zpos m3 * 2 ^ (e3 - e1) = m2
         /\ canonical_mantissa Float.prec Float.emax m3 e3 = true
         /\ finish sx m2 e1
            = if e3 <=? 971 then S754_finite sx m3 e3 else S754_infinity sx).
Proof.
  intros Hm1 Hm2 Hc Hz.
  destruct (Z.eq_dec m2 0) as [E0 | Hne].
  { left. split; [exact E0 | ]. subst m2. unfold finish, shr_fexp. simpl Zdigits2.
    destruct (SpecFloat.fexp Float.prec Float.emax (0 + e1) - e1) as [ | p | p];
      simpl; try reflexivity.
    pose proof (iter_shr_1_shifted p (Build_shr_record 0 false false)
                  ltac:(simpl; lia)) as [E _].
    simpl in E. rewrite Z.div_0_l in E
      by (pose proof (Z.pow_pos_nonneg 2 (Zpos p)); lia).
    rewrite E. reflexivity. }
  right. assert (Hpos : 0 < m2) by lia.
  destruct (Z.eq_dec (fexp (Zdigits2 m2 + e1)) e1) as [Hsame | Hdiff].
  - destruct m2 as [ | m3 | ]; try lia.
    exists m3, e1. split; [lia | ]. split; [lia | ].
    split; [rewrite Z.sub_diag; simpl; lia | ].
    split.
    + unfold canonical_mantissa. apply Z.eqb_eq. exact Hsame.
    + unfold finish, shr_fexp. unfold fexp in Hsame.
      simpl Zdigits2 in Hsame |- *. rewrite Hsame, Z.sub_diag. reflexivity.
  - assert (Hm1pos : 0 < m1).
    { destruct (Z.eq_dec m1 0) as [-> | ]; [ | lia].
      exfalso. specialize (Hz eq_refl). destruct Hm2 as [-> | ->]; [lia | ].
      apply Hdiff. subst e1. reflexivity. }
    specialize (Hc Hm1pos).
    destruct Hm2 as [-> | ->]; [contradiction | ].
    pose proof (Zdigits2_bounds m1 Hm1pos) as [Hlo Hhi].
    pose proof (Zdigits2_pos m1 Hm1pos) as Hd.
    assert (Hup : Zdigits2 (m1 + 1) <= Zdigits2 m1 + 1).
    { pose proof (Zdigits2_bounds (m1 + 1) ltac:(lia)) as [Hlo' _].
      assert (2 ^ (Zdigits2 (m1 + 1) - 1) < 2 ^ (Zdigits2 m1 + 1)).
      { rewrite Z.pow_add_r by lia. change (2 ^ 1) with 2. lia. }
      apply pow2_lt_exp in H; lia. }
    pose proof (Zdigits2_mono m1 (m1 + 1) Hm1pos ltac:(lia)) as Hdn.
    assert (Hdig : Zdigits2 (m1 + 1) = Zdigits2 m1 + 1).
    { destruct (Z.eq_dec (Zdigits2 (m1 + 1)) (Zdigits2 m1)) as [E | ]; [ | lia].
      exfalso. apply Hdiff. rewrite E. exact Hc. }
    assert (Hpow : m1 + 1 = 2 ^ Zdigits2 m1).
    { pose proof (Zdigits2_bounds (m1 + 1) ltac:(lia)) as [Hlo' _].
      rewrite Hdig in Hlo'. replace (Zdigits2 m1 + 1 - 1) with (Zdigits2 m1) in Hlo' by lia.
      lia. }
    assert (Hexp : fexp (Zdigits2 (m1 + 1) + e1) = e1 + 1).
    { rewrite fexp_eq in *. rewrite Hdig in *. lia. }
    assert (Hhalf : (m1 + 1) / 2 = 2 ^ (Zdigits2 m1 - 1)).
    { rewrite Hpow. replace (Zdigits2 m1) with (1 + (Zdigits2 m1 - 1)) at 1 by lia.
      rewrite Z.pow_add_r by lia. change (2 ^ 1) with 2.
      rewrite Z.mul_comm, Z.div_mul by lia. reflexivity. }
    assert (Hhp : 0 < 2 ^ (Zdigits2 m1 - 1)) by (apply Z.pow_pos_nonneg; lia).
    destruct ((m1 + 1) / 2) as [ | m3 | ] eqn:Em3; try lia.
    exists m3, (e1 + 1). split; [lia | ]. split; [lia | ].
    split.
    { replace (e1 + 1 - e1) with 1 by lia. change (2 ^ 1) with 2.
      rewrite Hhalf, Hpow.
      replace (Zdigits2 m1) with (1 + (Zdigits2 m1 - 1)) at 2 by lia.
      rewrite Z.pow_add_r by lia. change (2 ^ 1) with 2. lia. }
    split.
    { unfold canonical_mantissa. apply Z.eqb_eq.
      change (fexp (Zdigits2 (Zpos m3) + (e1 + 1)) = e1 + 1).
      rewrite Hhalf.
      rewrite (Zdigits2_unique (2 ^ (Zdigits2 m1 - 1)) (Zdigits2 m1)) by lia.
      rewrite Hdig in Hexp.
      replace (Zdigits2 m1 + (e1 + 1)) with (Zdigits2 m1 + 1 + e1) by lia.
      exact Hexp. }
    unfold finish, shr_fexp.
    change (SpecFloat.fexp Float.prec Float.emax (Zdigits2 (m1 + 1) + e1))
      with (fexp (Zdigits2 (m1 + 1) + e1)).
    rewrite Hexp. replace (e1 + 1 - e1) with 1 by lia.
    change (shr (shr_record_of_loc (m1 + 1) loc_Exact) e1 1)
      with (shr_1 (shr_record_of_loc (m1 + 1) loc_Exact), e1 + 1).
    cbv beta iota.
    pose proof (shr_1_shifted (shr_record_of_loc (m1 + 1) loc_Exact)
                  ltac:(simpl; lia)) as [E _].
    rewrite shr_m_of_loc in E. change (2 ^ 1) with 2 in E. rewrite Em3 in E.
    rewrite E. reflexivity.
Qed.

Lemma mag_le (m1 e1 m2 e2 c : Z) :
  0 < m1 -> c <= e1 -> c <= e2 ->
  m1 * 2 ^ (e1 - c) <= m2 * 2 ^ (e2 - c) ->
  Zdigits2 m1 + e1 <= Zdigits2 m2 + e2.
Proof.
  intros H1 Hc1 Hc2 H.
  assert (Hp1 : 0 < 2 ^ (e1 - c)) by (apply Z.pow_pos_nonneg; lia).
  assert (Hp2 : 0 < 2 ^ (e2 - c)) by (apply Z.pow_pos_nonneg; lia).
  assert (H2 : 0 < m2) by nia.
  pose proof (Zdigits2_bounds m1 H1) as [Hlo1 _].
  pose proof (Zdigits2_bounds m2 H2) as [_ Hhi2].
  pose proof (Zdigits2_pos m1 H1). pose proof (Zdigits2_pos m2 H2).
  assert (2 ^ (Zdigits2 m1 - 1 + (e1 - c)) < 2 ^ (Zdigits2 m2 + (e2 - c))).
  { rewrite !Z.pow_add_r by lia. nia. }
  apply pow2_lt_exp in H4; lia.
Qed.

Lemma bra_cases (sx : bool) (mx ex : Z) (l : location) :
  0 <= mx -> ex <= fexp (Zdigits2 mx + ex) ->
  let e1 := fexp (Zdigits2 mx + ex) in
  let m1 := mx / 2 ^ (e1 - ex) in
  exists m2,
    (m2 = m1 \/ (m2 = m1 + 1 /\ ~ (l = loc_Exact /\ mx mod 2 ^ (e1 - ex) = 0)))
    /\ ((m2 = 0 /\ bra sx mx ex l = S754_zero sx)
        \/ (exists m3 e3,
               0 < m2 /\ e1 <= e3 /\ Zpos m3 * 2 ^ (e3 - e1) = m2
               /\ canonical_mantissa Float.prec Float.emax m3 e3 = true
               /\ bra sx mx ex l
                  = if e3 <=? 971 then S754_finite sx m3 e3
                    else S754_infinity sx)).
Proof.
  intros Hm Hpre e1 m1.
  pose proof (shr_fexp_first mx ex l Hm Hpre) as (He & Hm1 & Hx & Hc & Hz).
  fold e1 in He, Hm1, Hx, Hc, Hz. fold m1 in Hm1.
  rewrite bra_finish, He.
  set (r1 := fst (shr_fexp Float.prec Float.emax mx ex l)) in *.
  set (m2 := round_nearest_even (shr_m r1) (loc_of_shr_record r1)).
  exists m2.
  assert (Hm1n : 0 <= m1).
  { unfold m1. apply Z.div_pos; [lia | ]. apply Z.pow_pos_nonneg; [lia | ].
    unfold e1. lia. }
  assert (Hcases : m2 = m1
                   \/ (m2 = m1 + 1
                       /\ ~ (l = loc_Exact /\ mx mod 2 ^ (e1 - ex) = 0))).
  { unfold m2.
    destruct (round_nearest_even_cases (shr_m r1) (loc_of_shr_record r1))
      as [E | [E Hl]]; rewrite E, Hm1; [left; reflexivity | right].
    split; [reflexivity | ]. intros [Hl1 Hl2]. apply Hl, Hx; assumption. }
  split; [exact Hcases | ].
  rewrite Hm1 in Hc, Hz.
  apply (finish_spec sx m1 m2 e1 Hm1n); [ | exact Hc | exact Hz].
  destruct Hcases as [-> | [-> _]]; auto.
Qed.

Lemma bra_valid (sx : bool) (mx ex : Z) (l : location) :
  0 <= mx -> ex <= fexp (Zdigits2 mx + ex) -> valid (bra sx mx ex l).
Proof.
  intros Hm Hpre.
  destruct (bra_cases sx mx ex l Hm Hpre) as (m2 & _ & [[_ E] | H]).
  - rewrite E. reflexivity.
  - destruct H as (m3 & e3 & _ & _ & _ & Hc & E). rewrite E.
    destruct (e3 <=? 971) eqn:Le; [ | reflexivity].
    unfold valid. simpl. unfold bounded. rewrite Hc. exact Le.
Qed.

(** The magnitude of the rounded value stays below any binary64 number
    the exact value stays below. *)
Lemma bra_bound (sx : bool) (mx ex : Z) (l : location) (mb : positive)
    (eb c : Z) :
  0 <= mx -> ex <= fexp (Zdigits2 mx + ex) ->
  bounded Float.prec Float.emax mb eb = true ->
  c <= ex -> c <= -1074 ->
  (l = loc_Exact -> mx * 2 ^ (ex - c) <= Zpos mb * 2 ^ (eb - c)) ->
  (l <> loc_Exact -> mx * 2 ^ (ex - c) < Zpos mb * 2 ^ (eb - c)) ->
  bra sx mx ex l = S754_zero sx
  \/ exists m e,
       bra sx mx ex l = S754_finite sx m e
       /\ bounded Float.prec Float.emax m e = true
       /\ Zpos m * 2 ^ (e - c) <= Zpos mb * 2 ^ (eb - c).
Proof.
  intros Hm Hpre Hb Hcx Hcm Hex Hin.
  destruct (bra_cases sx mx ex l Hm Hpre) as (m2 & Hm2 & [[_ E] | H]);
    [left; exact E | right].
  destruct H as (m3 & e3 & Hpos & He3 & Hv & Hc & E).
  set (e1 := fexp (Zdigits2 mx + ex)) in *.
  set (m1 := mx / 2 ^ (e1 - ex)) in *.
  unfold bounded in Hb. apply andb_prop in Hb. destruct Hb as [Hbc Hbe].
  unfold canonical_mantissa in Hbc. apply Z.eqb_eq in Hbc.
  change (fexp (Zdigits2 (Zpos mb) + eb) = eb) in Hbc.
  apply Z.leb_le in Hbe. change (eb <= 971) in Hbe.
  assert (Hemin : -1074 <= eb) by (rewrite <- Hbc, fexp_eq; lia).
  assert (Hle : mx * 2 ^ (ex - c) <= Zpos mb * 2 ^ (eb - c)).
  { destruct l as [ | cmp]; [apply Hex; reflexivity | ].
    apply Z.lt_le_incl, Hin. discriminate. }
  assert (He1 : ex <= e1) by (unfold e1; lia).
  assert (Hpn : 0 < 2 ^ (e1 - ex)) by (apply Z.pow_pos_nonneg; lia).
  assert (Heb : e1 <= eb).
  { destruct (Z.eq_dec mx 0) as [E0 | Hne].
    - unfold e1 in *. rewrite E0 in *. simpl Zdigits2 in *. rewrite fexp_eq in *. lia.
    - pose proof (mag_le mx ex (Zpos mb) eb c ltac:(lia) Hcx ltac:(lia) Hle) as Hmag.
      rewrite <- Hbc. unfold e1. apply fexp_mono. exact Hmag. }
  (* the bound as a multiple of the unit in the last place *)
  set (J := Zpos mb * 2 ^ (eb - e1)).
  assert (HJ : Zpos mb * 2 ^ (eb - c) = J * 2 ^ (e1 - c)).
  { unfold J. rewrite <- Z.mul_assoc, <- Z.pow_add_r by lia.
    f_equal. f_equal. lia. }
  assert (Hu : 0 < 2 ^ (e1 - c)) by (apply Z.pow_pos_nonneg; lia).
  assert (Hmx : mx * 2 ^ (ex - c) * 2 ^ (e1 - ex) = mx * 2 ^ (e1 - c)).
  { rewrite <- Z.mul_assoc, <- Z.pow_add_r by lia. f_equal. f_equal. lia. }
  assert (Hdm : mx = 2 ^ (e1 - ex) * m1 + mx mod 2 ^ (e1 - ex))
    by (apply Z.div_mod; lia).
  pose proof (Z.mod_pos_bound mx (2 ^ (e1 - ex)) Hpn) as Hmod.
  assert (Hxc : 0 < 2 ^ (ex - c)) by (apply Z.pow_pos_nonneg; lia).
  assert (Hsplit : 2 ^ (e1 - c) = 2 ^ (e1 - ex) * 2 ^ (ex - c)).
  { rewrite <- Z.pow_add_r by lia. f_equal. lia. }
  assert (Hm2J : m2 <= J).
  { rewrite HJ, Hsplit in Hle.
    destruct Hm2 as [-> | [-> Hne]].
    - (* rounded down *)
      assert (m1 * (2 ^ (e1 - ex) * 2 ^ (ex - c)) <= J * (2 ^ (e1 - ex) * 2 ^ (ex - c))) by nia.
      nia.
    - assert (Hlt : m1 * (2 ^ (e1 - ex) * 2 ^ (ex - c))
                    < J * (2 ^ (e1 - ex) * 2 ^ (ex - c))).
      { destruct l as [ | cmp].
        - assert (mx mod 2 ^ (e1 - ex) <> 0) by (intros Hz; apply Hne; auto).
          nia.
        - assert (Hs : mx * 2 ^ (ex - c) < Zpos mb * 2 ^ (eb - c))
            by (apply Hin; discriminate).
          rewrite HJ, Hsplit in Hs. nia. }
      nia. }
  assert (Hval : Zpos m3 * 2 ^ (e3 - c) <= Zpos mb * 2 ^ (eb - c)).
  { rewrite HJ. replace (e3 - c) with (e3 - e1 + (e1 - c)) by lia.
    rewrite Z.pow_add_r, Z.mul_assoc, Hv by lia. nia. }
  assert (He3b : e3 <= 971).
  { pose proof (mag_le (Zpos m3) e3 (Zpos mb) eb c ltac:(lia) ltac:(lia)
                  ltac:(lia) Hval) as Hmag.
    unfold canonical_mantissa in Hc. apply Z.eqb_eq in Hc.
    change (fexp (Zdigits2 (Zpos m3) + e3) = e3) in Hc.
    apply fexp_mono in Hmag. lia. }
  exists m3, e3. apply Z.leb_le in He3b. rewrite He3b in E.
  split; [exact E | ]. split; [ | exact Hval].
  unfold bounded. rewrite Hc. exact He3b.
Qed.

(** Rounding a canonical mantissa changes nothing. *)
Lemma bra_exact (sx : bool) (mx : positive) (ex : Z) :
  fexp (Zdigits2 (Zpos mx) + ex) = ex ->
  bra sx (Zpos mx) ex loc_Exact
  = if ex <=? 971 then S754_finite sx mx ex else S754_infinity sx.
Proof.
  intros Hc.
  destruct (bra_cases sx (Zpos mx) ex loc_Exact ltac:(lia) ltac:(lia))
    as (m2 & Hm2 & H).
  rewrite Hc, Z.sub_diag in Hm2. change (2 ^ 0) with 1 in Hm2.
  rewrite Z.div_1_r, Z.mod_1_r in Hm2.
  assert (E2 : m2 = Zpos mx) by (destruct Hm2 as [ | [_ Hn]]; [assumption | ]; exfalso; auto).
  subst m2. destruct H as [[H0 _] | H]; [lia | ].
  destruct H as (m3 & e3 & _ & He3 & Hv & Hcan & E).
  rewrite Hc in He3, Hv.
  unfold canonical_mantissa in Hcan. apply Z.eqb_eq in Hcan.
  change (fexp (Zdigits2 (Zpos m3) + e3) = e3) in Hcan.
  assert (Hp : 0 < 2 ^ (e3 - ex)) by (apply Z.pow_pos_nonneg; lia).
  assert (Hmag : Zdigits2 (Zpos mx) + ex = Zdigits2 (Zpos m3) + e3).
  { pose proof (mag_le (Zpos m3) e3 (Zpos mx) ex ex ltac:(lia) ltac:(lia)
                  ltac:(lia)) as H1.
    rewrite Z.sub_diag in H1. change (2 ^ 0) with 1 in H1. specialize (H1 ltac:(lia)).
    pose proof (mag_le (Zpos mx) ex (Zpos m3) e3 ex ltac:(lia) ltac:(lia)
                  ltac:(lia)) as H2.
    rewrite Z.sub_diag in H2. change (2 ^ 0) with 1 in H2. specialize (H2 ltac:(lia)).
    lia. }
  assert (e3 = ex) by congruence. subst e3.
  rewrite Z.sub_diag in Hv. change (2 ^ 0) with 1 in Hv.
  assert (m3 = mx) by lia. subst m3. exact E.
Qed.

Lemma iter_xO (m d : positive) : Zpos (Pos.iter xO m d) = Zpos m * 2 ^ Zpos d.
Proof.
  induction d as [ | d IH] using Pos.peano_ind.
  - simpl. lia.
  - rewrite Pos.iter_succ, Pos2Z.inj_xO, IH, Pos2Z.inj_succ, Z.pow_succ_r by lia.
    ring.
Qed.

Lemma Zdigits2_mul_pow2 (m k : Z) :
  0 < m -> 0 <= k -> Zdigits2 (m * 2 ^ k) = Zdigits2 m + k.
Proof.
  intros Hm Hk. pose proof (Zdigits2_bounds m Hm) as [Hlo Hhi].
  pose proof (Zdigits2_pos m Hm).
  assert (Hp : 0 < 2 ^ k) by (apply Z.pow_pos_nonneg; lia).
  apply Zdigits2_unique; [ | lia].
  replace (Zdigits2 m + k - 1) with (Zdigits2 m - 1 + k) by lia.
  rewrite !Z.pow_add_r by lia. nia.
Qed.

Lemma shl_align_spec (mx : positive) (ex e' : Z) :
  let mz := fst (shl_align mx ex e') in
  let ez := snd (shl_align mx ex e') in
  ez = Z.min ex e' /\ Zpos mz = Zpos mx * 2 ^ (ex - ez).
Proof.
  unfold shl_align. destruct (e' - ex) as [ | d | d] eqn:E; cbn [fst snd].
  - split; [lia | ]. rewrite Z.sub_diag. simpl. lia.
  - split; [lia | ]. rewrite Z.sub_diag. simpl. lia.
  - split; [lia | ]. rewrite iter_xO. f_equal. f_equal. lia.
Qed.

Lemma bround_bra (sx : bool) (mx : positive) (ex : Z) :
  exists mz ez,
    bround sx mx ex = bra sx (Zpos mz) ez loc_Exact
    /\ ez = Z.min ex (fexp (Zdigits2 (Zpos mx) + ex))
    /\ Zpos mz = Zpos mx * 2 ^ (ex - ez)
    /\ ez <= fexp (Zdigits2 (Zpos mz) + ez).
Proof.
  unfold bround, binary_round.
  pose proof (shl_align_spec mx ex
                (SpecFloat.fexp Float.prec Float.emax (Zpos (digits2_pos mx) + ex)))
    as [Hez Hmz].
  destruct (shl_align mx ex _) as [mz ez]. cbn [fst snd] in Hez, Hmz.
  exists mz, ez. split; [reflexivity | ]. split; [exact Hez | ].
  split; [exact Hmz | ].
  rewrite Hmz, Zdigits2_mul_pow2 by lia.
  replace (Zdigits2 (Zpos mx) + (ex - ez) + ez) with (Zdigits2 (Zpos mx) + ex) by lia.
  rewrite Hez. unfold fexp. simpl Zdigits2. lia.
Qed.

Lemma bround_valid (sx : bool) (mx : positive) (ex : Z) :
  valid (bround sx mx ex).
Proof.
  destruct (bround_bra sx mx ex) as (mz & ez & E & _ & _ & Hpre).
  rewrite E. apply bra_valid; [lia | exact Hpre].
Qed.

Lemma bround_bound (sx : bool) (mx : positive) (ex : Z) (mb : positive)
    (eb c : Z) :
  bounded Float.prec Float.emax mb eb = true ->
  c <= ex -> c <= -1074 ->
  Zpos mx * 2 ^ (ex - c) <= Zpos mb * 2 ^ (eb - c) ->
  bround sx mx ex = S754_zero sx
  \/ exists m e,
       bround sx mx ex = S754_finite sx m e
       /\ bounded Float.prec Float.emax m e = true
       /\ Zpos m * 2 ^ (e - c) <= Zpos mb * 2 ^ (eb - c).
Proof.
  intros Hb Hcx Hcm Hle.
  destruct (bround_bra sx mx ex) as (mz & ez & E & Hez & Hmz & Hpre).
  rewrite E.
  assert (Hcz : c <= ez) by (rewrite Hez, fexp_eq; lia).
  apply (bra_bound sx (Zpos mz) ez loc_Exact mb eb c); try assumption; try lia.
  - intros _. rewrite Hmz, <- Z.mul_assoc, <- Z.pow_add_r by lia.
    replace (ex - ez + (ez - c)) with (ex - c) by lia. exact Hle.
  - intros H. exfalso. apply H. reflexivity.
Qed.

(** Small integers are binary64 numbers. *)
Lemma of_Z_small (n : positive) :
  Zpos n < 2 ^ 53 ->
  exists m e,
    Float.of_Z (Zpos n) = S754_finite false m e
    /\ bounded Float.prec Float.emax m e = true
    /\ -52 <= e <= 0
    /\ Zpos m = Zpos n * 2 ^ (- e).
Proof.
  intros Hn. unfold Float.of_Z, binary_normalize.
  change (binary_round Float.prec Float.emax false n 0) with (bround false n 0).
  destruct (bround_bra false n 0) as (mz & ez & E & Hez & Hmz & Hpre).
  pose proof (Zdigits2_bounds (Zpos n) ltac:(lia)) as [Hlo Hhi].
  pose proof (Zdigits2_pos (Zpos n) ltac:(lia)) as Hd.
  assert (Hd53 : Zdigits2 (Zpos n) <= 53).
  { assert (2 ^ (Zdigits2 (Zpos n) - 1) < 2 ^ 53) by lia.
    apply pow2_lt_exp in H; lia. }
  rewrite Z.add_0_r, fexp_eq in Hez.
  assert (Eez : ez = Zdigits2 (Zpos n) - 53) by lia.
  assert (Hcan : fexp (Zdigits2 (Zpos mz) + ez) = ez).
  { rewrite Hmz, Zdigits2_mul_pow2 by lia. rewrite fexp_eq. lia. }
  rewrite E, (bra_exact false mz ez Hcan).
  assert (Hle : (ez <=? 971) = true) by (apply Z.leb_le; lia).
  rewrite Hle. exists mz, ez. split; [reflexivity | ].
  split.
  { unfold bounded, canonical_mantissa.
    change (SpecFloat.fexp Float.prec Float.emax (Zpos (digits2_pos mz) + ez))
      with (fexp (Zdigits2 (Zpos mz) + ez)).
    rewrite Hcan, Z.eqb_refl. exact Hle. }
  split; [lia | ]. rewrite Hmz. replace (0 - ez) with (- ez) by lia. reflexivity.
Qed.

(** ** Values *)

Lemma bounded_exp (m : positive) (e : Z) :
  bounded Float.prec Float.emax m e = true ->
  fexp (Zdigits2 (Zpos m) + e) = e /\ -1074 <= e <= 971.
Proof.
  unfold bounded, canonical_mantissa. intros H. apply andb_prop in H.
  destruct H as [Hc He]. apply Z.eqb_eq in Hc. apply Z.leb_le in He.
  change (fexp (Zdigits2 (Zpos m) + e) = e) in Hc. change (e <= 971) in He.
  split; [exact Hc | ]. rewrite <- Hc at 1. rewrite fexp_eq. lia.
Qed.

Lemma add_bound (x y : float) (mb : positive) (eb : Z) :
  valid x -> valid y -> fin x -> fin y ->
  bounded Float.prec Float.emax mb eb = true ->
  Z.abs (IV x + IV y) <= Zpos mb * 2 ^ (eb + 1074) ->
  valid (Float.add x y) /\ fin (Float.add x y)
  /\ Z.abs (IV (Float.add x y)) <= Zpos mb * 2 ^ (eb + 1074)
  /\ (0 <= IV x + IV y -> 0 <= IV (Float.add x y))
  /\ (IV x + IV y <= 0 -> IV (Float.add x y) <= 0).
Proof.
  intros Vx Vy Fx Fy Hb Hle.
  destruct x as [sx | sx | | sx mx ex]; try discriminate;
    destruct y as [sy | sy | | sy my ey]; try discriminate.
  - assert (E : IV (Float.add (S754_zero sx) (S754_zero sy)) = 0
                /\ fin (Float.add (S754_zero sx) (S754_zero sy))
                /\ valid (Float.add (S754_zero sx) (S754_zero sy)))
      by (destruct sx, sy; repeat split).
    destruct E as (E & F & V). rewrite E. cbn [IV] in *.
    repeat split; try assumption; lia.
  - change (Float.add (S754_zero sx) (S754_finite sy my ey))
      with (S754_finite sy my ey).
    cbn [IV] in *. repeat split; try assumption; lia.
  - change (Float.add (S754_finite sx mx ex) (S754_zero sy))
      with (S754_finite sx mx ex).
    cbn [IV] in *. rewrite Z.add_0_r in *. repeat split; try assumption; lia.
  - unfold valid in Vx, Vy. simpl in Vx, Vy.
    pose proof (bounded_exp mx ex Vx) as [_ Hex].
    pose proof (bounded_exp my ey Vy) as [_ Hey].
    unfold Float.add, SFadd.
    set (ez := Z.min ex ey).
    pose proof (shl_align_spec mx ex ez) as [Hxe Hxm].
    pose proof (shl_align_spec my ey ez) as [Hye Hym].
    cbv zeta in Hxe, Hxm, Hye, Hym.
    replace (Z.min ex ez) with ez in Hxe by (unfold ez; lia).
    replace (Z.min ey ez) with ez in Hye by (unfold ez; lia).
    rewrite Hxe in Hxm. rewrite Hye in Hym.
    rewrite Hxm, Hym.
    set (M := cond_Zopp sx (Zpos mx * 2 ^ (ex - ez))
              + cond_Zopp sy (Zpos my * 2 ^ (ey - ez))).
    assert (Hsum : IV (S754_finite sx mx ex) + IV (S754_finite sy my ey)
                   = M * 2 ^ (ez + 1074)).
    { assert (Ex : 2 ^ (ex + 1074) = 2 ^ (ex - ez) * 2 ^ (ez + 1074)).
      { rewrite <- Z.pow_add_r by (unfold ez; lia). f_equal. lia. }
      assert (Ey : 2 ^ (ey + 1074) = 2 ^ (ey - ez) * 2 ^ (ez + 1074)).
      { rewrite <- Z.pow_add_r by (unfold ez; lia). f_equal. lia. }
      unfold M. cbn [IV]. rewrite Ex, Ey.
      destruct sx, sy; cbn [cond_Zopp]; ring. }
    rewrite Hsum in *.
    assert (Hu : 0 < 2 ^ (ez + 1074)) by (apply Z.pow_pos_nonneg; unfold ez; lia).
    destruct M as [ | p | p] eqn:EM; unfold binary_normalize.
    + cbn [IV]. repeat split; try reflexivity; lia.
    + change (binary_round Float.prec Float.emax false p ez) with (bround false p ez).
      pose proof (bround_valid false p ez) as V.
      destruct (bround_bound false p ez mb eb (-1074) Hb ltac:(unfold ez; lia)
                  ltac:(lia)) as [E | (m & e & E & Hbm & Hv)].
      { replace (ez - -1074) with (ez + 1074) by lia.
        replace (eb - -1074) with (eb + 1074) by lia. lia. }
      * rewrite E. cbn [IV]. repeat split; try reflexivity; lia.
      * rewrite E in *. replace (e - -1074) with (e + 1074) in Hv by lia.
        replace (eb - -1074) with (eb + 1074) in Hv by lia.
        assert (0 < 2 ^ (e + 1074))
          by (apply Z.pow_pos_nonneg; pose proof (bounded_exp m e Hbm); lia).
        cbn [IV cond_Zopp]. repeat split; try reflexivity; try assumption; lia.
    + change (binary_round Float.prec Float.emax true p ez) with (bround true p ez).
      pose proof (bround_valid true p ez) as V.
      destruct (bround_bound true p ez mb eb (-1074) Hb ltac:(unfold ez; lia)
                  ltac:(lia)) as [E | (m & e & E & Hbm & Hv)].
      { replace (ez - -1074) with (ez + 1074) by lia.
        replace (eb - -1074) with (eb + 1074) by lia. lia. }
      * rewrite E. cbn [IV]. repeat split; try reflexivity; lia.
      * rewrite E in *. replace (e - -1074) with (e + 1074) in Hv by lia.
        replace (eb - -1074) with (eb + 1074) in Hv by lia.
        assert (0 < 2 ^ (e + 1074))
          by (apply Z.pow_pos_nonneg; pose proof (bounded_exp m e Hbm); lia).
        cbn [IV cond_Zopp]. repeat split; try reflexivity; try assumption; lia.
Qed.

(** ** Division *)

Lemma new_location_exact (d r : Z) :
  new_location d r = loc_Exact <-> r = 0.
Proof.
  unfold new_location, new_location_even, new_location_odd.
  destruct (Z.even d); destruct (Z.eqb_spec r 0); split; intros H;
    try reflexivity; try discriminate; try contradiction; auto.
Qed.

Lemma div_core_spec (m1 m2 : positive) (e1 e2 : Z) :
  let mz := fst (fst (SFdiv_core_binary Float.prec Float.emax
                        (Zpos m1) e1 (Zpos m2) e2)) in
  let ez := snd (fst (SFdiv_core_binary Float.prec Float.emax
                        (Zpos m1) e1 (Zpos m2) e2)) in
  let lz := snd (SFdiv_core_binary Float.prec Float.emax
                   (Zpos m1) e1 (Zpos m2) e2) in
  ez = Z.min (fexp (Zdigits2 (Zpos m1) + e1 - (Zdigits2 (Zpos m2) + e2)))
             (e1 - e2)
  /\ mz = (Zpos m1 * 2 ^ (e1 - e2 - ez)) / Zpos m2
  /\ (lz = loc_Exact <-> (Zpos m1 * 2 ^ (e1 - e2 - ez)) mod Zpos m2 = 0).
Proof.
  unfold SFdiv_core_binary.
  set (e' := Z.min (SpecFloat.fexp Float.prec Float.emax
                      (Zdigits2 (Zpos m1) + e1 - (Zdigits2 (Zpos m2) + e2)))
                   (e1 - e2)).
  set (s := e1 - e2 - e').
  assert (Hs : 0 <= s) by (unfold s, e'; lia).
  set (m' := match s with
             | 0 => Zpos m1
             | Zpos _ => Z.shiftl (Zpos m1) s
             | Zneg _ => 0
             end).
  assert (Hm' : m' = Zpos m1 * 2 ^ s).
  { unfold m'. destruct s as [ | p | p].
    - change (2 ^ 0) with 1. lia.
    - apply Z.shiftl_mul_pow2. lia.
    - lia. }
  change (Z.div_eucl m' (Zpos m2)) with (Z.div_eucl m' (Zpos m2)).
  pose proof (eq_refl (Z.div_eucl m' (Zpos m2))) as Hqr.
  unfold Z.div, Z.modulo.
  destruct (Z.div_eucl m' (Zpos m2)) as [q r] eqn:E. cbn [fst snd].
  split; [reflexivity | ].
  fold s. rewrite <- Hm', E. cbn [fst snd].
  split; [reflexivity | apply new_location_exact].
Qed.

Lemma div_core_pre (m1 m2 : positive) (e1 e2 : Z) :
  let mz := fst (fst (SFdiv_core_binary Float.prec Float.emax
                        (Zpos m1) e1 (Zpos m2) e2)) in
  let ez := snd (fst (SFdiv_core_binary Float.prec Float.emax
                        (Zpos m1) e1 (Zpos m2) e2)) in
  0 <= mz /\ ez <= fexp (Zdigits2 mz + ez).
Proof.
  intros mz ez.
  pose proof (div_core_spec m1 m2 e1 e2) as (Hez & Hmz & _).
  fold mz ez in Hez, Hmz.
  set (s := e1 - e2 - ez) in *.
  assert (Hs : 0 <= s) by (unfold s; lia).
  assert (Hp : 0 < 2 ^ s) by (apply Z.pow_pos_nonneg; lia).
  assert (Hq : 0 <= mz) by (rewrite Hmz; apply Z.div_pos; lia).
  split; [exact Hq | ].
  set (d1 := Zdigits2 (Zpos m1)) in *. set (d2 := Zdigits2 (Zpos m2)) in *.
  pose proof (Zdigits2_bounds (Zpos m1) ltac:(lia)) as [Hlo1 Hhi1].
  pose proof (Zdigits2_bounds (Zpos m2) ltac:(lia)) as [Hlo2 Hhi2].
  pose proof (Zdigits2_pos (Zpos m1) ltac:(lia)) as Hd1.
  pose proof (Zdigits2_pos (Zpos m2) ltac:(lia)) as Hd2.
  fold d1 in Hlo1, Hhi1, Hd1. fold d2 in Hlo2, Hhi2, Hd2.
  assert (Hdig : d1 + s - d2 <= Zdigits2 mz).
  { destruct (Z_le_gt_dec (d1 + s - d2) 0) as [Hle | Hgt].
    - pose proof (Zdigits2_nonneg mz Hq). lia.
    - set (k := d1 + s - d2 - 1). assert (Hk : 0 <= k) by (unfold k; lia).
      assert (Hge : 2 ^ k <= mz).
      { rewrite Hmz. apply Z.div_le_lower_bound; [lia | ].
        assert (2 ^ (d1 - 1) * 2 ^ s = 2 ^ k * 2 ^ d2).
        { rewrite <- !Z.pow_add_r by lia. f_equal. unfold k. lia. }
        assert (0 < 2 ^ k) by (apply Z.pow_pos_nonneg; lia).
        nia. }
      assert (0 < mz) by (pose proof (Z.pow_pos_nonneg 2 k); lia).
      pose proof (Zdigits2_bounds mz H) as [_ Hhi].
      assert (2 ^ k < 2 ^ Zdigits2 mz) by lia.
      apply pow2_lt_exp in H0; [unfold k in *; lia | ].
      pose proof (Zdigits2_pos mz H). lia. }
  assert (Hmono : fexp (d1 + e1 - (d2 + e2)) <= fexp (Zdigits2 mz + ez)).
  { apply fexp_mono. unfold s in Hdig. lia. }
  lia.
Qed.

Lemma div_core_valid (sx : bool) (m1 m2 : positive) (e1 e2 : Z) :
  valid (let '(mz, ez, lz) := SFdiv_core_binary Float.prec Float.emax
                                (Zpos m1) e1 (Zpos m2) e2 in
         bra sx mz ez lz).
Proof.
  pose proof (div_core_pre m1 m2 e1 e2) as [H1 H2].
  destruct (SFdiv_core_binary _ _ _ _ _ _) as [[mz ez] lz].
  cbn [fst snd] in *. apply bra_valid; assumption.
Qed.

Lemma div_core_bound (sx : bool) (m1 m2 mb : positive) (e1 e2 eb c : Z) :
  bounded Float.prec Float.emax mb eb = true ->
  c <= -1074 -> c <= e1 - e2 ->
  Zpos m1 * 2 ^ (e1 - e2 - c) <= Zpos mb * Zpos m2 * 2 ^ (eb - c) ->
  let r := (let '(mz, ez, lz) := SFdiv_core_binary Float.prec Float.emax
                                   (Zpos m1) e1 (Zpos m2) e2 in
            bra sx mz ez lz) in
  r = S754_zero sx
  \/ exists m e,
       r = S754_finite sx m e
       /\ bounded Float.prec Float.emax m e = true
       /\ Zpos m * 2 ^ (e - c) <= Zpos mb * 2 ^ (eb - c).
Proof.
  intros Hb Hc1 Hc2 Hle.
  pose proof (div_core_pre m1 m2 e1 e2) as [Hq Hpre].
  pose proof (div_core_spec m1 m2 e1 e2) as (Hez & Hmz & Hlz).
  destruct (SFdiv_core_binary _ _ _ _ _ _) as [[mz ez] lz].
  cbn [fst snd] in *. cbv zeta.
  assert (Hcz : c <= ez) by (rewrite Hez, fexp_eq; lia).
  set (s := e1 - e2 - ez) in *.
  assert (Hs : 0 <= s) by (unfold s; lia).
  assert (Hp : 0 < 2 ^ s) by (apply Z.pow_pos_nonneg; lia).
  assert (Hu : 0 < 2 ^ (ez - c)) by (apply Z.pow_pos_nonneg; lia).
  assert (Hsplit : 2 ^ (e1 - e2 - c) = 2 ^ s * 2 ^ (ez - c)).
  { rewrite <- Z.pow_add_r by lia. f_equal. unfold s. lia. }
  rewrite Hsplit in Hle.
  pose proof (Z.div_mod (Zpos m1 * 2 ^ s) (Zpos m2) ltac:(lia)) as Hdm.
  rewrite <- Hmz in Hdm.
  pose proof (Z.mod_pos_bound (Zpos m1 * 2 ^ s) (Zpos m2) ltac:(lia)) as Hmod.
  apply (bra_bound sx mz ez lz mb eb c); try assumption.
  - intros _. nia.
  - intros Hl.
    assert (Hr : (Zpos m1 * 2 ^ s) mod Zpos m2 <> 0)
      by (intros Hz; apply Hl, Hlz, Hz).
    nia.
Qed.

(** ** Comparison *)

Lemma canonical_digits (m : positive) (e : Z) :
  bounded Float.prec Float.emax m e = true ->
  Zpos m < 2 ^ 53 /\ (-1074 < e -> 2 ^ 52 <= Zpos m).
Proof.
  intros H. pose proof (bounded_exp m e H) as [Hc He].
  rewrite fexp_eq in Hc.
  pose proof (Zdigits2_bounds (Zpos m) ltac:(lia)) as [Hlo Hhi].
  pose proof (Zdigits2_pos (Zpos m) ltac:(lia)) as Hd.
  split.
  - assert (Zdigits2 (Zpos m) <= 53) by lia.
    pose proof (Z.pow_le_mono_r 2 (Zdigits2 (Zpos m)) 53 ltac:(lia) H0). lia.
  - intros Hn. assert (Zdigits2 (Zpos m) = 53) by lia.
    rewrite H0 in Hlo. exact Hlo.
Qed.

Lemma IV_pos (m : positive) (e : Z) :
  -1074 <= e -> 0 < Zpos m * 2 ^ (e + 1074).
Proof.
  intros H. pose proof (Z.pow_pos_nonneg 2 (e + 1074) ltac:(lia) ltac:(lia)). lia.
Qed.

Lemma compare_mantissas (m1 m2 : positive) (e1 e2 : Z) :
  bounded Float.prec Float.emax m1 e1 = true ->
  bounded Float.prec Float.emax m2 e2 = true ->
  match e1 ?= e2 with
  | Lt => Lt
  | Gt => Gt
  | Eq => Pos.compare_cont Eq m1 m2
  end = (Zpos m1 * 2 ^ (e1 + 1074) ?= Zpos m2 * 2 ^ (e2 + 1074)).
Proof.
  intros H1 H2.
  pose proof (bounded_exp m1 e1 H1) as [_ He1].
  pose proof (bounded_exp m2 e2 H2) as [_ He2].
  pose proof (canonical_digits m1 e1 H1) as [Hu1 Hn1].
  pose proof (canonical_digits m2 e2 H2) as [Hu2 Hn2].
  assert (Hlt : forall (a b : positive) (ea eb : Z),
             -1074 <= ea -> ea < eb -> Zpos a < 2 ^ 53 -> 2 ^ 52 <= Zpos b ->
             Zpos a * 2 ^ (ea + 1074) < Zpos b * 2 ^ (eb + 1074)).
  { intros a b ea eb Ha Hab Hua Hnb.
    assert (Hp : 0 < 2 ^ (ea + 1074)) by (apply Z.pow_pos_nonneg; lia).
    assert (Hle : 2 * 2 ^ (ea + 1074) <= 2 ^ (eb + 1074)).
    { change 2 with (2 ^ 1) at 1. rewrite <- Z.pow_add_r by lia.
      apply Z.pow_le_mono_r; lia. }
    change (2 ^ 53) with (2 * 2 ^ 52) in Hua.
    assert (0 < 2 ^ 52) by reflexivity. nia. }
  destruct (Z.compare_spec e1 e2) as [E | L | G]; symmetry.
  - subst e2. change (Pos.compare_cont Eq m1 m2) with (Zpos m1 ?= Zpos m2).
    assert (Hp : 0 < 2 ^ (e1 + 1074)) by (apply Z.pow_pos_nonneg; lia).
    destruct (Z.compare_spec (Zpos m1) (Zpos m2)) as [E | L | G];
      [apply Z.compare_eq_iff | apply Z.compare_lt_iff | apply Z.compare_gt_iff];
      nia.
  - apply Z.compare_lt_iff. apply Hlt; try lia; apply Hn2; lia.
  - apply Z.compare_gt_iff. apply Hlt; try lia; apply Hn1; lia.
Qed.

(** On binary64 numbers [SFcompare] compares the values. *)
Lemma compare_valid (x y : float) :
  valid x -> valid y -> fin x -> fin y ->
  SFcompare x y = Some (IV x ?= IV y).
Proof.
  intros Vx Vy Fx Fy.
  destruct x as [sx | sx | | sx mx ex]; try discriminate;
    destruct y as [sy | sy | | sy my ey]; try discriminate;
    unfold valid in *; simpl in Vx, Vy.
  - reflexivity.
  - pose proof (bounded_exp my ey Vy) as [_ Hey].
    pose proof (IV_pos my ey ltac:(lia)).
    cbn [SFcompare IV]. f_equal. symmetry.
    destruct sy; cbn [cond_Zopp];
      [apply Z.compare_gt_iff | apply Z.compare_lt_iff]; lia.
  - pose proof (bounded_exp mx ex Vx) as [_ Hex].
    pose proof (IV_pos mx ex ltac:(lia)).
    cbn [SFcompare IV]. f_equal. symmetry.
    destruct sx; cbn [cond_Zopp];
      [apply Z.compare_lt_iff | apply Z.compare_gt_iff]; lia.
  - pose proof (bounded_exp mx ex Vx) as [_ Hex].
    pose proof (bounded_exp my ey Vy) as [_ Hey].
    pose proof (IV_pos mx ex ltac:(lia)). pose proof (IV_pos my ey ltac:(lia)).
    pose proof (compare_mantissas mx my ex ey Vx Vy) as Hc.
    cbn [SFcompare IV]. f_equal.
    destruct sx, sy; cbn [cond_Zopp].
    + rewrite Z.compare_opp. rewrite <- (compare_mantissas my mx ey ex Vy Vx).
      rewrite (Z.compare_antisym ex ey).
      destruct (ex ?= ey); simpl; try reflexivity.
      rewrite Pos.compare_cont_antisym. reflexivity.
    + symmetry. apply Z.compare_lt_iff. lia.
    + symmetry. apply Z.compare_gt_iff. lia.
    + exact Hc.
Qed.

(** ** The range of a temperature *)

Lemma U_pos : 0 < U.
Proof. reflexivity. Qed.

Lemma IV_minus50 : IV Float.minus50 = -50 * U.
Proof. vm_compute. reflexivity. Qed.

Lemma IV_plus150 : IV Float.plus150 = 150 * U.
Proof. vm_compute. reflexivity. Qed.

Lemma in_range_fin (t : float) : in_range t = true -> fin t.
Proof.
  destruct t as [s | s | | s m e]; try reflexivity.
  - destruct s; discriminate.
  - discriminate.
Qed.

Lemma in_range_iff (t : float) :
  valid t -> fin t -> (in_range t = true <-> -50 * U <= IV t <= 150 * U).
Proof.
  intros V F. unfold in_range, Float.leb, SFleb.
  rewrite (compare_valid Float.minus50 t ltac:(reflexivity) V ltac:(reflexivity) F).
  rewrite (compare_valid t Float.plus150 V ltac:(reflexivity) F ltac:(reflexivity)).
  rewrite IV_minus50, IV_plus150. pose proof U_pos as HU.
  revert HU. generalize U. intros u HU.
  destruct (Z.compare_spec (-50 * u) (IV t)) as [E1 | L1 | G1];
    destruct (Z.compare_spec (IV t) (150 * u)) as [E2 | L2 | G2];
    cbn -[Z.mul]; split; intros Hr;
    try reflexivity; try discriminate; try lia.
Qed.

Lemma good_within (t : float) : good t -> within 1 t.
Proof.
  intros [V R]. pose proof (in_range_fin t R) as F.
  apply (in_range_iff t V F) in R. repeat split; try assumption; lia.
Qed.

Lemma within_good (t : float) : within 1 t -> in_range t = true.
Proof.
  intros (V & F & H). apply (in_range_iff t V F). lia.
Qed.

Lemma repr_small (N : Z) :
  0 < N < 2 ^ 53 ->
  exists mb eb,
    bounded Float.prec Float.emax mb eb = true
    /\ -52 <= eb <= 0
    /\ Zpos mb = N * 2 ^ (- eb)
    /\ Zpos mb * 2 ^ (eb + 1074) = N * U
    /\ Float.of_Z N = S754_finite false mb eb.
Proof.
  intros HN. destruct N as [ | n | n]; try lia.
  destruct (of_Z_small n ltac:(lia)) as (m & e & E & Hb & He & Hm).
  exists m, e. repeat split; try assumption; try lia.
  rewrite Hm, <- Z.mul_assoc, <- Z.pow_add_r by lia.
  replace (- e + (e + 1074)) with 1074 by lia. reflexivity.
Qed.

Lemma add_within (k : Z) (acc t : float) :
  0 <= k -> k + 1 <= 2 ^ 45 ->
  within k acc -> good t -> within (k + 1) (Float.add acc t).
Proof.
  intros Hk Hk1 (Va & Fa & Ha) Hg.
  destruct (good_within t Hg) as (Vt & Ft & Ht).
  pose proof U_pos as HU.
  destruct (Z_le_gt_dec 0 (IV acc + IV t)) as [Hs | Hs].
  - destruct (repr_small (150 * (k + 1)) ltac:(change (2 ^ 45) with 35184372088832 in Hk1;
                                                change (2 ^ 53) with 9007199254740992; lia))
      as (mb & eb & Hb & _ & _ & Hv & _).
    destruct (add_bound acc t mb eb Va Vt Fa Ft Hb ltac:(rewrite Hv; nia))
      as (V & F & Hbd & Hpos & _).
    specialize (Hpos Hs). rewrite Hv in Hbd.
    repeat split; try assumption; nia.
  - destruct (repr_small (50 * (k + 1)) ltac:(change (2 ^ 45) with 35184372088832 in Hk1;
                                               change (2 ^ 53) with 9007199254740992; lia))
      as (mb & eb & Hb & _ & _ & Hv & _).
    destruct (add_bound acc t mb eb Va Vt Fa Ft Hb ltac:(rewrite Hv; nia))
      as (V & F & Hbd & _ & Hneg).
    specialize (Hneg ltac:(lia)). rewrite Hv in Hbd.
    repeat split; try assumption; nia.
Qed.

Lemma sum_within (temps : list float) :
  forall (k : Z) (acc : float),
    0 <= k -> k + Z.of_nat (List.length temps) <= 2 ^ 45 ->
    within k acc -> Forall good temps ->
    within (k + Z.of_nat (List.length temps)) (fold_left Float.add temps acc).
Proof.
  induction temps as [ | t rest IH]; intros k acc Hk Hlen Hw Hg.
  - simpl. rewrite Z.add_0_r. exact Hw.
  - inversion Hg as [ | ? ? Ht Hrest]; subst.
    simpl fold_left. simpl List.length in *.
    rewrite Nat2Z.inj_succ in *.
    replace (k + Z.succ (Z.of_nat (List.length rest)))
      with (k + 1 + Z.of_nat (List.length rest)) in * by lia.
    apply IH; try lia; [ | exact Hrest].
    apply add_within; try assumption; lia.
Qed.

Lemma within_zero (s : bool) (k : Z) : 0 <= k -> within k (S754_zero s).
Proof.
  intros Hk. pose proof U_pos. repeat split; cbn [IV]; nia.
Qed.

Lemma div_within (n : Z) (x : float) :
  1 <= n <= 2 ^ 45 -> within n x -> within 1 (Float.div x (Float.of_Z n)).
Proof.
  intros Hn (Vx & Fx & Hx).
  destruct (repr_small n ltac:(change (2 ^ 45) with 35184372088832 in Hn;
                               change (2 ^ 53) with 9007199254740992; lia))
    as (my & ey & Hby & Hey & Hmy & _ & Ey).
  rewrite Ey. pose proof U_pos as HU.
  destruct x as [sx | sx | | sx mx ex]; try discriminate.
  - change (Float.div (S754_zero sx) (S754_finite false my ey))
      with (S754_zero (xorb sx false)).
    apply within_zero. lia.
  - unfold valid in Vx. simpl in Vx.
    pose proof (bounded_exp mx ex Vx) as [_ Hex].
    change (Float.div (S754_finite sx mx ex) (S754_finite false my ey))
      with (let '(mz, ez, lz) := SFdiv_core_binary Float.prec Float.emax
                                   (Zpos mx) ex (Zpos my) ey in
            bra (xorb sx false) mz ez lz).
    rewrite xorb_false_r.
    pose proof (div_core_valid sx mx my ex ey) as V.
    set (c := Z.min (-1074) (ex - ey)).
    set (t := -1074 - c). assert (Ht : 0 <= t) by (unfold t, c; lia).
    assert (Hpt : 0 < 2 ^ t) by (apply Z.pow_pos_nonneg; lia).
    assert (Hpy : 0 < 2 ^ (- ey)) by (apply Z.pow_pos_nonneg; lia).
    assert (Hpx : 0 < 2 ^ (ex + 1074)) by (apply Z.pow_pos_nonneg; lia).
    assert (Esplit : 2 ^ (ex - ey - c) = 2 ^ (ex + 1074) * 2 ^ (- ey) * 2 ^ t).
    { rewrite <- !Z.pow_add_r by lia. f_equal. unfold t. lia. }
    assert (Hmain : forall (B : Z) (mb : positive) (eb : Z),
               0 < B ->
               bounded Float.prec Float.emax mb eb = true ->
               Zpos mb * 2 ^ (eb + 1074) = B * U ->
               Zpos mx * 2 ^ (ex + 1074) <= B * n * U ->
               let r := (let '(mz, ez, lz) :=
                           SFdiv_core_binary Float.prec Float.emax
                             (Zpos mx) ex (Zpos my) ey in
                         bra sx mz ez lz) in
               r = S754_zero sx
               \/ exists m e, r = S754_finite sx m e
                              /\ bounded Float.prec Float.emax m e = true
                              /\ Zpos m * 2 ^ (e + 1074) <= B * U).
    { intros B mb eb HB Hb Hv Hle.
      pose proof (bounded_exp mb eb Hb) as [_ Heb].
      assert (Eb : 2 ^ (eb - c) = 2 ^ (eb + 1074) * 2 ^ t).
      { rewrite <- Z.pow_add_r by lia. f_equal. unfold t. lia. }
      destruct (div_core_bound sx mx my mb ex ey eb c Hb ltac:(unfold c; lia)
                  ltac:(unfold c; lia)) as [E | (m & e & E & Hbm & Hm)].
      { rewrite Esplit, Eb, Hmy.
        replace (Zpos mb * (n * 2 ^ (- ey)) * (2 ^ (eb + 1074) * 2 ^ t))
          with (Zpos mb * 2 ^ (eb + 1074) * (n * 2 ^ (- ey) * 2 ^ t)) by ring.
        rewrite Hv. nia. }
      - left. exact E.
      - right. exists m, e. split; [exact E | ]. split; [exact Hbm | ].
        pose proof (bounded_exp m e Hbm) as [_ He].
        assert (Em : 2 ^ (e - c) = 2 ^ (e + 1074) * 2 ^ t).
        { rewrite <- Z.pow_add_r by lia. f_equal. unfold t. lia. }
        rewrite Em, Eb in Hm.
        replace (Zpos mb * (2 ^ (eb + 1074) * 2 ^ t))
          with (Zpos mb * 2 ^ (eb + 1074) * 2 ^ t) in Hm by ring.
        rewrite Hv in Hm. nia. }
    cbn [IV] in Hx.
    destruct sx; cbn [cond_Zopp] in Hx.
    + destruct (repr_small 50 ltac:(split; reflexivity))
        as (mb & eb & Hb & _ & _ & Hv & _).
      destruct (Hmain 50 mb eb ltac:(lia) Hb Hv ltac:(lia))
        as [E | (m & e & E & Hbm & Hm)]; rewrite E in *.
      * apply within_zero. lia.
      * pose proof (bounded_exp m e Hbm) as [_ He].
        pose proof (IV_pos m e ltac:(lia)).
        repeat split; try assumption; cbn [IV cond_Zopp]; lia.
    + destruct (repr_small 150 ltac:(split; reflexivity))
        as (mb & eb & Hb & _ & _ & Hv & _).
      destruct (Hmain 150 mb eb ltac:(lia) Hb Hv ltac:(lia))
        as [E | (m & e & E & Hbm & Hm)]; rewrite E in *.
      * apply within_zero. lia.
      * pose proof (bounded_exp m e Hbm) as [_ He].
        pose proof (IV_pos m e ltac:(lia)).
        repeat split; try assumption; cbn [IV cond_Zopp]; lia.
Qed.

(** ** Rounding to one decimal *)

Lemma half_even_div_le (n d N : Z) :
  0 <= n -> 0 < d -> n <= N * d -> Float.half_even_div n d <= N.
Proof.
  intros Hn Hd Hle. unfold Float.half_even_div. cbv zeta.
  pose proof (Z.div_mod n d ltac:(lia)) as Hdm.
  pose proof (Z.mod_pos_bound n d Hd) as Hmod.
  destruct (Z_lt_le_dec (n / d) N) as [Hlt | Hge].
  - destruct (2 * (n mod d) ?= d); [destruct (Z.even (n / d)) | | ]; lia.
  - assert (n / d = N /\ n mod d = 0) as [Eq Er] by nia.
    rewrite Er. destruct (Z.compare_spec (2 * 0) d); lia.
Qed.

Lemma half_even_div_nonneg (n d : Z) :
  0 <= n -> 0 < d -> 0 <= Float.half_even_div n d.
Proof.
  intros Hn Hd. unfold Float.half_even_div. cbv zeta.
  pose proof (Z.div_pos n d Hn Hd).
  destruct (2 * (n mod d) ?= d); [destruct (Z.even (n / d)) | | ]; lia.
Qed.

Lemma scaled_le (s : bool) (m : positive) (e B : Z) :
  -1074 <= e -> 0 < B ->
  Zpos m * 2 ^ (e + 1074) <= B * U ->
  0 <= Float.scaled_half_even (S754_finite s m e) 1 <= 10 * B.
Proof.
  intros He HB Hle. unfold Float.scaled_half_even. change (10 ^ 1) with 10.
  destruct e as [ | p | j].
  - change (2 ^ 0) with 1. change (2 ^ (0 + 1074)) with U in Hle.
    pose proof U_pos. nia.
  - assert (Hp : 0 < 2 ^ Zpos p) by (apply Z.pow_pos_nonneg; lia).
    assert (E : 2 ^ (Zpos p + 1074) = 2 ^ Zpos p * U).
    { rewrite Z.pow_add_r by lia. reflexivity. }
    rewrite E in Hle. pose proof U_pos. nia.
  - assert (Hj : 0 < 2 ^ Zpos j) by (apply Z.pow_pos_nonneg; lia).
    assert (Hr : 0 < 2 ^ (Zneg j + 1074)) by (apply Z.pow_pos_nonneg; lia).
    assert (E : U = 2 ^ (Zneg j + 1074) * 2 ^ Zpos j).
    { rewrite <- Z.pow_add_r by lia. unfold U. f_equal. lia. }
    rewrite E in Hle.
    assert (Hm : Zpos m <= B * 2 ^ Zpos j) by nia.
    split.
    + apply half_even_div_nonneg; lia.
    + apply half_even_div_le; lia.
Qed.

Lemma of_ratio_bra (s : bool) (p q : positive) :
  Float.of_ratio s p q
  = (let '(mz, ez, lz) := SFdiv_core_binary Float.prec Float.emax
                            (Zpos p) 0 (Zpos q) 0 in
     bra s mz ez lz).
Proof. reflexivity. Qed.

Lemma of_decimal_valid (s : bool) (m e : Z) : valid (Float.of_decimal s m e).
Proof.
  unfold Float.of_decimal. destruct m as [ | p | p]; try reflexivity.
  destruct (0 <=? e); rewrite of_ratio_bra; apply div_core_valid.
Qed.

Lemma round_within (q : float) : within 1 q -> within 1 (Float.round q 1).
Proof.
  intros (V & F & H).
  destruct q as [s | s | | s m e]; try discriminate.
  - simpl Float.round. exact (conj V (conj F H)).
  - unfold valid in V. simpl in V.
    pose proof (bounded_exp m e V) as [_ He].
    pose proof (IV_pos m e ltac:(lia)) as Hp.
    pose proof U_pos as HU.
    unfold Float.round.
    pose proof (of_decimal_valid s
                  (Float.scaled_half_even (S754_finite s m e) 1) (- (1))) as Vr.
    assert (Hmain : forall B : Z,
               0 < B < 2 ^ 53 -> Zpos m * 2 ^ (e + 1074) <= B * U ->
               let r := Float.of_decimal s
                          (Float.scaled_half_even (S754_finite s m e) 1) (- (1)) in
               r = S754_zero s
               \/ exists m' e', r = S754_finite s m' e'
                                /\ bounded Float.prec Float.emax m' e' = true
                                /\ Zpos m' * 2 ^ (e' + 1074) <= B * U).
    { intros B HB Hle.
      pose proof (scaled_le s m e B ltac:(lia) ltac:(lia) Hle) as Hn.
      destruct (repr_small B HB) as (mb & eb & Hb & _ & _ & Hv & _).
      cbv zeta. unfold Float.of_decimal.
      destruct (Float.scaled_half_even (S754_finite s m e) 1) as [ | p | p];
        try (left; reflexivity).
      change (0 <=? - (1)) with false. cbv iota.
      change (Z.to_pos (10 ^ (- - (1)))) with 10%positive.
      rewrite of_ratio_bra.
      destruct (div_core_bound s p 10 mb 0 0 eb (-1074) Hb ltac:(lia) ltac:(lia))
        as [E | (m' & e' & E & Hbm & Hm)].
      { replace (eb - -1074) with (eb + 1074) by lia.
        change (2 ^ (0 - 0 - -1074)) with U.
        replace (Zpos mb * 10 * 2 ^ (eb + 1074))
          with (10 * (Zpos mb * 2 ^ (eb + 1074))) by ring.
        rewrite Hv. nia. }
      - left. exact E.
      - right. exists m', e'. split; [exact E | ]. split; [exact Hbm | ].
        replace (e' - -1074) with (e' + 1074) in Hm by lia.
        replace (eb - -1074) with (eb + 1074) in Hm by lia.
        rewrite Hv in Hm. exact Hm. }
    cbn [IV] in H.
    destruct s; cbn [cond_Zopp] in H.
    + destruct (Hmain 50 ltac:(split; reflexivity) ltac:(lia))
        as [E | (m' & e' & E & Hbm & Hm)]; rewrite E in *.
      * apply within_zero. lia.
      * pose proof (bounded_exp m' e' Hbm) as [_ He'].
        pose proof (IV_pos m' e' ltac:(lia)).
        repeat split; try assumption; cbn [IV cond_Zopp]; lia.
    + destruct (Hmain 150 ltac:(split; reflexivity) ltac:(lia))
        as [E | (m' & e' & E & Hbm & Hm)]; rewrite E in *.
      * apply within_zero. lia.
      * pose proof (bounded_exp m' e' Hbm) as [_ He'].
        pose proof (IV_pos m' e' ltac:(lia)).
        repeat split; try assumption; cbn [IV cond_Zopp]; lia.
Qed.

(** The average of up to [2 ^ 45] temperatures in range is in range. *)
Lemma average_in_range (temps : list float) :
  temps <> [] -> Forall good temps ->
  Z.of_nat (List.length temps) <= 2 ^ 45 ->
  in_range (UnraidCPUTempSensor.average temps) = true.
Proof.
  intros Hne Hg Hlen. unfold UnraidCPUTempSensor.average, Py.sum.
  apply within_good, round_within, div_within.
  - destruct temps; [contradiction | ]. simpl List.length in *. lia.
  - pose proof (sum_within temps 0 (Float.of_Z 0) ltac:(lia) ltac:(lia)
                  (within_zero false 0 ltac:(lia)) Hg) as H.
    exact H.
Qed.

(** ** The CPU-temperature sensor stays in range *)

Lemma to_float_valid (s : string) (t : float) :
  Str.to_float s = Ok t -> valid t.
Proof.
  unfold Str.to_float.
  destruct (Str.drop_underscores _ _) as [u | ]; [ | discriminate].
  destruct (Str.parse_sign u) as [sg r].
  destruct (_ || _); [intros H; injection H as <-; reflexivity | ].
  destruct (String.eqb _ _); [intros H; injection H as <-; reflexivity | ].
  destruct (Str.parse_decimal r) as [[m e] | ]; [ | discriminate].
  intros H. injection H as <-. apply of_decimal_valid.
Qed.

Lemma parse_good (s : string) (t : float) :
  UnraidCPUTempSensor._parse_temperature s = Ok (Some t) -> good t.
Proof.
  rewrite cpu_parse_unfold.
  destruct (Str.to_float (cleaned s)) as [u | e] eqn:E; [ | discriminate].
  destruct (in_range u) eqn:R; [ | discriminate].
  intros H. injection H as <-. split; [exact (to_float_valid _ _ E) | exact R].
Qed.

Lemma visit_metric_collects (kv : pyval * pyval) (acc acc' : list float) :
  UnraidCPUTempSensor.visit_metric kv acc = Ok acc' -> collects 1 acc acc'.
Proof.
  destruct kv as [key value]. unfold UnraidCPUTempSensor.visit_metric.
  destruct (Py.contains "CPU" key) as [c | e]; [ | discriminate]. simpl.
  destruct (if c then Py.contains "Temp" key else Ok false) as [b | e];
    [ | discriminate]. simpl.
  assert (Hid : collects 1 acc acc) by (split; [auto | lia]).
  destruct b; [ | intros H; injection H as <-; exact Hid].
  destruct (UnraidCPUTempSensor._parse_temperature (Py.str value))
    as [[t | ] | e] eqn:P; simpl; try discriminate.
  - destruct (negb (Float.is_zero t));
      [ | intros H; injection H as <-; exact Hid].
    intros H. injection H as <-. split.
    + intros Hg. apply Forall_app. split; [exact Hg | ].
      constructor; [exact (parse_good _ _ P) | constructor].
    + rewrite length_app. simpl. lia.
  - intros H. injection H as <-. exact Hid.
Qed.

Lemma visit_metrics_collects (items : list (pyval * pyval)) :
  forall acc acc',
    Py.for_each items UnraidCPUTempSensor.visit_metric acc = Ok acc' ->
    collects (List.length items) acc acc'.
Proof.
  induction items as [ | kv rest IH]; intros acc acc'; simpl.
  - intros H. injection H as <-. split; [auto | lia].
  - destruct (UnraidCPUTempSensor.visit_metric kv acc) as [mid | e] eqn:E;
      [ | discriminate]. simpl. intros H.
    destruct (visit_metric_collects kv acc mid E) as [G1 L1].
    destruct (IH mid acc' H) as [G2 L2].
    split; [auto | lia].
Qed.

Lemma visit_groups_collects (groups : list pyval) :
  forall acc acc',
    Py.for_each groups UnraidCPUTempSensor.visit_group acc = Ok acc' ->
    collects (list_sum (map Snapshot.group_size groups)) acc acc'.
Proof.
  induction groups as [ | g rest IH]; intros acc acc'; simpl.
  - intros H. injection H as <-. split; [auto | lia].
  - unfold UnraidCPUTempSensor.visit_group at 1.
    destruct g as [ | | | | | | items]; try discriminate. simpl.
    destruct (Py.for_each items UnraidCPUTempSensor.visit_metric acc)
      as [mid | e] eqn:E; [ | discriminate]. simpl. intros H.
    destruct (visit_metrics_collects items acc mid E) as [G1 L1].
    destruct (IH mid acc' H) as [G2 L2].
    split; [auto | lia].
Qed.

Lemma get_temperature_average (data : pyval) (t : float) :
  UnraidCPUTempSensor._get_temperature data = Ok (Some t) ->
  exists temps,
    temps <> [] /\ Forall good temps
    /\ (List.length temps <= Snapshot.reading_count data)%nat
    /\ t = UnraidCPUTempSensor.average temps.
Proof.
  unfold UnraidCPUTempSensor._get_temperature, Snapshot.reading_count.
  destruct data as [ | | | | | | items]; try discriminate. simpl.
  destruct (Py.lookup "system_stats" items) as [stats | ]; [ | discriminate].
  destruct stats as [ | | | | | | stats]; try discriminate. simpl.
  assert (Hgo : forall sd,
             try_except
               (groups <- Py.values sd ;;
                core_temps <- Py.for_each groups UnraidCPUTempSensor.visit_group [] ;;
                match core_temps with
                | [] => Ok None
                | _ :: _ => Ok (Some (UnraidCPUTempSensor.average core_temps))
                end)
               [KeyError; ValueError; TypeError] (Ok None) = Ok (Some t) ->
             exists temps,
               temps <> [] /\ Forall good temps
               /\ (List.length temps
                   <= match sd with
                      | PDict gs => list_sum (map (fun g => Snapshot.group_size (snd g)) gs)
                      | _ => 0
                      end)%nat
               /\ t = UnraidCPUTempSensor.average temps).
  { intros sd. destruct sd as [ | | | | | | gs]; try discriminate. simpl.
    destruct (Py.for_each (map snd gs) UnraidCPUTempSensor.visit_group [])
      as [temps | e] eqn:E; simpl.
    - destruct temps as [ | t0 rest]; [discriminate | ].
      intros H. injection H as <-.
      destruct (visit_groups_collects _ _ _ E) as [G L].
      rewrite map_map in L. simpl in L.
      exists (t0 :: rest). split; [discriminate | ].
      split; [apply G; constructor | ]. split; [exact L | reflexivity].
    - destruct e; simpl; discriminate. }
  destruct (Py.lookup "temperature_data" stats) as [td | ].
  - destruct td as [ | | | | | | td]; try discriminate. simpl.
    destruct (Py.lookup "sensors" td) as [sd | ].
    + intros H. destruct (Hgo sd H) as (temps & H1 & H2 & H3 & H4).
      exists temps. repeat split; assumption.
    + simpl. discriminate.
  - simpl. discriminate.
Qed.

(** C10. On every snapshot with at most [2 ^ 45] metric entries under
    [sensors], a value the CPU-temperature sensor returns lies within
    [-50, 150]: each reading the parser let through is within the range,
    so is their sum divided by their number, and so is the result of
    rounding it to one decimal. *)
Theorem cpu_temperature_in_range (data : pyval) (t : float) :
  Z.of_nat (Snapshot.reading_count data) <= 2 ^ 45 ->
  UnraidCPUTempSensor._get_temperature data = Ok (Some t) ->
  in_range t = true.
Proof.
  intros Hc H.
  destruct (get_temperature_average data t H) as (temps & Hne & Hg & Hl & ->).
  apply average_in_range; try assumption. lia.
Qed.

Lemma cpu_temperature_in_range_two_cores :
  Z.of_nat (Snapshot.reading_count Samples.two_cores) <= 2 ^ 45
  /\ UnraidCPUTempSensor._get_temperature Samples.two_cores
     = Ok (Some (Float.of_decimal false 475 (-1)))
  /\ in_range (Float.of_decimal false 475 (-1)) = true.
Proof.
  split; [vm_compute; discriminate | ].
  split; [reflexivity | ].
  apply (cpu_temperature_in_range Samples.two_cores).
  - vm_compute. discriminate.
  - reflexivity.
Defined.

(** ** Further properties of the sensors *)

(** X1. The two temperature parsers never raise: on every text both return
    without an exception, and they return the same thing, either no value
    or a finite number (never an infinity or a NaN, which the range check
    turns away). *)
Theorem parse_temperature_total (s : string) :
  exists r,
    UnraidCPUTempSensor._parse_temperature s = Ok r
    /\ UnraidMotherboardTempSensor._parse_temperature s = Ok r
    /\ (forall t, r = Some t -> Float.is_finite t = true).
Proof.
  exists (parsed (PStr s)). split; [apply cpu_parse_total | ].
  split.
  - rewrite mb_parse_unfold. unfold parsed. simpl Py.str. rewrite cpu_parse_unfold.
    destruct (Str.to_float (cleaned s)) as [t | e]; [ | reflexivity].
    destruct (in_range t); reflexivity.
  - intros t H. apply in_range_fin. exact (parsed_in_range _ _ H).
Qed.

Lemma first_return_inv {A B : Type} (P : B -> Prop)
    (body : A -> result (option B)) (l : list A) (b : B) :
  (forall x b', body x = Ok (Some b') -> P b') ->
  UnraidMotherboardTempSensor.first_return l body = Ok (Some b) -> P b.
Proof.
  intros Hb. induction l as [ | x rest IH]; simpl; [discriminate | ].
  destruct (body x) as [[b' | ] | e] eqn:E; simpl; try discriminate.
  - intros H. injection H as <-. exact (Hb x b' E).
  - exact IH.
Qed.

(** X2. Whatever the snapshot, a value the motherboard-temperature sensor
    returns lies within [-50, 150]: the value is the first reading its
    parser let through, and the parser checks the range. *)
Theorem motherboard_temperature_in_range (data : pyval) (t : float) :
  UnraidMotherboardTempSensor._get_temperature data = Ok (Some t) ->
  in_range t = true.
Proof.
  unfold UnraidMotherboardTempSensor._get_temperature, try_except.
  match goal with |- context [match ?c with _ => _ end] => destruct c as [r | e] eqn:E end;
    [ | destruct (existsb _ _); discriminate].
  intros H. injection H as ->. revert E.
  destruct (Py.getitem data "system_stats") as [stats | e]; [ | discriminate].
  cbn -[UnraidMotherboardTempSensor.first_return].
  destruct (Py.get stats "temperature_data" empty_dict) as [td | e]; [ | discriminate].
  cbn -[UnraidMotherboardTempSensor.first_return].
  destruct (Py.get td "sensors" empty_dict) as [sd | e]; [ | discriminate].
  cbn -[UnraidMotherboardTempSensor.first_return].
  apply (first_return_inv (fun u => in_range u = true)). intros pattern t'.
  unfold UnraidMotherboardTempSensor.visit_pattern.
  destruct (Py.values sd) as [gs | e]; [ | discriminate].
  cbn -[UnraidMotherboardTempSensor.first_return].
  apply (first_return_inv (fun u => in_range u = true)). intros g t''.
  unfold UnraidMotherboardTempSensor.visit_group.
  destruct (Py.items g) as [ms | e]; [ | discriminate].
  cbn -[UnraidMotherboardTempSensor.first_return].
  apply (first_return_inv (fun u => in_range u = true)). intros [key value] t3.
  unfold UnraidMotherboardTempSensor.visit_metric.
  destruct (Py.is_str_or_float value); [ | discriminate].
  destruct (Py.lower key) as [kl | e]; [ | discriminate]. simpl.
  destruct (Str.contains _ kl); [ | discriminate].
  rewrite mb_parse_unfold.
  destruct (Str.to_float _) as [u | e]; [ | discriminate].
  destruct (in_range u) eqn:R; [ | discriminate].
  intros H. injection H as <-. exact R.
Qed.

Lemma motherboard_temperature_in_range_sample :
  UnraidMotherboardTempSensor._get_temperature Samples.float_board
  = Ok (Some (Float.of_decimal false 335 (-1)))
  /\ in_range (Float.of_decimal false 335 (-1)) = true.
Proof.
  split; [reflexivity | ].
  exact (motherboard_temperature_in_range Samples.float_board
           (Float.of_decimal false 335 (-1)) eq_refl).
Defined.

Lemma cpu_parse_raises_only (classes : list exn) (s : string) :
  Spec.raises_only classes (UnraidCPUTempSensor._parse_temperature s).
Proof. rewrite cpu_parse_total. exact I. Qed.

Lemma cpu_body_raises_only (data : pyval) :
  Spec.raises_only [KeyError; TypeError; AttributeError]
    (stats <- Py.getitem data "system_stats" ;;
     temp_data <- Py.get stats "temperature_data" empty_dict ;;
     sensors_data <- Py.get temp_data "sensors" empty_dict ;;
     groups <- Py.values sensors_data ;;
     core_temps <- Py.for_each groups UnraidCPUTempSensor.visit_group [] ;;
     match core_temps with
     | [] => Ok None
     | _ => Ok (Some (UnraidCPUTempSensor.average core_temps))
     end).
Proof.
  apply raises_only_bind; [apply raises_only_getitem; reflexivity | intros stats _].
  apply raises_only_bind; [apply raises_only_get; reflexivity | intros td _].
  apply raises_only_bind; [apply raises_only_get; reflexivity | intros sd _].
  apply raises_only_bind; [apply raises_only_values; reflexivity | intros gs _].
  apply raises_only_bind.
  - apply raises_only_for_each. intros g acc.
    unfold UnraidCPUTempSensor.visit_group.
    apply raises_only_bind; [apply raises_only_items; reflexivity | intros ms _].
    apply raises_only_for_each. intros [key value] acc'.
    unfold UnraidCPUTempSensor.visit_metric.
    apply raises_only_bind; [apply raises_only_contains; reflexivity | intros c _].
    apply raises_only_bind.
    { destruct c; [apply raises_only_contains; reflexivity | exact I]. }
    intros b _. destruct b; [ | exact I].
    apply raises_only_bind; [apply cpu_parse_raises_only | intros temp _].
    destruct (Py.truthy temp); [destruct temp | ]; exact I.
  - intros temps _. destruct temps; exact I.
Qed.

(** X3. The only exception the CPU-temperature sensor lets out is
    [AttributeError]: [KeyError] and [TypeError] are caught and turned
    into no value, [ValueError] is caught inside the parser, and nothing
    else is raised on the way. *)
Theorem cpu_temperature_raises_only (data : pyval) :
  Spec.raises_only [AttributeError] (UnraidCPUTempSensor._get_temperature data).
Proof.
  unfold UnraidCPUTempSensor._get_temperature, try_except.
  pose proof (cpu_body_raises_only data) as H.
  match goal with |- context [match ?c with _ => _ end] => destruct c as [r | e] end;
    [exact I | ].
  destruct e; simpl in *; try exact I; try reflexivity; discriminate.
Qed.

Lemma field3_get (a b c : string) (data v d1 d2 d3 : pyval) :
  Snapshot.field [a; b; c] data = Some v ->
  exists stats td,
    Py.getitem data a = Ok stats /\ Py.get data a d1 = Ok stats
    /\ Py.get stats b d2 = Ok td /\ Py.get td c d3 = Ok v.
Proof.
  simpl. destruct data; try discriminate.
  destruct (Py.lookup a items) as [stats | ] eqn:Ea; [ | discriminate].
  destruct stats; try discriminate.
  destruct (Py.lookup b items0) as [td | ] eqn:Eb; [ | discriminate].
  destruct td; try discriminate.
  destruct (Py.lookup c items1) as [x | ] eqn:Ec; [ | discriminate].
  intros H. injection H as <-.
  exists (PDict items0), (PDict items1). simpl. rewrite Ea, Eb, Ec. auto.
Qed.

(** X4. When the first sensor group is not a mapping, [items()] raises
    [AttributeError]; the CPU-temperature sensor, which does not catch
    it, raises, while the motherboard-temperature sensor, which does,
    returns no value. *)
Theorem temperature_group_not_mapping (data label g : pyval)
    (rest : list (pyval * pyval)) :
  Snapshot.field ["system_stats"; "temperature_data"; "sensors"] data
  = Some (PDict ((label, g) :: rest)) ->
  Py.items g = Raise AttributeError ->
  UnraidCPUTempSensor._get_temperature data = Raise AttributeError
  /\ UnraidMotherboardTempSensor._get_temperature data = Ok None.
Proof.
  intros Hf Hg.
  destruct (field3_get _ _ _ _ _ empty_dict empty_dict empty_dict Hf)
    as (stats & td & E1 & _ & E2 & E3).
  split.
  - unfold UnraidCPUTempSensor._get_temperature. rewrite E1. simpl.
    rewrite E2. simpl. rewrite E3. simpl.
    unfold UnraidCPUTempSensor.visit_group. rewrite Hg. reflexivity.
  - unfold UnraidMotherboardTempSensor._get_temperature. rewrite E1.
    cbn -[UnraidMotherboardTempSensor.first_return].
    rewrite E2. cbn -[UnraidMotherboardTempSensor.first_return].
    rewrite E3. cbn -[UnraidMotherboardTempSensor.first_return].
    unfold UnraidMotherboardTempSensor.mb_patterns. simpl.
    unfold UnraidMotherboardTempSensor.visit_pattern. simpl.
    unfold UnraidMotherboardTempSensor.visit_group. rewrite Hg. reflexivity.
Qed.

Lemma temperature_group_not_mapping_sample :
  Snapshot.field ["system_stats"; "temperature_data"; "sensors"] Samples.first_group_text
  = Some (PDict [(PStr "coretemp", PStr "n/a");
                 (PStr "nct6779", PDict [(PStr "CPU Temp", PStr "40")])])
  /\ Py.items (PStr "n/a") = Raise AttributeError
  /\ UnraidCPUTempSensor._get_temperature Samples.first_group_text = Raise AttributeError
  /\ UnraidMotherboardTempSensor._get_temperature Samples.first_group_text = Ok None.
Proof.
  split; [reflexivity | ]. split; [reflexivity | ].
  exact (temperature_group_not_mapping Samples.first_group_text (PStr "coretemp")
           (PStr "n/a") _ eq_refl eq_refl).
Defined.

(** X5. An uptime that is there but is no number ([float()] raises
    [TypeError] or [ValueError], or gives NaN, which [int()] refuses)
    is shown as ["unknown"], and the remembered boot time is left as it
    was. *)
Theorem format_uptime_unknown
    (datetime : Type) (now : datetime)
    (minus_seconds : datetime -> float -> option datetime)
    (data u : pyval) (self : UnraidUptimeSensor.self datetime) :
  Snapshot.field ["system_stats"; "uptime"] data = Some u ->
  Py.to_float u = Raise TypeError \/ Py.to_float u = Raise ValueError
  \/ Py.to_float u = Ok S754_nan ->
  UnraidUptimeSensor._format_uptime datetime now minus_seconds data self
  = (Ok "unknown", self).
Proof.
  intros Hu Hf. pose proof (uptime_seconds_field data u Hu) as Hs.
  unfold UnraidUptimeSensor._format_uptime, UnraidUptimeSensor.try_exceptM,
    UnraidUptimeSensor.bindM, UnraidUptimeSensor.lift.
  rewrite Hs. destruct Hf as [-> | [-> | ->]]; reflexivity.
Qed.

Lemma format_uptime_unknown_sample :
  Snapshot.field ["system_stats"; "uptime"] Samples.text_uptime = Some (PStr "soon")
  /\ Py.to_float (PStr "soon") = Raise ValueError
  /\ UnraidUptimeSensor._format_uptime Z 1000000 Samples.minus_seconds
       Samples.text_uptime (UnraidUptimeSensor.Build_self (Some 5))
     = (Ok "unknown", UnraidUptimeSensor.Build_self (Some 5)).
Proof.
  split; [reflexivity | ]. split; [reflexivity | ].
  exact (format_uptime_unknown Z 1000000 Samples.minus_seconds Samples.text_uptime
           (PStr "soon") _ eq_refl (or_intror (or_introl eq_refl))).
Defined.

(** X6. With no uptime in the snapshot the sensor is unavailable, yet its
    value function falls back on 0 seconds: it shows ["0d 0h 0m"] and
    records the current time as the boot time. *)
Theorem format_uptime_missing
    (datetime : Type) (now : datetime)
    (minus_seconds : datetime -> float -> option datetime)
    (data : pyval) (boot : datetime) (self : UnraidUptimeSensor.self datetime) :
  Snapshot.missing ["system_stats"; "uptime"] data = true ->
  minus_seconds now (S754_zero false) = Some boot ->
  UnraidUptimeSensor.available_fn data = Ok false
  /\ UnraidUptimeSensor._format_uptime datetime now minus_seconds data self
     = (Ok "0d 0h 0m", UnraidUptimeSensor.Build_self (Some boot)).
Proof.
  intros Hm Hb.
  split.
  { revert Hm. unfold UnraidUptimeSensor.available_fn.
    destruct data; simpl; try discriminate. missing_cases. }
  assert (Hs : UnraidUptimeSensor.uptime_seconds data = Ok (S754_zero false)).
  { unfold UnraidUptimeSensor.uptime_seconds. revert Hm. simpl.
    destruct data; try discriminate. simpl.
    destruct (Py.lookup "system_stats" items) as [stats | ]; [ | reflexivity].
    destruct stats; try discriminate. simpl.
    destruct (Py.lookup "uptime" items0); [discriminate | reflexivity]. }
  rewrite (format_uptime_success datetime now minus_seconds data
             (S754_zero false) 0 boot self Hs eq_refl Hb).
  reflexivity.
Qed.

Lemma format_uptime_missing_sample :
  Snapshot.missing ["system_stats"; "uptime"] Samples.no_memory = true
  /\ Samples.minus_seconds 1000000 (S754_zero false) = Some 1000000
  /\ UnraidUptimeSensor.available_fn Samples.no_memory = Ok false
  /\ UnraidUptimeSensor._format_uptime Z 1000000 Samples.minus_seconds
       Samples.no_memory UnraidUptimeSensor.initial
     = (Ok "0d 0h 0m", UnraidUptimeSensor.Build_self (Some 1000000)).
Proof.
  split; [reflexivity | ]. split; [reflexivity | ].
  exact (format_uptime_missing Z 1000000 Samples.minus_seconds Samples.no_memory
           1000000 UnraidUptimeSensor.initial eq_refl eq_refl).
Defined.

(** X7. The uptime text is a floor decomposition also for negative
    numbers of seconds: whatever the sign, the hours shown are within
    [0, 24), the minutes within [0, 60), less than a minute is left over,
    and a negative uptime shows a negative number of days. *)
Theorem format_uptime_floor
    (datetime : Type) (now : datetime)
    (minus_seconds : datetime -> float -> option datetime)
    (data : pyval) (f : float) (n : Z) (boot : datetime)
    (self : UnraidUptimeSensor.self datetime) :
  UnraidUptimeSensor.uptime_seconds data = Ok f ->
  Py.int_of_float f = Ok n ->
  minus_seconds now f = Some boot ->
  exists days hours minutes,
    fst (UnraidUptimeSensor._format_uptime datetime now minus_seconds data self)
    = Ok (UnraidUptimeSensor.format_parts days hours minutes)
    /\ 0 <= hours < 24 /\ 0 <= minutes < 60
    /\ 0 <= n - (86400 * days + 3600 * hours + 60 * minutes) < 60
    /\ (n < 0 -> days < 0).
Proof.
  intros Hf Hn Hb.
  exists (n / 86400), ((n mod 86400) / 3600), (((n mod 86400) mod 3600) / 60).
  rewrite (format_uptime_success datetime now minus_seconds data f n boot self
             Hf Hn Hb).
  split; [reflexivity | ].
  pose proof (Z.div_mod n 86400 ltac:(lia)) as Hd.
  pose proof (Z.div_mod (n mod 86400) 3600 ltac:(lia)) as Hh.
  pose proof (Z.div_mod ((n mod 86400) mod 3600) 60 ltac:(lia)) as Hm.
  pose proof (Z.mod_pos_bound n 86400 ltac:(lia)).
  pose proof (Z.mod_pos_bound (n mod 86400) 3600 ltac:(lia)).
  pose proof (Z.mod_pos_bound ((n mod 86400) mod 3600) 60 ltac:(lia)).
  split; [split; [apply Z.div_pos; lia | apply Z.div_lt_upper_bound; lia] | ].
  split; [split; [apply Z.div_pos; lia | apply Z.div_lt_upper_bound; lia] | ].
  split; [lia | ].
  intros Hneg. apply Z.div_lt_upper_bound; lia.
Qed.

Lemma format_uptime_floor_sample :
  UnraidUptimeSensor.uptime_seconds Samples.negative_uptime = Ok (Float.of_Z (-90000))
  /\ Py.int_of_float (Float.of_Z (-90000)) = Ok (-90000)
  /\ fst (UnraidUptimeSensor._format_uptime Z 1000000 Samples.minus_seconds
            Samples.negative_uptime UnraidUptimeSensor.initial)
     = Ok "-2d 23h 0m"
  /\ exists days hours minutes,
       fst (UnraidUptimeSensor._format_uptime Z 1000000 Samples.minus_seconds
              Samples.negative_uptime UnraidUptimeSensor.initial)
       = Ok (UnraidUptimeSensor.format_parts days hours minutes)
       /\ 0 <= hours < 24 /\ 0 <= minutes < 60
       /\ 0 <= -90000 - (86400 * days + 3600 * hours + 60 * minutes) < 60
       /\ (-90000 < 0 -> days < 0).
Proof.
  split; [reflexivity | ]. split; [reflexivity | ]. split; [reflexivity | ].
  exact (format_uptime_floor Z 1000000 Samples.minus_seconds Samples.negative_uptime
           (Float.of_Z (-90000)) (-90000) 1090000 UnraidUptimeSensor.initial
           eq_refl eq_refl eq_refl).
Defined.

(** X8. After the uptime has been read with success, the attributes show
    the boot time that read computed (the time of the read less the
    uptime), whenever they are asked for afterwards; before any read
    the boot time is [None]. *)
Theorem uptime_attributes_after_read
    (datetime : Type) (now later : datetime)
    (minus_seconds : datetime -> float -> option datetime)
    (isoformat : datetime -> string)
    (data : pyval) (f : float) (n : Z) (boot : datetime)
    (self : UnraidUptimeSensor.self datetime) :
  UnraidUptimeSensor.uptime_seconds data = Ok f ->
  Py.int_of_float f = Ok n ->
  minus_seconds now f = Some boot ->
  UnraidUptimeSensor.extra_state_attributes datetime later isoformat
    (snd (UnraidUptimeSensor._format_uptime datetime now minus_seconds data self))
  = PDict [(PStr "boot_time", PStr (isoformat boot));
           (PStr "last_update", PStr (isoformat later))].
Proof.
  intros Hf Hn Hb.
  rewrite (format_uptime_success datetime now minus_seconds data f n boot self
             Hf Hn Hb).
  reflexivity.
Qed.

Lemma uptime_attributes_after_read_sample :
  UnraidUptimeSensor.uptime_seconds Samples.uptime_90000 = Ok (Float.of_Z 90000)
  /\ Py.int_of_float (Float.of_Z 90000) = Ok 90000
  /\ UnraidUptimeSensor.extra_state_attributes Z 1000060 Samples.seconds_text
       UnraidUptimeSensor.initial
     = PDict [(PStr "boot_time", PNone); (PStr "last_update", PStr "1000060")]
  /\ UnraidUptimeSensor.extra_state_attributes Z 1000060 Samples.seconds_text
       (snd (UnraidUptimeSensor._format_uptime Z 1000000 Samples.minus_seconds
               Samples.uptime_90000 UnraidUptimeSensor.initial))
     = PDict [(PStr "boot_time", PStr "910000");
              (PStr "last_update", PStr "1000060")].
Proof.
  split; [reflexivity | ]. split; [reflexivity | ]. split; [reflexivity | ].
  exact (uptime_attributes_after_read Z 1000000 1000060 Samples.minus_seconds
           Samples.seconds_text Samples.uptime_90000 (Float.of_Z 90000) 90000 910000
           UnraidUptimeSensor.initial eq_refl eq_refl eq_refl).
Defined.

Lemma available_iff (key : string) (data : pyval) :
  (present <- Py.contains "system_stats" data ;;
   if present then
     stats <- Py.get data "system_stats" empty_dict ;;
     x <- Py.get stats key PNone ;;
     Ok (negb (Py.is_none x))
   else Ok false) = Ok true
  <-> exists v, Snapshot.field ["system_stats"; key] data = Some v
                /\ Py.is_none v = false.
Proof.
  split.
  - destruct data as [ | | | | s | l | items]; simpl; try discriminate.
    + destruct (Str.contains "system_stats" s); simpl; discriminate.
    + destruct (existsb (Py.is_str "system_stats") l); simpl; discriminate.
    + destruct (Py.lookup "system_stats" items) as [stats | ] eqn:E.
      * rewrite (lookup_some_contains _ _ _ E). simpl.
        destruct stats as [ | | | | | | stats]; simpl; try discriminate.
        destruct (Py.lookup key stats) as [v | ]; simpl; [ | discriminate].
        intros H. exists v. split; [reflexivity | ].
        destruct (Py.is_none v); [discriminate | reflexivity].
      * rewrite (lookup_none_contains _ _ E). simpl. discriminate.
  - intros (v & Hf & Hn). revert Hf. simpl.
    destruct data as [ | | | | | | items]; try discriminate.
    destruct (Py.lookup "system_stats" items) as [stats | ] eqn:E; [ | discriminate].
    destruct stats as [ | | | | | | stats]; try discriminate.
    destruct (Py.lookup key stats) as [x | ] eqn:Ek; [ | discriminate].
    intros H. injection H as ->. simpl.
    rewrite (lookup_some_contains _ _ _ E). simpl. rewrite E. simpl.
    rewrite Ek. simpl. rewrite Hn. reflexivity.
Qed.

(** X9. The CPU-usage and uptime sensors are available exactly when
    their field is in the snapshot and is not [None]; the CPU-usage sensor
    then reports the field as it is, and the uptime is the field
    converted with [float()]. *)
Theorem available_means_value (data : pyval) :
  (UnraidCPUUsageSensor.available_fn data = Ok true
   <-> exists v, Snapshot.field ["system_stats"; "cpu_usage"] data = Some v
                 /\ Py.is_none v = false)
  /\ (forall v, Snapshot.field ["system_stats"; "cpu_usage"] data = Some v ->
                UnraidCPUUsageSensor.value_fn data = Ok v)
  /\ (UnraidUptimeSensor.available_fn data = Ok true
      <-> exists v, Snapshot.field ["system_stats"; "uptime"] data = Some v
                    /\ Py.is_none v = false)
  /\ (forall v, Snapshot.field ["system_stats"; "uptime"] data = Some v ->
                UnraidUptimeSensor.uptime_seconds data = Py.to_float v).
Proof.
  split; [exact (available_iff "cpu_usage" data) | ].
  split; [intros v H; exact (field2_get _ _ _ _ empty_dict PNone H) | ].
  split; [exact (available_iff "uptime" data) | ].
  exact (uptime_seconds_field data).
Qed.

(** X10. The value of a storage sensor (Docker vDisk, log filesystem,
    boot device) is the stored percentage as it is, with no rounding or
    conversion, and [None] when a level of the snapshot is missing; the
    only exception it can raise is [AttributeError], for a level that is
    not a mapping. *)
Theorem storage_percentage_passes_through (entry : string) (data : pyval) :
  Spec.raises_only [AttributeError] (percentage_of entry data)
  /\ (forall v,
         Snapshot.field ["system_stats"; entry; "percentage"] data = Some v ->
         percentage_of entry data = Ok v)
  /\ (Snapshot.missing ["system_stats"; entry; "percentage"] data = true ->
      percentage_of entry data = Ok PNone).
Proof.
  split; [ | split].
  - unfold percentage_of.
    apply raises_only_bind; [apply raises_only_get; reflexivity | intros stats _].
    apply raises_only_bind; [apply raises_only_get; reflexivity | intros usage _].
    apply raises_only_get. reflexivity.
  - intros v Hf.
    destruct (field3_get _ _ _ _ _ empty_dict empty_dict PNone Hf)
      as (stats & usage & _ & E1 & E2 & E3).
    unfold percentage_of. rewrite E1. simpl. rewrite E2. simpl. exact E3.
  - unfold percentage_of. destruct data; simpl; try discriminate. missing_cases.
Qed.

(** X11. The attributes of a storage sensor never raise, provided the
    byte formatter raises nothing but [KeyError], [TypeError] and
    [AttributeError]: those are caught and give the empty mapping. *)
Theorem storage_attributes_never_raise
    (datetime : Type) (now : datetime) (isoformat : datetime -> string)
    (format_bytes : pyval -> result string) (entry : string) (data : pyval) :
  (forall v, Spec.raises_only [KeyError; TypeError; AttributeError]
               (format_bytes v)) ->
  exists r, storage_attributes datetime now isoformat format_bytes entry data
            = Ok r.
Proof.
  intros Hfb. apply try_except_total.
  apply raises_only_bind; [apply raises_only_get; reflexivity | intros stats _].
  apply raises_only_bind; [apply raises_only_get; reflexivity | intros usage _].
  apply raises_only_bind; [apply raises_only_get; reflexivity | intros total _].
  apply raises_only_bind; [apply Hfb | intros ts _].
  apply raises_only_bind; [apply raises_only_get; reflexivity | intros used _].
  apply raises_only_bind; [apply Hfb | intros us _].
  apply raises_only_bind; [apply raises_only_get; reflexivity | intros free _].
  apply raises_only_bind; [apply Hfb | intros fs _].
  exact I.
Qed.

Lemma bytes_text_raises_only (v : pyval) :
  Spec.raises_only [KeyError; TypeError; AttributeError] (Samples.bytes_text v).
Proof. destruct v; simpl; auto. Qed.

Lemma storage_attributes_never_raise_sample :
  exists r,
    UnraidDockerVDiskSensor.extra_state_attributes Z 1000000 Samples.seconds_text
      Samples.bytes_text Samples.text_percentage = Ok r.
Proof.
  exact (storage_attributes_never_raise Z 1000000 Samples.seconds_text Samples.bytes_text
           "docker_vdisk" Samples.text_percentage bytes_text_raises_only).
Defined.

(** X12. When the entry of a storage sensor is not a mapping, its value
    function raises [AttributeError], which nothing catches, while its
    attributes are the empty mapping. *)
Theorem storage_entry_not_mapping
    (datetime : Type) (now : datetime) (isoformat : datetime -> string)
    (format_bytes : pyval -> result string) (entry : string)
    (data usage : pyval) :
  Snapshot.field ["system_stats"; entry] data = Some usage ->
  Py.items usage = Raise AttributeError ->
  percentage_of entry data = Raise AttributeError
  /\ storage_attributes datetime now isoformat format_bytes entry data
     = Ok empty_dict.
Proof.
  intros Hf Hu.
  pose proof (field2_get _ _ _ _ empty_dict empty_dict Hf) as E.
  assert (Hg : forall k d, Py.get usage k d = Raise AttributeError).
  { intros k d. destruct usage; simpl in *; try reflexivity. discriminate. }
  unfold percentage_of, storage_attributes.
  destruct (Py.get data "system_stats" empty_dict) as [stats | e];
    simpl in E |- *; [ | discriminate].
  rewrite E. simpl. rewrite !Hg. split; reflexivity.
Qed.

(** X13. Attributes that are missing from the snapshot are shown as
    ["unknown"]: all five memory figures when there is no memory entry,
    the core count and the architecture when those two are absent; the
    time of the last update is always there. *)
Theorem attributes_default_unknown
    (datetime : Type) (now : datetime) (isoformat : datetime -> string)
    (data : pyval) :
  (Snapshot.missing ["system_stats"; "memory_usage"] data = true ->
   UnraidRAMUsageSensor.extra_state_attributes datetime now isoformat data
   = Ok (PDict [(PStr "total", PStr "unknown");
                (PStr "used", PStr "unknown");
                (PStr "free", PStr "unknown");
                (PStr "cached", PStr "unknown");
                (PStr "buffers", PStr "unknown");
                (PStr "last_update", PStr (isoformat now))]))
  /\ (Snapshot.missing ["system_stats"; "cpu_cores"] data = true ->
      Snapshot.missing ["system_stats"; "cpu_arch"] data = true ->
      UnraidCPUUsageSensor.extra_state_attributes datetime now isoformat data
      = Ok (PDict [(PStr "last_update", PStr (isoformat now));
                   (PStr "core_count", PStr "unknown");
                   (PStr "architecture", PStr "unknown")])).
Proof.
  split.
  - unfold UnraidRAMUsageSensor.extra_state_attributes.
    destruct data; simpl; try discriminate. missing_cases.
  - unfold UnraidCPUUsageSensor.extra_state_attributes.
    destruct data; simpl; try discriminate. missing_cases.
Qed.

Lemma storage_entry_not_mapping_sample :
  Snapshot.field ["system_stats"; "docker_vdisk"] Samples.text_entry = Some (PStr "n/a")
  /\ Py.items (PStr "n/a") = Raise AttributeError
  /\ UnraidDockerVDiskSensor.value_fn Samples.text_entry = Raise AttributeError
  /\ UnraidDockerVDiskSensor.extra_state_attributes Z 1000000 Samples.seconds_text
       Samples.bytes_text Samples.text_entry = Ok empty_dict.
Proof.
  split; [reflexivity | ]. split; [reflexivity | ].
  exact (storage_entry_not_mapping Z 1000000 Samples.seconds_text Samples.bytes_text
           "docker_vdisk" Samples.text_entry (PStr "n/a") eq_refl eq_refl).
Defined.










Lemma leb_valid (x y : float) :
  valid x -> valid y -> fin x -> fin y ->
  (Float.leb x y = true <-> IV x <= IV y).
Proof.
  intros Vx Vy Fx Fy. unfold Float.leb, SFleb.
  rewrite (compare_valid x y Vx Vy Fx Fy).
  destruct (Z.compare_spec (IV x) (IV y)); split; intros Hr;
    try reflexivity; try discriminate; lia.
Qed.

Lemma round_upper (B : Z) (q : float) :
  0 < B < 2 ^ 53 -> valid q -> fin q -> 0 <= IV q <= B * U ->
  valid (Float.round q 1) /\ fin (Float.round q 1)
  /\ 0 <= IV (Float.round q 1) <= B * U.
Proof.
  intros HB V F H. pose proof U_pos as HU.
  destruct q as [s | s | | s m e]; try discriminate.
  - simpl Float.round. exact (conj V (conj F H)).
  - unfold valid in V. simpl in V.
    pose proof (bounded_exp m e V) as [_ He].
    pose proof (IV_pos m e ltac:(lia)) as Hp.
    cbn [IV] in H. destruct s; cbn [cond_Zopp] in H; [lia | ].
    unfold Float.round.
    assert (Hmain :
              let r := Float.of_decimal false
                         (Float.scaled_half_even (S754_finite false m e) 1) (- (1)) in
              r = S754_zero false
              \/ exists m' e', r = S754_finite false m' e'
                               /\ bounded Float.prec Float.emax m' e' = true
                               /\ Zpos m' * 2 ^ (e' + 1074) <= B * U).
    { pose proof (scaled_le false m e B ltac:(lia) ltac:(lia) ltac:(lia)) as Hn.
      destruct (repr_small B HB) as (mb & eb & Hb & _ & _ & Hv & _).
      cbv zeta. unfold Float.of_decimal.
      destruct (Float.scaled_half_even (S754_finite false m e) 1) as [ | p | p];
        try (left; reflexivity).
      change (0 <=? - (1)) with false. cbv iota.
      change (Z.to_pos (10 ^ (- - (1)))) with 10%positive.
      rewrite of_ratio_bra.
      destruct (div_core_bound false p 10 mb 0 0 eb (-1074) Hb ltac:(lia) ltac:(lia))
        as [E | (m' & e' & E & Hbm & Hm)].
      { replace (eb - -1074) with (eb + 1074) by lia.
        change (2 ^ (0 - 0 - -1074)) with U.
        replace (Zpos mb * 10 * 2 ^ (eb + 1074))
          with (10 * (Zpos mb * 2 ^ (eb + 1074))) by ring.
        rewrite Hv. nia. }
      - left. exact E.
      - right. exists m', e'. split; [exact E | ]. split; [exact Hbm | ].
        replace (e' - -1074) with (e' + 1074) in Hm by lia.
        replace (eb - -1074) with (eb + 1074) in Hm by lia.
        rewrite Hv in Hm. exact Hm. }
    cbv zeta in Hmain.
    destruct Hmain as [E | (m' & e' & E & Hbm & Hm)]; rewrite E.
    + repeat split; cbn [IV]; try reflexivity; nia.
    + pose proof (bounded_exp m' e' Hbm) as [_ He'].
      pose proof (IV_pos m' e' ltac:(lia)).
      repeat split; try assumption; cbn [IV cond_Zopp]; lia.
Qed.

(** X16. A memory percentage that is a float within [0, 100] is reported
    rounded to one decimal, and the rounded value is still within
    [0, 100]. *)
Theorem ram_percentage_stays_percentage (data : pyval) (f : float) :
  Snapshot.field ["system_stats"; "memory_usage"; "percentage"] data
  = Some (PFloat f) ->
  valid f ->
  Float.leb (Float.of_Z 0) f = true ->
  Float.leb f (Float.of_Z 100) = true ->
  UnraidRAMUsageSensor.value_fn data = Ok (PFloat (Float.round f 1))
  /\ Float.leb (Float.of_Z 0) (Float.round f 1) = true
  /\ Float.leb (Float.round f 1) (Float.of_Z 100) = true.
Proof.
  intros Hf V H0 H100.
  assert (F : fin f).
  { destruct f as [s | s | | s m e]; try reflexivity; try discriminate.
    destruct s; discriminate. }
  assert (V0 : valid (Float.of_Z 0)) by reflexivity.
  assert (V100 : valid (Float.of_Z 100)) by reflexivity.
  assert (I100 : IV (Float.of_Z 100) = 100 * U) by (vm_compute; reflexivity).
  apply (leb_valid _ _ V0 V ltac:(reflexivity) F) in H0.
  apply (leb_valid _ _ V V100 F ltac:(reflexivity)) in H100.
  rewrite I100 in H100. change (IV (Float.of_Z 0)) with 0 in H0.
  destruct (round_upper 100 f ltac:(split; reflexivity) V F ltac:(lia))
    as (Vr & Fr & Hr).
  split.
  - destruct (field3_get _ _ _ _ _ empty_dict empty_dict (PInt 0) Hf)
      as (stats & mem & _ & E1 & E2 & E3).
    unfold UnraidRAMUsageSensor.value_fn. rewrite E1. simpl. rewrite E2. simpl.
    rewrite E3. reflexivity.
  - split.
    + apply (leb_valid _ _ V0 Vr ltac:(reflexivity) Fr).
      change (IV (Float.of_Z 0)) with 0. lia.
    + apply (leb_valid _ _ Vr V100 Fr ltac:(reflexivity)). rewrite I100. lia.
Qed.

Lemma ram_percentage_sample :
  Snapshot.field ["system_stats"; "memory_usage"; "percentage"]
    Samples.float_percentage
  = Some (PFloat (Float.of_decimal false 4567 (-2)))
  /\ UnraidRAMUsageSensor.value_fn Samples.float_percentage
     = Ok (PFloat (Float.of_decimal false 457 (-1)))
  /\ Float.leb (Float.of_Z 0) (Float.of_decimal false 457 (-1)) = true
  /\ Float.leb (Float.of_decimal false 457 (-1)) (Float.of_Z 100) = true.
Proof.
  split; [reflexivity | ].
  exact (ram_percentage_stays_percentage Samples.float_percentage
           (Float.of_decimal false 4567 (-2))
           eq_refl eq_refl eq_refl eq_refl).
Defined.
